(** * max_api: the entity codec (models.py) and the request executor (api.py)

    A shallow embedding of the [from_dict]/[to_dict] pairs of models.py and of
    [MaxBotAPI._build_url], [MaxBotAPI._request] and [MaxBotAPI.send_message]
    of api.py, followed by the properties of the specification that concern
    them.

    Conventions of the embedding.
    - A value decoded from JSON is a [json].  A Python dict with string keys
      is a [gmap string json]: equality of maps is Python's [==] on dicts,
      which does not look at the order of the keys.
    - Python does not check the annotations of a dataclass: a field that
      [from_dict] fills with [data[k]] or [data.get(k)] holds whatever the
      mapping holds, so such a field has type [json] ([JNull] is [None]).
      A field that the code builds itself (a list, a copied dict) has the
      type of what is built.  A field that holds an entity has the type of
      the instances that its annotation admits: those of the class and of
      its subclasses ([attachment_obj], [user_obj], [photo_user_obj]), each
      encoded by the [to_dict] of its own class.
    - Equality of entities is Leibniz equality of the records.  Equal records
      are [==] in Python; the records shown to differ below differ by a
      [None] against a dict, by their class, or by a missing key, which
      Python's [==] tells apart as well.
    - A raised exception is [Raise e]; [Unmodelled] marks the few inputs on
      which Python builds a value that is not a [json] (see [py_dict] and
      [py_list]): nothing is claimed about the value.  Where the code goes
      on after it has built such a value ([Chat.from_dict]), the exceptions
      of the steps that follow are still those of the code. *)

From Stdlib Require Import QArith Ascii.
From stdpp Require Import gmap strings list fin_maps pretty.

#[local] Set Warnings "-register-all".
#[local] Open Scope string_scope.

(** ** JSON values, as [json.loads] builds them *)

Inductive json : Type :=
  | JNull
  | JBool (b : bool)
  | JInt (n : Z)
  | JFloat (q : Q)
  | JStr (s : string)
  | JList (l : list json)
  | JDict (m : gmap string json).

Abbreviation dict := (gmap string json).

(** ** Exceptions and outcomes *)

(** The body of a [MaxAPIError] (api.py, the dataclass of that name). *)
Record MaxAPIError : Type := mkMaxAPIError {
  status_code : Z;
  error_code : json;
  message : json;
  details : option dict
}.

Inductive exn : Type :=
  | KeyError (key : string)
  | TypeError
  | AttributeError
  | ValueError
  | RequestException
  | APIError (e : MaxAPIError).

Inductive result (A : Type) : Type :=
  | Ok (a : A)
  | Raise (e : exn)
  | Unmodelled.
Arguments Ok {A} a.
Arguments Raise {A} e.
Arguments Unmodelled {A}.

#[global] Instance result_ret : MRet result := @Ok.
#[global] Instance result_bind : MBind result := λ A B f r,
  match r with
  | Ok a => f a
  | Raise e => Raise e
  | Unmodelled => Unmodelled
  end.

(** ** The Python operations the codec uses *)

(** [bool(v)]: the falsy values are [None], [False], zero, and the empty
    string, list and dict. *)
Definition truthy (v : json) : bool :=
  match v with
  | JNull => false
  | JBool b => b
  | JInt n => negb (n =? 0)%Z
  | JFloat q => negb (Qnum q =? 0)%Z
  | JStr s => negb (String.eqb s EmptyString)
  | JList l => match l with [] => false | _ => true end
  | JDict m => negb (bool_decide (m = ∅))
  end.

(** [data[k]]: [KeyError] on a dict without [k]; every other JSON value
    rejects a string subscript with [TypeError]. *)
Definition subscript (data : json) (k : string) : result json :=
  match data with
  | JDict m => match m !! k with Some v => Ok v | None => Raise (KeyError k) end
  | _ => Raise TypeError
  end.

(** [data.get(k, dflt)]: only a dict has [get]. *)
Definition get_default (data : json) (k : string) (dflt : json) : result json :=
  match data with
  | JDict m => Ok (default dflt (m !! k))
  | _ => Raise AttributeError
  end.

(** [data.get(k)] *)
Definition get (data : json) (k : string) : result json :=
  get_default data k JNull.

(** [a or b] *)
Definition py_or (a b : json) : json := if truthy a then a else b.

(** [isinstance(v, Mapping)] *)
Definition is_mapping (v : json) : bool :=
  match v with JDict _ => true | _ => false end.

(** A dict display [{k1: v1, ..., kn: vn}]: a later entry replaces an
    earlier one of the same key. *)
Definition mkdict (l : list (string * json)) : dict :=
  fold_left (λ m p, <[p.1 := p.2]> m) l ∅.

(** One element of the sequence given to [dict(...)], read as a pair: a list
    of two elements, a string of two characters or a dict of two keys.  An
    element that is not iterable, and a key that is a list or a dict, raise
    TypeError; an element of another length raises ValueError.  Python
    accepts a pair whose key is a number, a boolean or [None], and the keys
    of a dict of two keys in the order of their insertion, which a [gmap]
    does not record: such a pair is outside the model. *)
Definition as_pair (x : json) : result (string * json) :=
  match x with
  | JList [k; v] =>
      match k with
      | JStr s => Ok (s, v)
      | JList _ | JDict _ => Raise TypeError
      | _ => Unmodelled
      end
  | JList _ => Raise ValueError
  | JStr s =>
      match s with
      | String a (String b EmptyString) =>
          Ok (String a EmptyString, JStr (String b EmptyString))
      | _ => Raise ValueError
      end
  | JDict m => if (size m =? 2)%nat then Unmodelled else Raise ValueError
  | _ => Raise TypeError
  end.

(** The dict built from a sequence of pairs, one after the other: the first
    element that is no pair raises, and a later pair replaces an earlier one
    of the same key.  Once a pair is outside the model so is the dict, but
    the elements that follow are still read and may still raise. *)
Fixpoint dict_of_pairs (l : list json) (acc : result dict) : result dict :=
  match l with
  | [] => acc
  | x :: l =>
      match as_pair x with
      | Ok (k, v) => dict_of_pairs l (m ← acc; Ok (<[k := v]> m))
      | Raise e => Raise e
      | Unmodelled => dict_of_pairs l Unmodelled
      end
  end.

(** [dict(v)].  A dict is copied; a list is read as a sequence of pairs; a
    number, a boolean or [None] is not iterable; the empty string gives the
    empty dict, and the first element of a non-empty string is a string of
    length one, which is not a pair.  The outcome is [Unmodelled] exactly
    when Python builds a dict that the model does not determine: one with
    a key that is no string, or with a pair taken from the keys of a
    dict. *)
Definition py_dict (v : json) : result dict :=
  match v with
  | JDict m => Ok m
  | JList l => dict_of_pairs l (Ok ∅)
  | JStr s => if String.eqb s EmptyString then Ok ∅ else Raise ValueError
  | _ => Raise TypeError
  end.

(** The exception of a step, for a step whose value is used later: a value
    outside the model does not stop the code. *)
Definition raised {A} (r : result A) : result unit :=
  match r with
  | Raise e => Raise e
  | _ => Ok ()
  end.

(** [list(v)].  A list is copied; a string gives its characters; a dict
    gives its keys in insertion order, which a [gmap] does not record, so a
    dict of two or more keys is left out of the model. *)
Definition py_list (v : json) : result (list json) :=
  match v with
  | JList l => Ok l
  | JStr s => Ok ((λ c, JStr (String c EmptyString)) <$> String.list_ascii_of_string s)
  | JDict m =>
      match map_to_list m with
      | [] => Ok []
      | [(k, _)] => Ok [JStr k]
      | _ => Unmodelled
      end
  | _ => Raise TypeError
  end.

(** [x.to_dict() if x else None]: an instance of a dataclass is truthy. *)
Definition opt_to_json {A} (f : A → dict) (x : option A) : json :=
  match x with Some a => JDict (f a) | None => JNull end.

(** [E.from_dict(raw) if isinstance(raw, Mapping) else None] *)
Definition opt_from_dict {A} (f : json → result A) (raw : json) : result (option A) :=
  if is_mapping raw then a ← f raw; Ok (Some a) else Ok None.

(** ** models.py *)

Module User.
Record t : Type := mk {
  user_id : json;
  first_name : json;
  last_name : json;
  username : json;
  is_bot : json;
  last_activity_time : json;
  name : json
}.

Definition from_dict (data : json) : result t :=
  user_id ← subscript data "user_id";
  first_name ← subscript data "first_name";
  last_name ← get data "last_name";
  username ← get data "username";
  is_bot ← subscript data "is_bot";
  last_activity_time ← subscript data "last_activity_time";
  name ← get data "name";
  Ok (mk user_id first_name last_name username is_bot last_activity_time name).

Definition to_dict (self : t) : dict :=
  mkdict [("user_id", user_id self);
          ("first_name", first_name self);
          ("last_name", last_name self);
          ("username", username self);
          ("is_bot", is_bot self);
          ("last_activity_time", last_activity_time self);
          ("name", name self)].
End User.

(** [UserWithPhoto(User)].  [from_dict] unpacks [base.to_dict()] into the
    keyword arguments of [cls]: its seven entries are named after the seven
    inherited fields, so the inherited part of the new object is [base]. *)
Module UserWithPhoto.
Record t : Type := mk {
  base : User.t;
  description : json;
  avatar_url : json;
  full_avatar_url : json
}.

Definition from_dict (data : json) : result t :=
  base ← User.from_dict data;
  description ← get data "description";
  avatar_url ← get data "avatar_url";
  full_avatar_url ← get data "full_avatar_url";
  Ok (mk base description avatar_url full_avatar_url).

Definition to_dict (self : t) : dict :=
  let d := User.to_dict (base self) in
  mkdict [("description", description self);
          ("avatar_url", avatar_url self);
          ("full_avatar_url", full_avatar_url self)] ∪ d.
End UserWithPhoto.

(** [ChatMember(UserWithPhoto)]: the third level of the chain, built like
    the second from the entries of [base.to_dict()].  The embedding is that
    of the two methods as they are written.  The declaration of the class
    puts four fields without a default after the inherited fields that have
    one ([name], [description], ...): the [dataclass] decorator of Python
    rejects such a declaration with a TypeError, which the embedding of the
    methods does not show. *)
Module ChatMember.
Record t : Type := mk {
  base : UserWithPhoto.t;
  last_access_time : json;
  is_owner : json;
  is_admin : json;
  join_time : json;
  permissions : option (list json)
}.

Definition from_dict (data : json) : result t :=
  base ← UserWithPhoto.from_dict data;
  last_access_time ← subscript data "last_access_time";
  is_owner ← subscript data "is_owner";
  is_admin ← subscript data "is_admin";
  join_time ← subscript data "join_time";
  permissions_raw ← get data "permissions";
  permissions ← match permissions_raw with
                | JNull => Ok None
                | _ => p ← subscript data "permissions";
                       l ← py_list p;
                       Ok (Some l)
                end;
  Ok (mk base last_access_time is_owner is_admin join_time permissions).

Definition to_dict (self : t) : dict :=
  let d := UserWithPhoto.to_dict (base self) in
  mkdict [("last_access_time", last_access_time self);
          ("is_owner", is_owner self);
          ("is_admin", is_admin self);
          ("join_time", join_time self);
          ("permissions", from_option JList JNull (permissions self))] ∪ d.
End ChatMember.

(** What a field annotated [User] can hold: an instance of [User] or of one
    of its subclasses.  [u.to_dict()] runs the method of the class of [u];
    two instances of different classes are never [==]. *)
Inductive user_obj : Type :=
  | PlainUser (u : User.t)
  | PhotoUser (u : UserWithPhoto.t)
  | MemberUser (u : ChatMember.t).

Definition user_to_dict (u : user_obj) : dict :=
  match u with
  | PlainUser u => User.to_dict u
  | PhotoUser u => UserWithPhoto.to_dict u
  | MemberUser u => ChatMember.to_dict u
  end.

(** [User.from_dict(raw)]: the class is named, the instance is of the base
    class. *)
Definition decode_user (raw : json) : result user_obj :=
  u ← User.from_dict raw; Ok (PlainUser u).

(** What a field annotated [UserWithPhoto] can hold. *)
Inductive photo_user_obj : Type :=
  | PlainPhotoUser (u : UserWithPhoto.t)
  | MemberPhotoUser (u : ChatMember.t).

Definition photo_user_to_dict (u : photo_user_obj) : dict :=
  match u with
  | PlainPhotoUser u => UserWithPhoto.to_dict u
  | MemberPhotoUser u => ChatMember.to_dict u
  end.

(** [UserWithPhoto.from_dict(raw)] *)
Definition decode_photo_user (raw : json) : result photo_user_obj :=
  u ← UserWithPhoto.from_dict raw; Ok (PlainPhotoUser u).

Module Recipient.
Record t : Type := mk {
  chat_id : json;
  chat_type : json;
  user_id : json
}.

Definition from_dict (data : json) : result t :=
  chat_id ← get data "chat_id";
  chat_type ← subscript data "chat_type";
  user_id ← get data "user_id";
  Ok (mk chat_id chat_type user_id).

Definition to_dict (self : t) : dict :=
  mkdict [("chat_id", chat_id self);
          ("chat_type", chat_type self);
          ("user_id", user_id self)].
End Recipient.

Module Attachment.
Record t : Type := mk {
  type : json;
  payload : json
}.

Definition from_dict (data : json) : result t :=
  type ← subscript data "type";
  payload ← get data "payload";
  Ok (mk type payload).

Definition to_dict (self : t) : dict :=
  let d := mkdict [("type", type self)] in
  match payload self with
  | JNull => d
  | p => <["payload" := p]> d
  end.
End Attachment.

(** [LocationAttachment(Attachment)].  [from_dict] stores a payload on which
    [get] succeeded, hence a dict, and [to_dict] copies the payload with
    [dict(...)]: the field is a dict or [None]. *)
Module LocationAttachment.
Record t : Type := mk {
  type : json;
  payload : option dict;
  latitude : json;
  longitude : json
}.

Definition from_dict (data : json) : result t :=
  raw ← get data "payload";
  let payload := py_or raw (JDict ∅) in
  type ← subscript data "type";
  match payload with
  | JDict m =>
      Ok (mk type (Some m)
            (default (JFloat 0) (m !! "latitude"))
            (default (JFloat 0) (m !! "longitude")))
  | _ => Raise AttributeError
  end.

Definition to_dict (self : t) : dict :=
  let payload := default ∅ (payload self) in
  let payload := <["latitude" := latitude self]> payload in
  let payload := <["longitude" := longitude self]> payload in
  mkdict [("type", type self); ("payload", JDict payload)].
End LocationAttachment.

(** What a variable of type [Attachment] can hold: an instance of the base
    class or of its subclass.  [a.to_dict()] runs the method of the class of
    [a]; two instances of different classes are never [==]. *)
Inductive attachment_obj : Type :=
  | Base (a : Attachment.t)
  | Location (l : LocationAttachment.t).

Definition attachment_to_dict (a : attachment_obj) : dict :=
  match a with
  | Base a => Attachment.to_dict a
  | Location l => LocationAttachment.to_dict l
  end.

(** [[Attachment.from_dict(a) for a in v]], where [v] is [raw or []].  It is
    the decoder of the base class that runs on every element.  A [v] that is
    not a list is truthy: a number or [True] is not iterable, and the
    elements of a string or of a dict are strings, on which
    [Attachment.from_dict] fails at its first subscript. *)
Definition decode_attachments (v : json) : result (list attachment_obj) :=
  match v with
  | JList l => mapM (λ a, x ← Attachment.from_dict a; Ok (Base x)) l
  | _ => Raise TypeError
  end.

Definition encode_attachments (l : list attachment_obj) : json :=
  JList ((λ a, JDict (attachment_to_dict a)) <$> l).

Module MessageStat.
Record t : Type := mk { views : json }.

Definition from_dict (data : json) : result t :=
  views ← subscript data "views";
  Ok (mk views).

Definition to_dict (self : t) : dict := mkdict [("views", views self)].
End MessageStat.

Module MessageBody.
Record t : Type := mk {
  mid : json;
  seq : json;
  text : json;
  attachments : list attachment_obj;
  markup : json
}.

Definition from_dict (data : json) : result t :=
  raw ← get data "attachments";
  attachments ← decode_attachments (py_or raw (JList []));
  mid ← subscript data "mid";
  seq ← subscript data "seq";
  text ← get data "text";
  markup ← get data "markup";
  Ok (mk mid seq text attachments markup).

Definition to_dict (self : t) : dict :=
  mkdict [("mid", mid self);
          ("seq", seq self);
          ("text", text self);
          ("attachments", encode_attachments (attachments self));
          ("markup", markup self)].
End MessageBody.

Module NewMessageBody.
Record t : Type := mk {
  text : json;
  attachments : list attachment_obj;
  link : json;
  notify : json;
  format : json
}.

Definition from_dict (data : json) : result t :=
  raw ← get data "attachments";
  attachments ← decode_attachments (py_or raw (JList []));
  text ← get data "text";
  link ← get data "link";
  notify ← get_default data "notify" (JBool true);
  format ← get data "format";
  Ok (mk text attachments link notify format).

Definition to_dict (self : t) : dict :=
  mkdict [("text", text self);
          ("attachments", encode_attachments (attachments self));
          ("link", link self);
          ("notify", notify self);
          ("format", format self)].
End NewMessageBody.

Module LinkedMessage.
Record t : Type := mk {
  type : json;
  sender : option user_obj;
  chat_id : json;
  message : MessageBody.t
}.

Definition from_dict (data : json) : result t :=
  sender_raw ← get data "sender";
  sender ← opt_from_dict decode_user sender_raw;
  type ← subscript data "type";
  chat_id ← subscript data "chat_id";
  message_raw ← subscript data "message";
  message ← MessageBody.from_dict message_raw;
  Ok (mk type sender chat_id message).

Definition to_dict (self : t) : dict :=
  mkdict [("type", type self);
          ("sender", opt_to_json user_to_dict (sender self));
          ("chat_id", chat_id self);
          ("message", JDict (MessageBody.to_dict (message self)))].
End LinkedMessage.

Module Message.
Record t : Type := mk {
  recipient : Recipient.t;
  body : MessageBody.t;
  timestamp : json;
  sender : option user_obj;
  link : option LinkedMessage.t;
  stat : option MessageStat.t;
  url : json
}.

Definition from_dict (data : json) : result t :=
  sender_raw ← get data "sender";
  link_raw ← get data "link";
  stat_raw ← get data "stat";
  sender ← opt_from_dict decode_user sender_raw;
  link ← opt_from_dict LinkedMessage.from_dict link_raw;
  stat ← opt_from_dict MessageStat.from_dict stat_raw;
  recipient_raw ← subscript data "recipient";
  recipient ← Recipient.from_dict recipient_raw;
  body_raw ← subscript data "body";
  body ← MessageBody.from_dict body_raw;
  timestamp ← subscript data "timestamp";
  url ← get data "url";
  Ok (mk recipient body timestamp sender link stat url).

Definition to_dict (self : t) : dict :=
  mkdict [("sender", opt_to_json user_to_dict (sender self));
          ("recipient", JDict (Recipient.to_dict (recipient self)));
          ("timestamp", timestamp self);
          ("link", opt_to_json LinkedMessage.to_dict (link self));
          ("body", JDict (MessageBody.to_dict (body self)));
          ("stat", opt_to_json MessageStat.to_dict (stat self));
          ("url", url self)].
End Message.

Module Chat.
Record t : Type := mk {
  chat_id : json;
  type : json;
  status : json;
  title : json;
  last_event_time : json;
  participants_count : json;
  icon : json;
  is_public : json;
  description : json;
  owner_id : json;
  participants : option dict;
  link : json;
  dialog_with_user : option photo_user_obj;
  chat_message_id : json;
  pinned_message : option Message.t
}.

(** [if participants is not None: participants = dict(participants)].  The
    copy is made first and stored last: [from_dict] below raises what the
    copy raises, reads the other entries, and only then needs the copy. *)
Definition copy_participants (participants : json) : result (option dict) :=
  match participants with
  | JNull => Ok None
  | p => m ← py_dict p; Ok (Some m)
  end.

Definition from_dict (data : json) : result t :=
  participants_raw ← get data "participants";
  let participants := copy_participants participants_raw in
  _ ← raised participants;
  dialog_raw ← get data "dialog_with_user";
  dialog ← opt_from_dict decode_photo_user dialog_raw;
  pinned_raw ← get data "pinned_message";
  pinned ← opt_from_dict Message.from_dict pinned_raw;
  chat_id ← subscript data "chat_id";
  type ← subscript data "type";
  status ← subscript data "status";
  title ← get data "title";
  last_event_time ← subscript data "last_event_time";
  participants_count ← subscript data "participants_count";
  icon ← get data "icon";
  is_public ← subscript data "is_public";
  description ← get data "description";
  owner_id ← get data "owner_id";
  link ← get data "link";
  chat_message_id ← get data "chat_message_id";
  participants ← participants;
  Ok (mk chat_id type status title last_event_time participants_count icon
         is_public description owner_id participants link dialog
         chat_message_id pinned).

Definition to_dict (self : t) : dict :=
  mkdict [("chat_id", chat_id self);
          ("type", type self);
          ("status", status self);
          ("title", title self);
          ("last_event_time", last_event_time self);
          ("participants_count", participants_count self);
          ("icon", icon self);
          ("is_public", is_public self);
          ("description", description self);
          ("owner_id", owner_id self);
          ("participants", from_option JDict JNull (participants self));
          ("link", link self);
          ("dialog_with_user",
             opt_to_json photo_user_to_dict (dialog_with_user self));
          ("chat_message_id", chat_message_id self);
          ("pinned_message", opt_to_json Message.to_dict (pinned_message self))].
End Chat.

Module ChatAdmin.
Record t : Type := mk {
  user_id : json;
  permissions : list json
}.

Definition from_dict (data : json) : result t :=
  user_id ← subscript data "user_id";
  permissions_raw ← get data "permissions";
  permissions ← py_list (py_or permissions_raw (JList []));
  Ok (mk user_id permissions).

Definition to_dict (self : t) : dict :=
  mkdict [("user_id", user_id self);
          ("permissions", JList (permissions self))].
End ChatAdmin.

Module Update.
Record t : Type := mk {
  update_type : json;
  timestamp : json;
  payload : dict
}.

(** The keys that [from_dict] keeps out of [payload]. *)
Definition reserved (k : string) : Prop :=
  k = "update_type" ∨ k = "timestamp".

#[global] Instance reserved_dec k : Decision (reserved k).
Proof. unfold reserved. apply _. Defined.

Definition from_dict (data : json) : result t :=
  update_type ← subscript data "update_type";
  timestamp ← subscript data "timestamp";
  match data with
  | JDict m =>
      Ok (mk update_type timestamp (filter (λ kv, ¬ reserved kv.1) m))
  | _ => Raise AttributeError
  end.

Definition to_dict (self : t) : dict :=
  let data := payload self in
  let data := <["update_type" := update_type self]> data in
  let data := <["timestamp" := timestamp self]> data in
  data.
End Update.

(** ** api.py *)

(** *** Strings *)

(** [s.rstrip("/")]: [s] without its trailing slashes. *)
Fixpoint rstrip_slash (s : string) : string :=
  match s with
  | EmptyString => EmptyString
  | String c s' =>
      match rstrip_slash s' with
      | EmptyString => if Ascii.eqb c "/"%char then EmptyString else String c EmptyString
      | r => String c r
      end
  end.

(** [s.startswith("/")] *)
Definition startswith_slash (s : string) : bool :=
  match s with
  | String c _ => Ascii.eqb c "/"%char
  | EmptyString => false
  end.

(** [s.endswith("/")] *)
Fixpoint endswith_slash (s : string) : bool :=
  match s with
  | EmptyString => false
  | String c EmptyString => Ascii.eqb c "/"%char
  | String _ s' => endswith_slash s'
  end.

(** [sub in s] *)
Fixpoint contains (sub s : string) : bool :=
  String.prefix sub s ||
  match s with
  | EmptyString => false
  | String _ s' => contains sub s'
  end.

Definition ascii_upper (c : ascii) : ascii :=
  let n := Ascii.N_of_ascii c in
  if ((97 <=? n) && (n <=? 122))%N then Ascii.ascii_of_N (n - 32) else c.

(** [s.upper()], on ASCII letters. *)
Fixpoint upper (s : string) : string :=
  match s with
  | EmptyString => EmptyString
  | String c s' => String (ascii_upper c) (upper s')
  end.

(** *** The transport *)

(** The keyword arguments of [requests.Session.request]. *)
Module HttpRequest.
Record t : Type := mk {
  method : string;
  url : string;
  params : dict;
  json : option json;
  timeout : option Q
}.
End HttpRequest.

(** What [_request] reads of a [requests.Response]: [content_type] is
    [headers.get("Content-Type")], and [json] is the value of [resp.json()],
    [None] when that call raises [ValueError]. *)
Module Response.
Record t : Type := mk {
  status_code : Z;
  content_type : option string;
  text : string;
  json : option json
}.

(** [resp.ok]: requests gives [True] unless [raise_for_status()] raises,
    which it does for a status from 400 to 599. *)
Definition ok (resp : t) : bool :=
  negb ((400 <=? status_code resp)%Z && (status_code resp <? 600)%Z).
End Response.

(** A value returned to the caller of the client: what [_request] returned,
    or a model built from it. *)
Inductive api_value : Type :=
  | Raw (v : json)
  | AsMessage (m : Message.t).

(** *** The methods of the client *)

(** An outcome of a method of the client, and the requests handed to the
    session, from the requests handed to it before the call. *)
Definition api (A : Type) : Type :=
  list HttpRequest.t → result A * list HttpRequest.t.

(** [data = self._request(...)] followed by the rest of the method, which
    hands nothing to the session. *)
Definition and_then {A B} (m : api A) (f : A → result B) : api B :=
  λ log, let '(r, log) := m log in (r ≫= f, log).

(** What a method with an [as_models] flag returns: the value that
    [_request] returned, or models built from it. *)
Inductive returned (A : Type) : Type :=
  | Data (v : json)
  | Models (a : A).
Arguments Data {A} v.
Arguments Models {A} a.

(** The dict [{"marker": ..., "<items>": [...]}] of a page of models; the
    key of the items is [updates], [chats], [members] or [admins]. *)
Record page (A : Type) : Type := mkpage {
  marker : json;
  items : list A
}.
Arguments mkpage {A} marker items.
Arguments marker {A} p.
Arguments items {A} p.

(** [[E.from_dict(x) for x in v]].  A list gives its elements and a string
    its characters; a number, a boolean or [None] is not iterable.  A dict
    gives its keys in insertion order, which a [gmap] does not record: a
    dict of two or more keys is left out of the model. *)
Definition comprehension {A} (dec : json → result A) (v : json) : result (list A) :=
  match v with
  | JList l => mapM dec l
  | JStr s =>
      mapM dec ((λ c, JStr (String c EmptyString)) <$> String.list_ascii_of_string s)
  | JDict m =>
      match map_to_list m with
      | [] => Ok []
      | [(k, _)] => mapM dec [JStr k]
      | _ => Unmodelled
      end
  | _ => Raise TypeError
  end.

(** [sep.join(l)] for a list of strings. *)
Definition join (sep : string) (l : list string) : string :=
  String.concat sep l.

(** [f"{v}"]: a string is itself and an integer its decimal digits; the
    text of a float, a list or a dict is left out of the model. *)
Definition format_value (v : json) : result string :=
  match v with
  | JNull => Ok "None"
  | JBool b => Ok (if b then "True" else "False")
  | JInt n => Ok (pretty n)
  | JStr s => Ok s
  | _ => Unmodelled
  end.

(** [sep.join(parts)]: every part has to be a string. *)
Definition join_parts (sep : string) (parts : list json) : result string :=
  l ← mapM (λ v, match v with JStr s => Ok s | _ => Raise TypeError end) parts;
  Ok (join sep l).

(** [MaxAPIError.__str__] *)
Definition MaxAPIError__str__ (self : MaxAPIError) : result string :=
  let parts := [JStr ("HTTP " +:+ pretty (status_code self))] in
  parts ← (if truthy (error_code self)
           then s ← format_value (error_code self);
                Ok (parts ++ [JStr ("code=" +:+ s)])%list
           else Ok parts);
  let parts := if truthy (message self)
               then (parts ++ [message self])%list
               else parts in
  join_parts ": " parts.

Module MaxBotAPI.
Record t : Type := mk {
  _access_token : string;
  _base_url : string;
  _timeout : option Q;
  _session : HttpRequest.t → result Response.t;
  _use_models : bool
}.

Definition __init__ (access_token base_url : string) (timeout : option Q)
    (session : HttpRequest.t → result Response.t) (use_models : bool) : t :=
  mk access_token (rstrip_slash base_url) timeout session use_models.

Definition _build_url (self : t) (path : string) : string :=
  let path := if negb (startswith_slash path) then "/" +:+ path else path in
  _base_url self +:+ path.

Definition _should_use_models (self : t) (as_models : option bool) : bool :=
  match as_models with
  | None => _use_models self
  | Some b => b
  end.

(** [query.setdefault(k, v)] *)
Definition setdefault (query : dict) (k : string) (v : json) : dict :=
  match query !! k with
  | Some _ => query
  | None => <[k := v]> query
  end.

(** The query of [_request]: [params], when it is not empty, copied into an
    empty dict, then [setdefault] of the token. *)
Definition request_query (self : t) (params : option dict) : dict :=
  let query : dict := ∅ in
  let query :=
    match params with
    | Some p => if bool_decide (p = ∅) then query else p ∪ query
    | None => query
    end in
  setdefault query "access_token" (JStr (_access_token self)).

(** The variable [data] of [_request]: the parsed body when the content type
    names JSON and the body parses, [None] otherwise. *)
Definition response_data (resp : Response.t) : json :=
  let content_type := default EmptyString (Response.content_type resp) in
  if contains "application/json" content_type
  then match Response.json resp with
       | Some v => v
       | None => JNull
       end
  else JNull.

(** The end of [_request], from the test of [resp.ok] on. *)
Definition response_outcome (resp : Response.t) (data : json) : result json :=
  if negb (Response.ok resp) then
    match data with
    | JDict m =>
        Raise (APIError (mkMaxAPIError (Response.status_code resp)
                           (default JNull (m !! "code"))
                           (default JNull (m !! "message"))
                           (Some m)))
    | _ =>
        Raise (APIError (mkMaxAPIError (Response.status_code resp)
                           JNull JNull None))
    end
  else
    Ok (match data with
        | JNull => JStr (Response.text resp)
        | v => v
        end).

(** The keyword arguments that [_request] hands to [self._session.request]. *)
Definition request_args (self : t) (method path : string) (params : option dict)
    (json_body : option json) (timeout : option Q) : HttpRequest.t :=
  let url := _build_url self path in
  let query := request_query self params in
  HttpRequest.mk (upper method) url query json_body
    (match timeout with Some x => Some x | None => _timeout self end).

(** [_request].  The last argument is the list of the requests handed to
    the session so far; the result carries the list after the call.  An
    exception of the session goes to the caller. *)
Definition _request (self : t) (method path : string) (params : option dict)
    (json_body : option json) (timeout : option Q)
    (log : list HttpRequest.t) : result json * list HttpRequest.t :=
  let req := request_args self method path params json_body timeout in
  let log := (log ++ [req])%list in
  match _session self req with
  | Ok resp => (response_outcome resp (response_data resp), log)
  | Raise e => (Raise e, log)
  | Unmodelled => (Unmodelled, log)
  end.

Definition send_message (self : t) (chat_id user_id : option Z)
    (text : option string) (attachments : option (list dict))
    (disable_link_preview : option bool) (extra : option dict)
    (as_models : option bool)
    (log : list HttpRequest.t) : result api_value * list HttpRequest.t :=
  match chat_id, user_id with
  | None, None => (Raise ValueError, log)
  | _, _ =>
      let params : dict := ∅ in
      let params := match user_id with
                    | Some u => <["user_id" := JInt u]> params
                    | None => params
                    end in
      let params := match chat_id with
                    | Some c => <["chat_id" := JInt c]> params
                    | None => params
                    end in
      let params := match disable_link_preview with
                    | Some b => <["disable_link_preview" := JBool b]> params
                    | None => params
                    end in
      let body : dict := ∅ in
      let body := match text with
                  | Some s => <["text" := JStr s]> body
                  | None => body
                  end in
      let body := match attachments with
                  | Some l => <["attachments" := JList (JDict <$> l)]> body
                  | None => body
                  end in
      let body := match extra with
                  | Some e => if bool_decide (e = ∅) then body else e ∪ body
                  | None => body
                  end in
      let '(r, log) :=
        _request self "POST" "/messages" (Some params) (Some (JDict body)) None log in
      match r with
      | Ok data =>
          let raw := (Ok (Raw data), log) in
          match data with
          | JDict d =>
              if _should_use_models self as_models then
                let msg := default JNull (d !! "message") in
                if is_mapping msg
                then (m ← Message.from_dict msg; Ok (AsMessage m), log)
                else raw
              else raw
          | _ => raw
          end
      | Raise e => (Raise e, log)
      | Unmodelled => (Unmodelled, log)
      end
  end.

(** The body of [send_message] and of [edit_message]. *)
Definition message_body (text : option string) (attachments : option (list dict))
    (extra : option dict) : dict :=
  let body : dict := ∅ in
  let body := match text with
              | Some s => <["text" := JStr s]> body
              | None => body
              end in
  let body := match attachments with
              | Some l => <["attachments" := JList (JDict <$> l)]> body
              | None => body
              end in
  match extra with
  | Some e => if bool_decide (e = ∅) then body else e ∪ body
  | None => body
  end.

(** [params[k] = v] when the optional argument is given. *)
Definition set_if {A} (k : string) (f : A → json) (x : option A) (params : dict) : dict :=
  match x with
  | Some a => <[k := f a]> params
  | None => params
  end.

(** [params[k] = ",".join(l)] when the optional sequence is given and not
    empty. *)
Definition set_joined (k : string) (l : option (list string)) (params : dict) : dict :=
  match l with
  | Some ((_ :: _) as l) => <[k := JStr (join "," l)]> params
  | _ => params
  end.

(** The page that a listing method builds from a mapping:
    [{"marker": data.get("marker"), key: [E.from_dict(x) for x in raw]}]
    with [raw = data.get(key) or []]. *)
Definition decode_page {A} (dec : json → result A) (key : string) (data : json) :
    result (page A) :=
  raw ← get data key;
  marker ← get data "marker";
  items ← comprehension dec (py_or raw (JList []));
  Ok (mkpage marker items).

Definition get_me (self : t) : api json :=
  _request self "GET" "/me" None None None.

Definition get_messages (self : t) (chat_id : option Z)
    (message_ids : option (list string)) (from_timestamp to_timestamp : option Z)
    (count : Z) (as_models : option bool) : api (returned (list Message.t)) :=
  let params : dict := mkdict [("count", JInt count)] in
  let params := set_if "chat_id" JInt chat_id params in
  let params := set_joined "message_ids" message_ids params in
  let params := set_if "from" JInt from_timestamp params in
  let params := set_if "to" JInt to_timestamp params in
  and_then (_request self "GET" "/messages" (Some params) None None) (λ data,
    if _should_use_models self as_models && is_mapping data then
      raw_messages ← get data "messages";
      l ← comprehension Message.from_dict (py_or raw_messages (JList []));
      Ok (Models l)
    else Ok (Data data)).

Definition get_message (self : t) (message_id : string)
    (as_models : option bool) : api (returned Message.t) :=
  let path := "/messages/" +:+ message_id in
  and_then (_request self "GET" path None None None) (λ data,
    if _should_use_models self as_models && is_mapping data then
      m ← Message.from_dict data; Ok (Models m)
    else Ok (Data data)).

Definition edit_message (self : t) (message_id : string) (text : option string)
    (attachments : option (list dict)) (extra : option dict) : api json :=
  let params := mkdict [("message_id", JStr message_id)] in
  let body := message_body text attachments extra in
  _request self "PUT" "/messages" (Some params) (Some (JDict body)) None.

Definition delete_message (self : t) (message_id : string) : api json :=
  let params := mkdict [("message_id", JStr message_id)] in
  _request self "DELETE" "/messages" (Some params) None None.

Definition get_updates (self : t) (limit timeout : Z) (marker : option Z)
    (types : option (list string)) (as_models : option bool) :
    api (returned (page Update.t)) :=
  let params : dict := mkdict [("limit", JInt limit); ("timeout", JInt timeout)] in
  let params := set_if "marker" JInt marker params in
  let params := set_joined "types" types params in
  and_then (_request self "GET" "/updates" (Some params) None None) (λ data,
    if _should_use_models self as_models && is_mapping data then
      p ← decode_page Update.from_dict "updates" data; Ok (Models p)
    else Ok (Data data)).

Definition get_chats (self : t) (count : Z) (marker : option Z)
    (as_models : option bool) : api (returned (page Chat.t)) :=
  let params : dict := mkdict [("count", JInt count)] in
  let params := set_if "marker" JInt marker params in
  and_then (_request self "GET" "/chats" (Some params) None None) (λ data,
    if _should_use_models self as_models && is_mapping data then
      p ← decode_page Chat.from_dict "chats" data; Ok (Models p)
    else Ok (Data data)).

Definition get_chat (self : t) (chat_id : Z) (as_models : option bool) :
    api (returned Chat.t) :=
  let path := "/chats/" +:+ pretty chat_id in
  and_then (_request self "GET" path None None None) (λ data,
    if _should_use_models self as_models && is_mapping data then
      c ← Chat.from_dict data; Ok (Models c)
    else Ok (Data data)).

Definition get_chat_by_link (self : t) (chat_link : string)
    (as_models : option bool) : api (returned Chat.t) :=
  let path := "/chats/" +:+ chat_link in
  and_then (_request self "GET" path None None None) (λ data,
    if _should_use_models self as_models && is_mapping data then
      c ← Chat.from_dict data; Ok (Models c)
    else Ok (Data data)).

Definition get_pinned_message (self : t) (chat_id : Z) (as_models : option bool) :
    api (returned (option Message.t)) :=
  let path := "/chats/" +:+ pretty chat_id +:+ "/pin" in
  and_then (_request self "GET" path None None None) (λ data,
    if _should_use_models self as_models && is_mapping data then
      raw ← get data "message";
      match raw with
      | JNull => Ok (Models None)
      | JDict _ => m ← Message.from_dict raw; Ok (Models (Some m))
      | _ => Ok (Data data)
      end
    else Ok (Data data)).

Definition pin_message (self : t) (chat_id : Z) (message_id : string)
    (notify : option bool) : api json :=
  let path := "/chats/" +:+ pretty chat_id +:+ "/pin" in
  let body : dict := mkdict [("message_id", JStr message_id)] in
  let body := set_if "notify" JBool notify body in
  _request self "PUT" path None (Some (JDict body)) None.

Definition unpin_message (self : t) (chat_id : Z) : api json :=
  let path := "/chats/" +:+ pretty chat_id +:+ "/pin" in
  _request self "DELETE" path None None None.

Definition send_chat_action (self : t) (chat_id : Z) (action : string) : api json :=
  let path := "/chats/" +:+ pretty chat_id +:+ "/actions" in
  let body := mkdict [("action", JStr action)] in
  _request self "POST" path None (Some (JDict body)) None.

Definition get_chat_members (self : t) (chat_id : Z) (user_ids : option (list Z))
    (marker : option Z) (count : Z) (as_models : option bool) :
    api (returned (page ChatMember.t)) :=
  let params : dict := mkdict [("count", JInt count)] in
  let params := set_if "marker" JInt marker params in
  let params := set_joined "user_ids" ((λ l : list Z, (pretty : Z → string) <$> l) <$> user_ids) params in
  let path := "/chats/" +:+ pretty chat_id +:+ "/members" in
  and_then (_request self "GET" path (Some params) None None) (λ data,
    if _should_use_models self as_models && is_mapping data then
      p ← decode_page ChatMember.from_dict "members" data; Ok (Models p)
    else Ok (Data data)).

Definition add_chat_members (self : t) (chat_id : Z) (user_ids : list Z) : api json :=
  let path := "/chats/" +:+ pretty chat_id +:+ "/members" in
  let body := mkdict [("user_ids", JList (JInt <$> user_ids))] in
  _request self "POST" path None (Some (JDict body)) None.

Definition remove_chat_member (self : t) (chat_id user_id : Z) : api json :=
  let path := "/chats/" +:+ pretty chat_id +:+ "/members" in
  let params := mkdict [("user_id", JInt user_id)] in
  _request self "DELETE" path (Some params) None None.

Definition get_my_membership (self : t) (chat_id : Z) (as_models : option bool) :
    api (returned ChatMember.t) :=
  let path := "/chats/" +:+ pretty chat_id +:+ "/members/me" in
  and_then (_request self "GET" path None None None) (λ data,
    if _should_use_models self as_models && is_mapping data then
      c ← ChatMember.from_dict data; Ok (Models c)
    else Ok (Data data)).

Definition leave_chat (self : t) (chat_id : Z) : api json :=
  let path := "/chats/" +:+ pretty chat_id +:+ "/members/me" in
  _request self "DELETE" path None None None.

Definition get_chat_admins (self : t) (chat_id : Z) (as_models : option bool) :
    api (returned (page ChatAdmin.t)) :=
  let path := "/chats/" +:+ pretty chat_id +:+ "/members/admins" in
  and_then (_request self "GET" path None None None) (λ data,
    if _should_use_models self as_models && is_mapping data then
      p ← decode_page ChatAdmin.from_dict "admins" data; Ok (Models p)
    else Ok (Data data)).

Definition set_chat_admins (self : t) (chat_id : Z) (admins : list ChatAdmin.t) :
    api json :=
  let path := "/chats/" +:+ pretty chat_id +:+ "/members/admins" in
  let body := mkdict [("admins", JList ((λ a, JDict (ChatAdmin.to_dict a)) <$> admins))] in
  _request self "PUT" path None (Some (JDict body)) None.

Definition delete_chat_admin (self : t) (chat_id user_id : Z) : api json :=
  let path := "/chats/" +:+ pretty chat_id +:+ "/members/admins/" +:+ pretty user_id in
  _request self "DELETE" path None None None.

Definition get_subscriptions (self : t) : api json :=
  _request self "GET" "/subscriptions" None None None.

Definition subscribe (self : t) (url : string) (types : option (list string)) :
    api json :=
  let body : dict := mkdict [("url", JStr url)] in
  let body := match types with
              | Some ((_ :: _) as l) => <["types" := JList (JStr <$> l)]> body
              | _ => body
              end in
  _request self "POST" "/subscriptions" None (Some (JDict body)) None.

Definition unsubscribe (self : t) (url : string) : api json :=
  let params := mkdict [("url", JStr url)] in
  _request self "DELETE" "/subscriptions" (Some params) None None.

(** [inline_button]: its arguments are keywords; Python binds the keywords
    [type] and [text] to the two parameters of these names, so that
    [payload_fields] holds the other keywords only. *)
Definition inline_button (type text : string) (payload_fields : dict) : dict :=
  let button := mkdict [("type", JStr type); ("text", JStr text)] in
  payload_fields ∪ button.

Definition inline_keyboard (rows : list (list dict)) : dict :=
  mkdict [("type", JStr "inline_keyboard");
          ("payload",
             JDict (mkdict [("buttons",
                               JList ((λ row, JList (JDict <$> row)) <$> rows))]))].
End MaxBotAPI.

(** * Predicates and examples of the properties *)

(** An attachment of the base class. *)
Definition is_base (a : attachment_obj) : bool :=
  match a with
  | Base _ => true
  | Location _ => false
  end.

(** A user that is an instance of [User] itself. *)
Definition is_plain_user (u : user_obj) : bool :=
  match u with
  | PlainUser _ => true
  | _ => false
  end.

(** A user that is an instance of [UserWithPhoto] itself. *)
Definition is_plain_photo_user (u : photo_user_obj) : bool :=
  match u with
  | PlainPhotoUser _ => true
  | MemberPhotoUser _ => false
  end.

(** The entities every part of which is an instance of the class that the
    decoder names: no attachment is a [LocationAttachment], a sender is a
    [User] itself and the user of a dialog a [UserWithPhoto] itself. *)
Definition body_plain (b : MessageBody.t) : bool :=
  forallb is_base (MessageBody.attachments b).

Definition linked_plain (l : LinkedMessage.t) : bool :=
  from_option is_plain_user true (LinkedMessage.sender l) &&
  body_plain (LinkedMessage.message l).

Definition message_plain (m : Message.t) : bool :=
  from_option is_plain_user true (Message.sender m) &&
  body_plain (Message.body m) &&
  from_option linked_plain true (Message.link m).

Definition chat_plain (c : Chat.t) : bool :=
  from_option is_plain_photo_user true (Chat.dialog_with_user c) &&
  from_option message_plain true (Chat.pinned_message c).

(** The payload of a location attachment is a mapping with an entry for
    each coordinate. *)
Definition location_has_coordinates (l : LocationAttachment.t) : Prop :=
  ∃ m, LocationAttachment.payload l = Some m ∧
       is_Some (m !! "latitude") ∧ is_Some (m !! "longitude").

(** A location attachment whose payload already holds its coordinates. *)
Definition location_consistent (l : LocationAttachment.t) : Prop :=
  ∃ m, LocationAttachment.payload l = Some m ∧
       m !! "latitude" = Some (LocationAttachment.latitude l) ∧
       m !! "longitude" = Some (LocationAttachment.longitude l).

(** An update whose payload uses neither of the two keys of the envelope. *)
Definition update_disjoint (u : Update.t) : Prop :=
  ∀ k, Update.reserved k → Update.payload u !! k = None.

(** [LocationAttachment(type="location")]: the payload is left absent. *)
Definition location_without_payload : LocationAttachment.t :=
  LocationAttachment.mk (JStr "location") None (JFloat 0) (JFloat 0).

(** The coordinates of the examples: 1.5 and 2.5. *)
Definition coordinates : dict :=
  mkdict [("latitude", JFloat 1.5); ("longitude", JFloat 2.5)].

Definition location_with_payload : LocationAttachment.t :=
  LocationAttachment.mk (JStr "location") (Some coordinates)
    (JFloat 1.5) (JFloat 2.5).

(** A message body that carries one location attachment. *)
Definition body_with_location : MessageBody.t :=
  MessageBody.mk (JStr "mid.1") (JInt 1) JNull
    [Location location_with_payload] JNull.

(** The same body with an attachment of the base class and of a type that
    is no known variant. *)
Definition body_with_base : MessageBody.t :=
  MessageBody.mk (JStr "mid.1") (JInt 1) JNull
    [Base (Attachment.mk (JStr "hologram") JNull)] JNull.

(** An update whose payload has a key named [timestamp]. *)
Definition update_with_reserved_key : Update.t :=
  Update.mk (JStr "message_created") (JInt 1)
    (mkdict [("timestamp", JInt 5)]).

(** A user with a photo, and a message of which that user is the sender. *)
Definition ann : User.t :=
  User.mk (JInt 7) (JStr "Ann") JNull JNull (JBool false) (JInt 0) JNull.

Definition ann_with_photo : UserWithPhoto.t :=
  UserWithPhoto.mk ann JNull (JStr "https://max.ru/a.png") JNull.

Definition message_from (sender : user_obj) : Message.t :=
  Message.mk (Recipient.mk (JInt 5) (JStr "chat") JNull) body_with_base
    (JInt 1) (Some sender) None None JNull.

Definition update_with_message : Update.t :=
  Update.mk (JStr "message_created") (JInt 1)
    (mkdict [("message", JDict (MessageBody.to_dict body_with_base))]).

(** An event of a kind the client does not know, with two free-form
    entries. *)
Definition unknown_event : dict :=
  mkdict [("update_type", JStr "hologram_shown");
          ("timestamp", JInt 1700000000000);
          ("chat_id", JInt 7);
          ("hologram", JDict (mkdict [("frames", JList [JInt 1; JInt 2])]))].

(** The keys that each decoder reads with [data[k]]. *)
Definition User_required : list string :=
  ["user_id"; "first_name"; "is_bot"; "last_activity_time"].
Definition ChatMember_required : list string :=
  User_required ++ ["last_access_time"; "is_owner"; "is_admin"; "join_time"].
Definition Recipient_required : list string := ["chat_type"].
Definition Attachment_required : list string := ["type"].
Definition MessageStat_required : list string := ["views"].
Definition MessageBody_required : list string := ["mid"; "seq"].
Definition LinkedMessage_required : list string := ["type"; "chat_id"; "message"].
Definition Message_required : list string := ["recipient"; "body"; "timestamp"].
Definition Chat_required : list string :=
  ["chat_id"; "type"; "status"; "last_event_time"; "participants_count";
   "is_public"].
Definition ChatAdmin_required : list string := ["user_id"].
Definition Update_required : list string := ["update_type"; "timestamp"].

(** What [ChatMember.from_dict] stores as the permissions of a mapping:
    [None] when the entry is absent or [None], and otherwise the list that
    [list(...)] makes of the entry. *)
Definition permissions_stored (m : dict) (perms : option (list json)) : Prop :=
  (default JNull (m !! "permissions") = JNull ∧ perms = None) ∨
  (∃ p l, m !! "permissions" = Some p ∧ p ≠ JNull ∧
          py_list p = Ok l ∧ perms = Some l).

(** The mapping lacks one of the keys. *)
Definition missing (required : list string) (m : dict) : Prop :=
  ∃ k, k ∈ required ∧ m !! k = None.

(** The outcome is a [KeyError] that carries a key the mapping lacks. *)
Definition raises_KeyError {A} (required : list string) (m : dict)
    (r : result A) : Prop :=
  ∃ k, k ∈ required ∧ m !! k = None ∧ r = Raise (KeyError k).

(** The outcome is an exception. *)
Definition raises {A} (r : result A) : Prop := ∃ e, r = Raise e.

(** The outcome is one the model describes. *)
Definition modelled {A} (r : result A) : Prop := r ≠ Unmodelled.

(** A location attachment whose payload has no coordinates. *)
Definition location_without_coordinates : dict :=
  mkdict [("type", JStr "location");
          ("payload", JDict (mkdict [("accuracy", JInt 3)]))].

(** A user whose required values all have the wrong shape. *)
Definition user_of_wrong_shape : dict :=
  mkdict [("user_id", JStr "seven"); ("first_name", JInt 7);
          ("is_bot", JList []); ("last_activity_time", JNull)].

(** A user without [user_id]. *)
Definition user_without_id : dict :=
  mkdict [("first_name", JStr "Ann"); ("is_bot", JBool false);
          ("last_activity_time", JInt 0)].

(** A message without [timestamp]. *)
Definition message_without_timestamp : dict :=
  mkdict [("recipient", JDict (mkdict [("chat_type", JStr "chat")]));
          ("body", JDict (mkdict [("mid", JStr "mid.1"); ("seq", JInt 1)]))].

(** A message whose recipient is the number 5. *)
Definition message_with_number_recipient : dict :=
  mkdict [("recipient", JInt 5);
          ("body", JDict (mkdict [("mid", JStr "mid.1"); ("seq", JInt 1)]));
          ("timestamp", JInt 1)].

(** A chat without [chat_id] whose participants are the sequence of pairs
    [[[1, 2]]]: [dict(...)] builds [{1: 2}], which has no string key. *)
Definition chat_of_pairs_without_id : dict :=
  mkdict [("type", JStr "chat"); ("status", JStr "active");
          ("last_event_time", JInt 0); ("participants_count", JInt 1);
          ("is_public", JBool false);
          ("participants", JList [JList [JInt 1; JInt 2]])].

(** A recipient whose only entry is a [chat_type] of the wrong shape. *)
Definition recipient_of_wrong_shape : dict :=
  mkdict [("chat_type", JList [JInt 1])].

(** The attachment of the example:
    [{"type": "location", "payload": {"latitude": 1.5, "longitude": 2.5}}]. *)
Definition location_json : dict :=
  mkdict [("type", JStr "location"); ("payload", JDict coordinates)].

Definition body_json : dict :=
  mkdict [("mid", JStr "mid.1"); ("seq", JInt 1);
          ("attachments", JList [JDict location_json])].

(** [n] slashes. *)
Fixpoint slashes (n : nat) : string :=
  match n with
  | O => EmptyString
  | S n => String "/" (slashes n)
  end.

(** The path without its leading slash, when it has one. *)
Definition without_leading_slash (path : string) : string :=
  match path with
  | String c rest => if Ascii.eqb c "/" then rest else path
  | EmptyString => path
  end.

(** The URL is the base, one slash, and a rest that begins with no slash:
    after a base that ends with no slash, exactly one separator. *)
Definition joined_by_one_slash (base url : string) : Prop :=
  ∃ rest, url = base +:+ "/" +:+ rest ∧ startswith_slash rest = false.

(** A client whose base endpoint is [http://h]. *)
Definition bot_at_h : MaxBotAPI.t :=
  MaxBotAPI.__init__ "bot-token" "http://h" None (λ _, Raise RequestException)
    false.

(** What the caller passed under the key [k]. *)
Definition caller_value (params : option dict) (k : string) : option json :=
  p ← params; p !! k.

(** A transport that answers 200, [text/plain], [ok] to every request. *)
Definition plain_ok : Response.t :=
  Response.mk 200 (Some "text/plain") "ok" None.

Definition bot : MaxBotAPI.t :=
  MaxBotAPI.__init__ "bot-token" "https://platform-api.max.ru/" (Some 10%Q)
    (λ _, Ok plain_ok) false.

(** The caller passes an [access_token] of its own. *)
Definition colliding_params : dict :=
  mkdict [("access_token", JStr "other-token"); ("count", JInt 50)].

(** The status is one that requests reports as an error: 4xx or 5xx. *)
Definition error_status (s : Z) : Prop := (400 ≤ s < 600)%Z.

(** The body was not parsed: the content type does not name JSON, or
    [resp.json()] raised. *)
Definition no_json (resp : Response.t) : Prop :=
  contains "application/json" (default EmptyString (Response.content_type resp)) = false ∨
  Response.json resp = None.

(** The body was parsed as JSON, into [v]: the content type names JSON and
    [resp.json()] returned [v]. *)
Definition parsed_as (resp : Response.t) (v : json) : Prop :=
  contains "application/json"
    (default EmptyString (Response.content_type resp)) = true ∧
  Response.json resp = Some v.

(** A redirection without a body that the client could parse. *)
Definition moved : Response.t :=
  Response.mk 302 (Some "text/html") "moved" None.

Definition bot_with (resp : Response.t) : MaxBotAPI.t :=
  MaxBotAPI.__init__ "bot-token" "https://platform-api.max.ru" (Some 10%Q)
    (λ _, Ok resp) false.

(** Status 404 with the body
    [{"code": "chat_not_found", "message": "no such chat"}]. *)
Definition chat_not_found_body : dict :=
  mkdict [("code", JStr "chat_not_found"); ("message", JStr "no such chat")].

Definition chat_not_found : Response.t :=
  Response.mk 404 (Some "application/json; charset=utf-8")
    "{code: chat_not_found, message: no such chat}"
    (Some (JDict chat_not_found_body)).

(** Status 200, JSON content type, body [null]. *)
Definition null_body : Response.t :=
  Response.mk 200 (Some "application/json") "null" (Some JNull).

(** Status 200, JSON content type, a body that is not JSON. *)
Definition broken_body : Response.t :=
  Response.mk 200 (Some "application/json") "<html>" None.

(** Status 200, JSON content type, body [false]. *)
Definition false_body : Response.t :=
  Response.mk 200 (Some "application/json") "false" (Some (JBool false)).

(** ** Further predicates and examples *)

(** The keys that each decoder reads. *)
Definition User_fields : list string :=
  ["user_id"; "first_name"; "last_name"; "username"; "is_bot";
   "last_activity_time"; "name"].
Definition UserWithPhoto_fields : list string :=
  User_fields ++ ["description"; "avatar_url"; "full_avatar_url"].
Definition ChatMember_fields : list string :=
  UserWithPhoto_fields ++
  ["last_access_time"; "is_owner"; "is_admin"; "join_time"; "permissions"].
Definition Recipient_fields : list string := ["chat_id"; "chat_type"; "user_id"].
Definition Attachment_fields : list string := ["type"; "payload"].
Definition MessageStat_fields : list string := ["views"].
Definition MessageBody_fields : list string :=
  ["mid"; "seq"; "text"; "attachments"; "markup"].
Definition NewMessageBody_fields : list string :=
  ["text"; "attachments"; "link"; "notify"; "format"].
Definition LinkedMessage_fields : list string :=
  ["type"; "sender"; "chat_id"; "message"].
Definition Message_fields : list string :=
  ["sender"; "recipient"; "timestamp"; "link"; "body"; "stat"; "url"].
Definition Chat_fields : list string :=
  ["chat_id"; "type"; "status"; "title"; "last_event_time";
   "participants_count"; "icon"; "is_public"; "description"; "owner_id";
   "participants"; "link"; "dialog_with_user"; "chat_message_id";
   "pinned_message"].
Definition ChatAdmin_fields : list string := ["user_id"; "permissions"].

(** The decoder gives the same outcome when the mapping gets an entry under
    a key that is none of [fields]. *)
Definition ignores_keys_outside {A} (fields : list string)
    (from_dict : json → result A) : Prop :=
  ∀ (m : dict) k v, k ∉ fields →
    from_dict (JDict (<[k := v]> m)) = from_dict (JDict m).

(** What one encoding and decoding makes of a location attachment. *)
Definition location_normal_form (e : LocationAttachment.t) : LocationAttachment.t :=
  LocationAttachment.mk (LocationAttachment.type e)
    (Some (<["longitude" := LocationAttachment.longitude e]>
             (<["latitude" := LocationAttachment.latitude e]>
                (default ∅ (LocationAttachment.payload e)))))
    (LocationAttachment.latitude e) (LocationAttachment.longitude e).

(** The entry of the mapping under [k] is absent or falsy: [None], an empty
    list, ... *)
Definition absent_or_falsy (m : dict) (k : string) : Prop :=
  truthy (default JNull (m !! k)) = false.

(** The entry of the mapping under [k] is absent or [None]. *)
Definition absent_or_null (m : dict) (k : string) : Prop :=
  default JNull (m !! k) = JNull.

(** The entry of the mapping under [k] is no mapping. *)
Definition no_mapping_at (m : dict) (k : string) : Prop :=
  is_mapping (default JNull (m !! k)) = false.

(** A message whose sender is a string and not a user. *)
Definition message_with_text_sender : dict :=
  mkdict [("sender", JStr "Ann");
          ("recipient", JDict (mkdict [("chat_type", JStr "chat")]));
          ("body", JDict (mkdict [("mid", JStr "mid.1"); ("seq", JInt 1)]));
          ("timestamp", JInt 1)].

(** What that message decodes into. *)
Definition message_of_text_sender : Message.t :=
  Message.mk (Recipient.mk JNull (JStr "chat") JNull)
    (MessageBody.mk (JStr "mid.1") (JInt 1) JNull [] JNull)
    (JInt 1) None None None JNull.

(** An answer of [get_messages] with two messages. *)
Definition two_messages : dict :=
  mkdict [("messages",
           JList [JDict message_with_text_sender;
                  JDict (Message.to_dict (message_from (PlainUser ann)))])].

(** A chat without [participants]. *)
Definition chat_without_participants : dict :=
  mkdict [("chat_id", JInt 7); ("type", JStr "chat"); ("status", JStr "active");
          ("last_event_time", JInt 1); ("participants_count", JInt 2);
          ("is_public", JBool false)].

(** The JSON list of the pairs [[k, v]] of a list of entries. *)
Definition pair_list (pairs : list (string * json)) : json :=
  JList ((λ p, JList [JStr p.1; p.2]) <$> pairs).

(** A value that cannot be iterated: [None], a boolean or a number. *)
Definition not_iterable (v : json) : bool :=
  match v with
  | JNull | JBool _ | JInt _ | JFloat _ => true
  | _ => false
  end.

(** A chat whose participants come as a list of pairs. *)
Definition chat_with_pairs : dict :=
  <["participants" :=
      pair_list [("ann", JInt 7); ("bob", JInt 8); ("ann", JInt 9)]]>
    chat_without_participants.

(** A new message body that says nothing about [notify]. *)
Definition silent_about_notify : dict := mkdict [("text", JStr "hello")].

(** The call hands one request to the session, and the request carries the
    token of the client. *)
Definition sends_one_with_token {A} (self : MaxBotAPI.t) (call : api A) : Prop :=
  ∀ log, ∃ req,
    (call log).2 = (log ++ [req])%list ∧
    HttpRequest.params req !! "access_token" =
      Some (JStr (MaxBotAPI._access_token self)).

(** The query parameters of [send_message]. *)
Definition send_params (chat_id user_id : option Z)
    (disable_link_preview : option bool) : dict :=
  MaxBotAPI.set_if "disable_link_preview" JBool disable_link_preview
    (MaxBotAPI.set_if "chat_id" JInt chat_id
       (MaxBotAPI.set_if "user_id" JInt user_id ∅)).

(** A client that returns models, over a transport that answers [resp]. *)
Definition model_bot_with (resp : Response.t) : MaxBotAPI.t :=
  MaxBotAPI.__init__ "bot-token" "https://platform-api.max.ru" (Some 10%Q)
    (λ _, Ok resp) true.

(** A response 200 with a JSON body that parses to [v]. *)
Definition json_ok (v : json) : Response.t :=
  Response.mk 200 (Some "application/json") "(the text of the body)" (Some v).

(** The session answered [resp] to the one request of the call. *)
Definition answered_with {A} (self : MaxBotAPI.t) (call : api A)
    (log : list HttpRequest.t) (resp : Response.t) : Prop :=
  ∃ req, (call log).2 = (log ++ [req])%list ∧
         MaxBotAPI._session self req = Ok resp.

(** The list [l] holds the models of the elements of the entry of [d] under
    [key], in the same order; it is empty when the entry is absent, [None]
    or empty. *)
Definition models_of {A} (dec : json → result A) (key : string) (d : dict)
    (l : list A) : Prop :=
  (∀ raw, d !! key = Some (JList raw) → Forall2 (λ x y, dec x = Ok y) raw l) ∧
  (absent_or_falsy d key → l = []).

(** The page [p] has the marker of the mapping [d], [None] when [d] has
    none, and the models of the entry of [d] under [key]. *)
Definition page_of {A} (dec : json → result A) (key : string) (d : dict)
    (p : page A) : Prop :=
  marker p = default JNull (d !! "marker") ∧ models_of dec key d (items p).

(** The answer to a long poll: one event and the marker 17. *)
Definition one_update : dict :=
  mkdict [("marker", JInt 17); ("updates", JList [JDict unknown_event])].

(** The answer to a long poll without events. *)
Definition no_updates : dict := mkdict [("marker", JNull)].

(** The body that [send_message] and [edit_message] send: every entry of
    [extra], then the text and the attachments under the keys that [extra]
    leaves free, and nothing else. *)
Definition body_of (text : option string) (attachments : option (list dict))
    (extra : option dict) (body : dict) : Prop :=
  (∀ k v, caller_value extra k = Some v → body !! k = Some v) ∧
  (caller_value extra "text" = None → body !! "text" = JStr <$> text) ∧
  (caller_value extra "attachments" = None →
   body !! "attachments" = (λ l, JList (JDict <$> l)) <$> attachments) ∧
  (∀ k, k ≠ "text" → k ≠ "attachments" → caller_value extra k = None →
        body !! k = None).

(** The call returns what [_request] made of the answer [resp], as it is. *)
Definition returns_data {A} (call : api (returned A))
    (log : list HttpRequest.t) (resp : Response.t) : Prop :=
  (call log).1 =
  (v ← MaxBotAPI.response_outcome resp (MaxBotAPI.response_data resp);
   Ok (Data v)).

(** Whenever the client is not to return models, or the answer is no JSON
    mapping, the call returns the answer as it is. *)
Definition raw_unless_mapping {A} (self : MaxBotAPI.t)
    (as_models : option bool) (call : api (returned A)) : Prop :=
  ∀ log resp,
    answered_with self call log resp →
    MaxBotAPI._should_use_models self as_models = false ∨
      is_mapping (MaxBotAPI.response_data resp) = false →
    returns_data call log resp.

(** An answer that is a JSON list. *)
Definition list_answer : Response.t := json_ok (JList [JInt 1; JInt 2]).

(** The answer of [send_message] without a message in it. *)
Definition answer_without_message : dict := mkdict [("success", JBool true)].

(** The answer of [get_pinned_message] when nothing is pinned. *)
Definition nothing_pinned : dict := mkdict [("message", JNull)].

(** A button and a keyboard of one row. *)
Definition callback_button : dict :=
  MaxBotAPI.inline_button "callback" "Yes" (mkdict [("payload", JStr "yes")]).

(** A failure whose JSON body has a number as its [message]. *)
Definition numeric_message : Response.t :=
  Response.mk 500 (Some "application/json") "(the text of the body)"
    (Some (JDict (mkdict [("message", JInt 500)]))).

(** Two administrators. *)
Definition two_admins : list ChatAdmin.t :=
  [ChatAdmin.mk (JInt 1) [JStr "write"; JStr "pin_message"];
   ChatAdmin.mk (JInt 2) []].

(** On a failure answer the call raises a MaxAPIError with the status of
    the answer. *)
Definition raises_on_failure {A} (self : MaxBotAPI.t) (call : api A) : Prop :=
  ∀ log resp,
    answered_with self call log resp →
    Response.ok resp = false →
    ∃ e, (call log).1 = Raise (APIError e) ∧
         status_code e = Response.status_code resp.

(** A failure whose JSON body is a well-formed chat. *)
Definition failure_with_chat : Response.t :=
  Response.mk 403 (Some "application/json") "(the text of the body)"
    (Some (JDict chat_without_participants)).

(** * Properties *)

(** ** Decoding what was encoded *)

Lemma mapM_cons {A B} (f : A → result B) x l :
  mapM f (x :: l) = (y ← f x; k ← mapM f l; mret (y :: k)).
Proof. reflexivity. Qed.

Lemma opt_roundtrip {A} (dec : json → result A) (enc : A → dict) (P : A → Prop) x :
  (∀ a, P a → dec (JDict (enc a)) = Ok a) →
  from_option P True x →
  opt_from_dict dec (opt_to_json enc x) = Ok x.
Proof.
  intros Hdec Hx. destruct x as [a|]; [|done].
  unfold opt_from_dict; cbn. by rewrite Hdec.
Qed.

Lemma User_roundtrip e : User.from_dict (JDict (User.to_dict e)) = Ok e.
Proof. by destruct e. Qed.

Lemma UserWithPhoto_roundtrip e :
  UserWithPhoto.from_dict (JDict (UserWithPhoto.to_dict e)) = Ok e.
Proof. by destruct e as [[] ? ? ?]. Qed.

Lemma ChatMember_roundtrip e :
  ChatMember.from_dict (JDict (ChatMember.to_dict e)) = Ok e.
Proof. by destruct e as [[[] ? ? ?] ? ? ? ? []]. Qed.

Lemma Recipient_roundtrip e :
  Recipient.from_dict (JDict (Recipient.to_dict e)) = Ok e.
Proof. by destruct e. Qed.

Lemma Attachment_roundtrip e :
  Attachment.from_dict (JDict (Attachment.to_dict e)) = Ok e.
Proof. by destruct e as [ty []]. Qed.

Lemma MessageStat_roundtrip e :
  MessageStat.from_dict (JDict (MessageStat.to_dict e)) = Ok e.
Proof. by destruct e. Qed.

Lemma ChatAdmin_roundtrip e :
  ChatAdmin.from_dict (JDict (ChatAdmin.to_dict e)) = Ok e.
Proof. by destruct e as [? []]. Qed.

Lemma LocationAttachment_decode_fields ty (p : dict) :
  p ≠ ∅ →
  LocationAttachment.from_dict
    (JDict (mkdict [("type", ty); ("payload", JDict p)])) =
  Ok (LocationAttachment.mk ty (Some p)
        (default (JFloat 0) (p !! "latitude"))
        (default (JFloat 0) (p !! "longitude"))).
Proof.
  intros Hp. unfold LocationAttachment.from_dict.
  change (get _ "payload") with (Ok (JDict p)).
  change (subscript _ "type") with (Ok ty).
  cbn [mbind result_bind]. unfold py_or, truthy.
  by rewrite bool_decide_eq_false_2.
Qed.

Lemma LocationAttachment_roundtrip e :
  location_consistent e →
  LocationAttachment.from_dict (JDict (LocationAttachment.to_dict e)) = Ok e.
Proof.
  destruct e as [ty p lat lon]. intros (m & Hp & Hlat & Hlon); simplify_eq/=.
  unfold LocationAttachment.to_dict; cbn [LocationAttachment.payload
    LocationAttachment.type LocationAttachment.latitude
    LocationAttachment.longitude default].
  rewrite (insert_id m "latitude") by done.
  rewrite (insert_id m "longitude") by done.
  rewrite LocationAttachment_decode_fields.
  - by rewrite Hlat, Hlon.
  - intros ->. by rewrite lookup_empty in Hlat.
Qed.

Lemma decode_encode_attachments l :
  forallb is_base l = true →
  decode_attachments (py_or (encode_attachments l) (JList [])) = Ok l.
Proof.
  intros H. transitivity (decode_attachments (encode_attachments l)).
  { by destruct l. }
  unfold decode_attachments, encode_attachments.
  induction l as [|[a|x] l IH]; [done| |done].
  rewrite fmap_cons, mapM_cons, (IH H).
  cbn [attachment_to_dict]. by rewrite Attachment_roundtrip.
Qed.

Lemma decode_attachments_base v l :
  decode_attachments v = Ok l → forallb is_base l = true.
Proof.
  destruct v as [| | | | |js|]; try done. unfold decode_attachments.
  revert l. induction js as [|j js IH]; intros l.
  - by intros [= <-].
  - rewrite mapM_cons. destruct (Attachment.from_dict j) as [a| |]; try done.
    cbn [mbind result_bind].
    destruct (mapM _ js) as [k| |]; try done.
    intros [= <-]. cbn. by apply IH.
Qed.

Lemma MessageBody_decode_fields mid seq text atts markup :
  MessageBody.from_dict
    (JDict (mkdict [("mid", mid); ("seq", seq); ("text", text);
                    ("attachments", atts); ("markup", markup)])) =
  (attachments ← decode_attachments (py_or atts (JList []));
   Ok (MessageBody.mk mid seq text attachments markup)).
Proof. reflexivity. Qed.

Lemma MessageBody_roundtrip e :
  body_plain e = true →
  MessageBody.from_dict (JDict (MessageBody.to_dict e)) = Ok e.
Proof.
  destruct e as [mid seq text atts markup]. intros H; unfold body_plain in H; cbn in H.
  unfold MessageBody.to_dict; cbn [MessageBody.mid MessageBody.seq
    MessageBody.text MessageBody.attachments MessageBody.markup].
  by rewrite MessageBody_decode_fields, decode_encode_attachments.
Qed.

Lemma MessageBody_decodes_base d b :
  MessageBody.from_dict d = Ok b → body_plain b = true.
Proof.
  unfold MessageBody.from_dict, body_plain.
  destruct (get d "attachments") as [raw| |]; [|done..].
  cbn [mbind result_bind].
  destruct (decode_attachments _) as [l| |] eqn:E; [|done..].
  cbn [mbind result_bind]. apply decode_attachments_base in E.
  destruct (subscript d "mid"); [|done..].
  destruct (subscript d "seq"); [|done..].
  destruct (get d "text"); [|done..].
  destruct (get d "markup"); [|done..].
  by intros [= <-].
Qed.

Lemma decode_user_roundtrip u :
  is_plain_user u = true → decode_user (JDict (user_to_dict u)) = Ok u.
Proof.
  destruct u as [u| |]; [|done..]. intros _. unfold decode_user.
  cbn [user_to_dict]. by rewrite User_roundtrip.
Qed.

Lemma decode_photo_user_roundtrip u :
  is_plain_photo_user u = true →
  decode_photo_user (JDict (photo_user_to_dict u)) = Ok u.
Proof.
  destruct u as [u|]; [|done]. intros _. unfold decode_photo_user.
  cbn [photo_user_to_dict]. by rewrite UserWithPhoto_roundtrip.
Qed.

Lemma LinkedMessage_decode_fields ty s cid b :
  LinkedMessage.from_dict
    (JDict (mkdict [("type", ty); ("sender", s); ("chat_id", cid);
                    ("message", b)])) =
  (sender ← opt_from_dict decode_user s;
   message ← MessageBody.from_dict b;
   Ok (LinkedMessage.mk ty sender cid message)).
Proof. reflexivity. Qed.

Lemma LinkedMessage_roundtrip e :
  linked_plain e = true →
  LinkedMessage.from_dict (JDict (LinkedMessage.to_dict e)) = Ok e.
Proof.
  destruct e as [ty s cid b]. intros H; unfold linked_plain in H; cbn in H.
  apply andb_prop in H as [Hs Hb].
  unfold LinkedMessage.to_dict; cbn [LinkedMessage.type LinkedMessage.sender
    LinkedMessage.chat_id LinkedMessage.message].
  rewrite LinkedMessage_decode_fields.
  rewrite (opt_roundtrip decode_user user_to_dict
             (λ u, is_plain_user u = true) s);
    [|auto using decode_user_roundtrip|destruct s; [exact Hs|done]].
  by rewrite MessageBody_roundtrip.
Qed.

Lemma Message_decode_fields sender recipient timestamp link body stat url :
  Message.from_dict
    (JDict (mkdict [("sender", sender); ("recipient", recipient);
                    ("timestamp", timestamp); ("link", link); ("body", body);
                    ("stat", stat); ("url", url)])) =
  (sender ← opt_from_dict decode_user sender;
   link ← opt_from_dict LinkedMessage.from_dict link;
   stat ← opt_from_dict MessageStat.from_dict stat;
   recipient ← Recipient.from_dict recipient;
   body ← MessageBody.from_dict body;
   Ok (Message.mk recipient body timestamp sender link stat url)).
Proof. reflexivity. Qed.

Lemma Message_roundtrip e :
  message_plain e = true →
  Message.from_dict (JDict (Message.to_dict e)) = Ok e.
Proof.
  destruct e as [r b ts s l st url]. intros H; unfold message_plain in H; cbn in H.
  apply andb_prop in H as [H Hl]. apply andb_prop in H as [Hs Hb].
  unfold Message.to_dict; cbn [Message.recipient Message.body
    Message.timestamp Message.sender Message.link Message.stat Message.url].
  rewrite Message_decode_fields.
  rewrite (opt_roundtrip decode_user user_to_dict
             (λ u, is_plain_user u = true) s);
    [|auto using decode_user_roundtrip|destruct s; [exact Hs|done]].
  rewrite (opt_roundtrip LinkedMessage.from_dict LinkedMessage.to_dict
             (λ x, linked_plain x = true) l);
    [|auto using LinkedMessage_roundtrip|destruct l; [exact Hl|done]].
  rewrite (opt_roundtrip MessageStat.from_dict MessageStat.to_dict (λ _, True) st);
    [|auto using MessageStat_roundtrip|by destruct st].
  cbn [mbind result_bind].
  by rewrite Recipient_roundtrip, MessageBody_roundtrip.
Qed.

Lemma Chat_decode_fields chat_id type status title last_event_time
    participants_count icon is_public description owner_id participants link
    dialog chat_message_id pinned :
  Chat.from_dict
    (JDict (mkdict [("chat_id", chat_id); ("type", type); ("status", status);
                    ("title", title); ("last_event_time", last_event_time);
                    ("participants_count", participants_count);
                    ("icon", icon); ("is_public", is_public);
                    ("description", description); ("owner_id", owner_id);
                    ("participants", participants); ("link", link);
                    ("dialog_with_user", dialog);
                    ("chat_message_id", chat_message_id);
                    ("pinned_message", pinned)])) =
  (_ ← raised (Chat.copy_participants participants);
   dialog ← opt_from_dict decode_photo_user dialog;
   pinned ← opt_from_dict Message.from_dict pinned;
   participants ← Chat.copy_participants participants;
   Ok (Chat.mk chat_id type status title last_event_time participants_count
         icon is_public description owner_id participants link dialog
         chat_message_id pinned)).
Proof. reflexivity. Qed.

Lemma Chat_roundtrip e :
  chat_plain e = true →
  Chat.from_dict (JDict (Chat.to_dict e)) = Ok e.
Proof.
  destruct e as [? ? ? ? ? ? ? ? ? ? ps ? d ? pm].
  intros H; unfold chat_plain in H; cbn in H.
  apply andb_prop in H as [Hd H].
  unfold Chat.to_dict; cbn [Chat.chat_id Chat.type Chat.status Chat.title
    Chat.last_event_time Chat.participants_count Chat.icon Chat.is_public
    Chat.description Chat.owner_id Chat.participants Chat.link
    Chat.dialog_with_user Chat.chat_message_id Chat.pinned_message].
  rewrite Chat_decode_fields.
  rewrite (opt_roundtrip decode_photo_user photo_user_to_dict
             (λ u, is_plain_photo_user u = true) d);
    [|auto using decode_photo_user_roundtrip|destruct d; [exact Hd|done]].
  rewrite (opt_roundtrip Message.from_dict Message.to_dict
             (λ x, message_plain x = true) pm);
    [|auto using Message_roundtrip|destruct pm; [exact H|done]].
  by destruct ps.
Qed.

Lemma not_reserved_filter (p : dict) :
  (∀ k, Update.reserved k → p !! k = None) →
  filter (λ kv : string * json, ¬ Update.reserved kv.1) p = p.
Proof.
  intros Hp. apply map_filter_id. intros k v Hk Hres; cbn in Hres.
  apply Hp in Hres. congruence.
Qed.

Lemma reserved_filter_insert k v (p : dict) :
  Update.reserved k →
  filter (λ kv : string * json, ¬ Update.reserved kv.1) (<[k := v]> p) =
  filter (λ kv : string * json, ¬ Update.reserved kv.1) p.
Proof. intros Hk. apply map_filter_insert_not. intros y Hy. by apply Hy. Qed.

Lemma Update_roundtrip e :
  update_disjoint e →
  Update.from_dict (JDict (Update.to_dict e)) = Ok e.
Proof.
  destruct e as [ut ts p]. unfold update_disjoint; cbn [Update.payload].
  intros Hp. unfold Update.from_dict, Update.to_dict, subscript.
  cbn [Update.payload Update.update_type Update.timestamp].
  rewrite (lookup_insert_ne _ "timestamp" "update_type") by done.
  rewrite !lookup_insert_eq.
  cbn [mbind result_bind].
  rewrite !reserved_filter_insert by (by left + by right).
  by rewrite not_reserved_filter.
Qed.

Lemma opt_from_dict_plain {A} (dec : json → result A) (P : A → bool) raw x :
  (∀ d a, dec d = Ok a → P a = true) →
  opt_from_dict dec raw = Ok x → from_option P true x = true.
Proof.
  intros Hdec. unfold opt_from_dict.
  destruct (is_mapping raw); [|by intros [= <-]].
  destruct (dec raw) as [a| |] eqn:E; [|done..].
  cbn [mbind result_bind]. intros [= <-]. cbn. by eapply Hdec.
Qed.

Lemma decode_user_plain d u : decode_user d = Ok u → is_plain_user u = true.
Proof.
  unfold decode_user. destruct (User.from_dict d); [|done..].
  by intros [= <-].
Qed.

Lemma decode_photo_user_plain d u :
  decode_photo_user d = Ok u → is_plain_photo_user u = true.
Proof.
  unfold decode_photo_user. destruct (UserWithPhoto.from_dict d); [|done..].
  by intros [= <-].
Qed.

Lemma LinkedMessage_decodes_plain d l :
  LinkedMessage.from_dict d = Ok l → linked_plain l = true.
Proof.
  unfold LinkedMessage.from_dict, linked_plain.
  destruct (get d "sender") as [sraw| |]; [|done..].
  cbn [mbind result_bind].
  destruct (opt_from_dict decode_user sraw) as [s| |] eqn:Es; [|done..].
  cbn [mbind result_bind].
  destruct (subscript d "type"); [|done..].
  destruct (subscript d "chat_id"); [|done..].
  destruct (subscript d "message") as [mraw| |]; [|done..].
  cbn [mbind result_bind].
  destruct (MessageBody.from_dict mraw) as [b| |] eqn:Eb; [|done..].
  intros [= <-]. cbn [LinkedMessage.sender LinkedMessage.message].
  rewrite (opt_from_dict_plain _ _ _ _ decode_user_plain Es).
  by rewrite (MessageBody_decodes_base _ _ Eb).
Qed.

Lemma Message_decodes_plain d m :
  Message.from_dict d = Ok m → message_plain m = true.
Proof.
  unfold Message.from_dict, message_plain.
  destruct (get d "sender") as [sraw| |]; [|done..].
  destruct (get d "link") as [lraw| |]; [|done..].
  destruct (get d "stat") as [straw| |]; [|done..].
  cbn [mbind result_bind].
  destruct (opt_from_dict decode_user sraw) as [s| |] eqn:Es; [|done..].
  cbn [mbind result_bind].
  destruct (opt_from_dict LinkedMessage.from_dict lraw) as [l| |] eqn:El;
    [|done..].
  cbn [mbind result_bind].
  destruct (opt_from_dict MessageStat.from_dict straw); [|done..].
  destruct (subscript d "recipient") as [rraw| |]; [|done..].
  cbn [mbind result_bind].
  destruct (Recipient.from_dict rraw); [|done..].
  destruct (subscript d "body") as [braw| |]; [|done..].
  cbn [mbind result_bind].
  destruct (MessageBody.from_dict braw) as [b| |] eqn:Eb; [|done..].
  cbn [mbind result_bind].
  destruct (subscript d "timestamp"); [|done..].
  destruct (get d "url"); [|done..].
  intros [= <-]. cbn [Message.sender Message.body Message.link].
  rewrite (opt_from_dict_plain _ _ _ _ decode_user_plain Es).
  rewrite (MessageBody_decodes_base _ _ Eb).
  by rewrite (opt_from_dict_plain _ _ _ _ LinkedMessage_decodes_plain El).
Qed.

Lemma Chat_decodes_plain d c :
  Chat.from_dict d = Ok c → chat_plain c = true.
Proof.
  unfold Chat.from_dict, chat_plain.
  destruct (get d "participants") as [praw| |]; [|done..].
  cbn [mbind result_bind].
  destruct (raised (Chat.copy_participants praw)); [|done..].
  destruct (get d "dialog_with_user") as [draw| |]; [|done..].
  cbn [mbind result_bind].
  destruct (opt_from_dict decode_photo_user draw) as [du| |] eqn:Ed; [|done..].
  destruct (get d "pinned_message") as [pmraw| |]; [|done..].
  cbn [mbind result_bind].
  destruct (opt_from_dict Message.from_dict pmraw) as [pm| |] eqn:Epm;
    [|done..].
  cbn [mbind result_bind].
  destruct (subscript d "chat_id"); [|done..].
  destruct (subscript d "type"); [|done..].
  destruct (subscript d "status"); [|done..].
  destruct (get d "title"); [|done..].
  destruct (subscript d "last_event_time"); [|done..].
  destruct (subscript d "participants_count"); [|done..].
  destruct (get d "icon"); [|done..].
  destruct (subscript d "is_public"); [|done..].
  destruct (get d "description"); [|done..].
  destruct (get d "owner_id"); [|done..].
  destruct (get d "link"); [|done..].
  destruct (get d "chat_message_id"); [|done..].
  cbn [mbind result_bind].
  destruct (Chat.copy_participants praw); [|done..].
  intros [= <-]. cbn [Chat.dialog_with_user Chat.pinned_message].
  rewrite (opt_from_dict_plain _ _ _ _ decode_photo_user_plain Ed).
  by rewrite (opt_from_dict_plain _ _ _ _ Message_decodes_plain Epm).
Qed.

Lemma LocationAttachment_trip e :
  LocationAttachment.from_dict (JDict (LocationAttachment.to_dict e)) =
  Ok (LocationAttachment.mk (LocationAttachment.type e)
        (Some (<["longitude" := LocationAttachment.longitude e]>
                 (<["latitude" := LocationAttachment.latitude e]>
                    (default ∅ (LocationAttachment.payload e)))))
        (LocationAttachment.latitude e) (LocationAttachment.longitude e)).
Proof.
  destruct e as [ty p lat lon].
  unfold LocationAttachment.to_dict; cbn [LocationAttachment.payload
    LocationAttachment.type LocationAttachment.latitude
    LocationAttachment.longitude].
  rewrite LocationAttachment_decode_fields by apply insert_non_empty.
  rewrite lookup_insert_eq.
  rewrite (lookup_insert_ne _ "longitude" "latitude") by done.
  by rewrite lookup_insert_eq.
Qed.

Lemma LocationAttachment_roundtrip_coordinates e :
  LocationAttachment.from_dict (JDict (LocationAttachment.to_dict e)) = Ok e →
  location_has_coordinates e.
Proof.
  rewrite LocationAttachment_trip. destruct e as [ty p lat lon].
  cbn [LocationAttachment.payload LocationAttachment.type
    LocationAttachment.latitude LocationAttachment.longitude].
  intros [= Hp]. eexists. split; [symmetry; exact Hp|]. split.
  - rewrite (lookup_insert_ne _ "longitude" "latitude") by done.
    rewrite lookup_insert_eq. by eexists.
  - rewrite lookup_insert_eq. by eexists.
Qed.

Lemma Update_trip e :
  Update.from_dict (JDict (Update.to_dict e)) =
  Ok (Update.mk (Update.update_type e) (Update.timestamp e)
        (filter (λ kv : string * json, ¬ Update.reserved kv.1)
           (Update.payload e))).
Proof.
  destruct e as [ut ts p]. unfold Update.from_dict, Update.to_dict, subscript.
  cbn [Update.payload Update.update_type Update.timestamp].
  rewrite (lookup_insert_ne _ "timestamp" "update_type") by done.
  rewrite !lookup_insert_eq.
  cbn [mbind result_bind].
  by rewrite !reserved_filter_insert by (by left + by right).
Qed.

Lemma Update_roundtrip_disjoint e :
  Update.from_dict (JDict (Update.to_dict e)) = Ok e → update_disjoint e.
Proof.
  rewrite Update_trip. destruct e as [ut ts p].
  cbn [Update.payload Update.update_type Update.timestamp].
  intros [= Hp] k Hk. cbn [Update.payload]. rewrite <- Hp.
  apply map_lookup_filter_None. right. intros v _ Hres. by apply Hres.
Qed.

(** C1 (amended): decoding the encoding of [e] gives [e] back for every
    User, UserWithPhoto, ChatMember (the three-level chain), Recipient,
    Attachment of the base class (whatever its [type], known or not) and
    ChatAdmin.  For a MessageBody, a LinkedMessage, a Message and a Chat it
    does exactly when every part of [e] is an instance of the class that
    the decoder names: no attachment is a LocationAttachment, a sender is a
    User itself and the user of a dialog a UserWithPhoto itself.  For a
    LocationAttachment it does when the payload is a mapping that already
    holds the latitude and the longitude of [e], and it does not unless the
    payload is a mapping with an entry for each of the two.  For an Update
    it does exactly when the payload has neither an [update_type] nor a
    [timestamp] key. *)
Theorem roundtrip_decode_encode :
  (∀ e, User.from_dict (JDict (User.to_dict e)) = Ok e) ∧
  (∀ e, UserWithPhoto.from_dict (JDict (UserWithPhoto.to_dict e)) = Ok e) ∧
  (∀ e, ChatMember.from_dict (JDict (ChatMember.to_dict e)) = Ok e) ∧
  (∀ e, Recipient.from_dict (JDict (Recipient.to_dict e)) = Ok e) ∧
  (∀ e, Attachment.from_dict (JDict (Attachment.to_dict e)) = Ok e) ∧
  (∀ e, ChatAdmin.from_dict (JDict (ChatAdmin.to_dict e)) = Ok e) ∧
  (∀ e, MessageBody.from_dict (JDict (MessageBody.to_dict e)) = Ok e ↔
        body_plain e = true) ∧
  (∀ e, LinkedMessage.from_dict (JDict (LinkedMessage.to_dict e)) = Ok e ↔
        linked_plain e = true) ∧
  (∀ e, Message.from_dict (JDict (Message.to_dict e)) = Ok e ↔
        message_plain e = true) ∧
  (∀ e, Chat.from_dict (JDict (Chat.to_dict e)) = Ok e ↔
        chat_plain e = true) ∧
  (∀ e, location_consistent e →
        LocationAttachment.from_dict (JDict (LocationAttachment.to_dict e)) = Ok e) ∧
  (∀ e, LocationAttachment.from_dict (JDict (LocationAttachment.to_dict e)) = Ok e →
        location_has_coordinates e) ∧
  (∀ e, Update.from_dict (JDict (Update.to_dict e)) = Ok e ↔
        update_disjoint e).
Proof.
  split; [exact User_roundtrip|].
  split; [exact UserWithPhoto_roundtrip|].
  split; [exact ChatMember_roundtrip|].
  split; [exact Recipient_roundtrip|].
  split; [exact Attachment_roundtrip|].
  split; [exact ChatAdmin_roundtrip|].
  split.
  { intros e. split; [apply MessageBody_decodes_base|apply MessageBody_roundtrip]. }
  split.
  { intros e. split;
      [apply LinkedMessage_decodes_plain|apply LinkedMessage_roundtrip]. }
  split.
  { intros e. split; [apply Message_decodes_plain|apply Message_roundtrip]. }
  split.
  { intros e. split; [apply Chat_decodes_plain|apply Chat_roundtrip]. }
  split; [exact LocationAttachment_roundtrip|].
  split; [exact LocationAttachment_roundtrip_coordinates|].
  intros e. split; [apply Update_roundtrip_disjoint|apply Update_roundtrip].
Qed.

(** C1, as stated, fails on four values: a LocationAttachment built without
    a payload comes back with the payload that [to_dict] wrote; a
    MessageBody holding a LocationAttachment comes back holding an
    Attachment of the base class; a Message whose sender is a UserWithPhoto
    comes back with a sender that is a User; an Update whose payload has a
    [timestamp] key comes back without that entry. *)
Lemma roundtrip_decode_encode_fails :
  LocationAttachment.from_dict
    (JDict (LocationAttachment.to_dict location_without_payload)) =
    Ok (LocationAttachment.mk (JStr "location")
          (Some (mkdict [("latitude", JFloat 0); ("longitude", JFloat 0)]))
          (JFloat 0) (JFloat 0)) ∧
  LocationAttachment.from_dict
    (JDict (LocationAttachment.to_dict location_without_payload)) ≠
    Ok location_without_payload ∧
  MessageBody.from_dict (JDict (MessageBody.to_dict body_with_location)) =
    Ok (MessageBody.mk (JStr "mid.1") (JInt 1) JNull
          [Base (Attachment.mk (JStr "location") (JDict coordinates))] JNull) ∧
  MessageBody.from_dict (JDict (MessageBody.to_dict body_with_location)) ≠
    Ok body_with_location ∧
  Message.from_dict
    (JDict (Message.to_dict (message_from (PhotoUser ann_with_photo)))) =
    Ok (message_from (PlainUser ann)) ∧
  Message.from_dict
    (JDict (Message.to_dict (message_from (PhotoUser ann_with_photo)))) ≠
    Ok (message_from (PhotoUser ann_with_photo)) ∧
  Update.from_dict (JDict (Update.to_dict update_with_reserved_key)) =
    Ok (Update.mk (JStr "message_created") (JInt 1) ∅) ∧
  Update.from_dict (JDict (Update.to_dict update_with_reserved_key)) ≠
    Ok update_with_reserved_key.
Proof.
  assert (H1 : LocationAttachment.from_dict
    (JDict (LocationAttachment.to_dict location_without_payload)) =
    Ok (LocationAttachment.mk (JStr "location")
          (Some (mkdict [("latitude", JFloat 0); ("longitude", JFloat 0)]))
          (JFloat 0) (JFloat 0))) by (vm_compute; reflexivity).
  assert (H2 : MessageBody.from_dict
    (JDict (MessageBody.to_dict body_with_location)) =
    Ok (MessageBody.mk (JStr "mid.1") (JInt 1) JNull
          [Base (Attachment.mk (JStr "location") (JDict coordinates))] JNull))
    by (vm_compute; reflexivity).
  assert (H3 : Message.from_dict
    (JDict (Message.to_dict (message_from (PhotoUser ann_with_photo)))) =
    Ok (message_from (PlainUser ann))) by (vm_compute; reflexivity).
  assert (H4 : Update.from_dict
    (JDict (Update.to_dict update_with_reserved_key)) =
    Ok (Update.mk (JStr "message_created") (JInt 1) ∅))
    by (vm_compute; reflexivity).
  rewrite H1, H2, H3, H4. repeat split; discriminate.
Qed.

(** The theorem of C1 at a LocationAttachment with its coordinates in the
    payload, at a MessageBody with an attachment of an unknown type, at a
    Message whose sender is a User, and at an Update with one free-form
    entry. *)
Lemma roundtrip_decode_encode_witness :
  LocationAttachment.from_dict
    (JDict (LocationAttachment.to_dict location_with_payload)) =
    Ok location_with_payload ∧
  MessageBody.from_dict (JDict (MessageBody.to_dict body_with_base)) =
    Ok body_with_base ∧
  Message.from_dict (JDict (Message.to_dict (message_from (PlainUser ann)))) =
    Ok (message_from (PlainUser ann)) ∧
  Update.from_dict (JDict (Update.to_dict update_with_message)) =
    Ok update_with_message.
Proof.
  destruct roundtrip_decode_encode
    as (_ & _ & _ & _ & _ & _ & HB & _ & HM & _ & HL & _ & HU).
  split; [|split; [|split]].
  - apply HL. exists coordinates. repeat split; reflexivity.
  - apply (proj2 (HB _)). reflexivity.
  - apply (proj2 (HM _)). reflexivity.
  - apply (proj2 (HU _)). intros k [-> | ->]; reflexivity.
Defined.

(** ** Encoding a decoded update *)

(** C7: a mapping that has the keys [update_type] and [timestamp] decodes
    into an Update whose encoding is the mapping itself, as dicts are
    compared; the payload of the Update has every other entry of the
    mapping unchanged. *)
Theorem update_encode_decode (m : dict) :
  is_Some (m !! "update_type") →
  is_Some (m !! "timestamp") →
  ∃ u, Update.from_dict (JDict m) = Ok u ∧
       Update.to_dict u = m ∧
       ∀ k, ¬ Update.reserved k → Update.payload u !! k = m !! k.
Proof.
  intros [ut Hut] [ts Hts].
  exists (Update.mk ut ts (filter (λ kv, ¬ Update.reserved kv.1) m)).
  split; [|split].
  - unfold Update.from_dict, subscript. by rewrite Hut, Hts.
  - unfold Update.to_dict; cbn [Update.payload Update.update_type Update.timestamp].
    apply map_eq; intros k.
    destruct (decide (k = "timestamp")) as [->|Hk1].
    { by rewrite lookup_insert_eq. }
    rewrite lookup_insert_ne by done.
    destruct (decide (k = "update_type")) as [->|Hk2].
    { by rewrite lookup_insert_eq. }
    rewrite lookup_insert_ne by done.
    rewrite map_lookup_filter. destruct (m !! k) as [v|]; [|done].
    cbn. rewrite option_guard_True; [done|].
    unfold Update.reserved; cbn. intros [?|?]; done.
  - intros k Hk. cbn [Update.payload].
    rewrite map_lookup_filter. destruct (m !! k) as [v|]; [|done].
    cbn. by rewrite option_guard_True.
Qed.

Lemma update_encode_decode_witness :
  ∃ u, Update.from_dict (JDict unknown_event) = Ok u ∧
       Update.to_dict u = unknown_event ∧
       ∀ k, ¬ Update.reserved k → Update.payload u !! k = unknown_event !! k.
Proof.
  apply (update_encode_decode unknown_event).
  - exists (JStr "hologram_shown"). reflexivity.
  - exists (JInt 1700000000000). reflexivity.
Defined.

(** ** Required fields *)

Ltac unfold_decoders :=
  unfold ChatMember.from_dict, UserWithPhoto.from_dict, User.from_dict,
    Recipient.from_dict, Attachment.from_dict, LocationAttachment.from_dict,
    MessageStat.from_dict, ChatAdmin.from_dict, Update.from_dict,
    subscript, get, get_default.

(** The lookup of a required key: present, and decoding goes on, or absent,
    and decoding stops on the [KeyError] of that key. *)
Ltac required m k :=
  destruct (m !! k) eqn:?;
  [ cbn [mbind result_bind]
  | first [ exists k; split; [repeat constructor | split; [assumption | reflexivity]]
          | eexists; reflexivity ] ].

Ltac all_present :=
  match goal with
  | H : missing _ _ |- _ =>
      destruct H as (? & H & ?);
      repeat (apply elem_of_cons in H as [->|H]); try congruence;
      by apply elem_of_nil in H
  end.

(** A nested decoder: it returns, and decoding goes on, or it raises. *)
Ltac nested r Hr :=
  let E := fresh "E" in
  let Hm := fresh "Hm" in
  destruct r eqn:E;
  [ cbn [mbind result_bind]
  | eexists; reflexivity
  | exfalso; pose proof Hr as Hm; unfold modelled in Hm; by eapply Hm ].

Lemma bind_modelled {A B} (r : result A) (f : A → result B) :
  modelled r → (∀ a, modelled (f a)) → modelled (r ≫= f).
Proof. intros Hr Hf. destruct r; cbn; [apply Hf | done | done]. Qed.

Lemma opt_from_dict_modelled {A} (f : json → result A) raw :
  (∀ d, modelled (f d)) → modelled (opt_from_dict f raw).
Proof.
  intros Hf. unfold opt_from_dict. destruct (is_mapping raw); [|done].
  by apply bind_modelled.
Qed.

Lemma subscript_modelled d k : modelled (subscript d k).
Proof. unfold subscript. by repeat case_match. Qed.

Lemma get_modelled d k : modelled (get d k).
Proof. by destruct d. Qed.

Create HintDb modelled.
#[local] Hint Resolve subscript_modelled get_modelled : modelled.

Ltac solve_modelled :=
  repeat (apply bind_modelled; [auto with modelled; fail | intros ?]);
  try done.

Lemma User_modelled d : modelled (User.from_dict d).
Proof. unfold User.from_dict. solve_modelled. Qed.

Lemma UserWithPhoto_modelled d : modelled (UserWithPhoto.from_dict d).
Proof.
  unfold UserWithPhoto.from_dict.
  apply bind_modelled; [apply User_modelled | intros ?]. solve_modelled.
Qed.

Lemma decode_user_modelled d : modelled (decode_user d).
Proof.
  unfold decode_user. apply bind_modelled; [apply User_modelled | done].
Qed.

Lemma decode_photo_user_modelled d : modelled (decode_photo_user d).
Proof.
  unfold decode_photo_user.
  apply bind_modelled; [apply UserWithPhoto_modelled | done].
Qed.

Lemma Recipient_modelled d : modelled (Recipient.from_dict d).
Proof. unfold Recipient.from_dict. solve_modelled. Qed.

Lemma Attachment_modelled d : modelled (Attachment.from_dict d).
Proof. unfold Attachment.from_dict. solve_modelled. Qed.

Lemma MessageStat_modelled d : modelled (MessageStat.from_dict d).
Proof. unfold MessageStat.from_dict. solve_modelled. Qed.

Lemma decode_attachments_modelled v : modelled (decode_attachments v).
Proof.
  destruct v as [| | | | |js|]; try done. unfold decode_attachments.
  induction js as [|j js IH]; [done|]. rewrite mapM_cons.
  apply bind_modelled; [|intros ?; by apply bind_modelled].
  apply bind_modelled; [apply Attachment_modelled | done].
Qed.

#[local] Hint Resolve User_modelled UserWithPhoto_modelled decode_user_modelled
  decode_photo_user_modelled Recipient_modelled
  Attachment_modelled MessageStat_modelled decode_attachments_modelled
  opt_from_dict_modelled : modelled.

Lemma MessageBody_modelled d : modelled (MessageBody.from_dict d).
Proof. unfold MessageBody.from_dict. solve_modelled. Qed.

#[local] Hint Resolve MessageBody_modelled : modelled.

Lemma LinkedMessage_modelled d : modelled (LinkedMessage.from_dict d).
Proof. unfold LinkedMessage.from_dict. solve_modelled. Qed.

#[local] Hint Resolve LinkedMessage_modelled : modelled.

Lemma Message_modelled d : modelled (Message.from_dict d).
Proof. unfold Message.from_dict. solve_modelled. Qed.

#[local] Hint Resolve Message_modelled : modelled.

Lemma User_missing m :
  missing User_required m →
  raises_KeyError User_required m (User.from_dict (JDict m)).
Proof.
  intros H. unfold raises_KeyError, User_required in *. unfold_decoders.
  required m "user_id". required m "first_name". required m "is_bot".
  required m "last_activity_time". all_present.
Qed.

Lemma UserWithPhoto_missing m :
  missing User_required m →
  raises_KeyError User_required m (UserWithPhoto.from_dict (JDict m)).
Proof.
  intros H. unfold raises_KeyError, User_required in *. unfold_decoders.
  required m "user_id". required m "first_name". required m "is_bot".
  required m "last_activity_time". all_present.
Qed.

Lemma ChatMember_missing m :
  missing ChatMember_required m →
  raises_KeyError ChatMember_required m (ChatMember.from_dict (JDict m)).
Proof.
  intros H. unfold raises_KeyError, ChatMember_required, User_required in *.
  cbn [app] in *. unfold_decoders.
  required m "user_id". required m "first_name". required m "is_bot".
  required m "last_activity_time". required m "last_access_time".
  required m "is_owner". required m "is_admin". required m "join_time".
  all_present.
Qed.

Lemma Recipient_missing m :
  missing Recipient_required m →
  raises_KeyError Recipient_required m (Recipient.from_dict (JDict m)).
Proof.
  intros H. unfold raises_KeyError, Recipient_required in *. unfold_decoders.
  cbn [mbind result_bind]. required m "chat_type". all_present.
Qed.

Lemma Attachment_missing m :
  missing Attachment_required m →
  raises_KeyError Attachment_required m (Attachment.from_dict (JDict m)).
Proof.
  intros H. unfold raises_KeyError, Attachment_required in *. unfold_decoders.
  required m "type". all_present.
Qed.

Lemma LocationAttachment_missing m :
  missing Attachment_required m →
  raises_KeyError Attachment_required m (LocationAttachment.from_dict (JDict m)).
Proof.
  intros H. unfold raises_KeyError, Attachment_required in *. unfold_decoders.
  cbn [mbind result_bind]. required m "type". all_present.
Qed.

Lemma MessageStat_missing m :
  missing MessageStat_required m →
  raises_KeyError MessageStat_required m (MessageStat.from_dict (JDict m)).
Proof.
  intros H. unfold raises_KeyError, MessageStat_required in *. unfold_decoders.
  required m "views". all_present.
Qed.

Lemma ChatAdmin_missing m :
  missing ChatAdmin_required m →
  raises_KeyError ChatAdmin_required m (ChatAdmin.from_dict (JDict m)).
Proof.
  intros H. unfold raises_KeyError, ChatAdmin_required in *. unfold_decoders.
  required m "user_id". all_present.
Qed.

Lemma Update_missing m :
  missing Update_required m →
  raises_KeyError Update_required m (Update.from_dict (JDict m)).
Proof.
  intros H. unfold raises_KeyError, Update_required in *. unfold_decoders.
  required m "update_type". required m "timestamp". all_present.
Qed.

Lemma MessageBody_missing m :
  missing MessageBody_required m → raises (MessageBody.from_dict (JDict m)).
Proof.
  intros H. unfold raises, MessageBody_required in *.
  unfold MessageBody.from_dict, subscript, get, get_default.
  cbn [mbind result_bind].
  nested (decode_attachments (py_or (default JNull (m !! "attachments")) (JList [])))
    decode_attachments_modelled.
  required m "mid". required m "seq". all_present.
Qed.

Lemma LinkedMessage_missing m :
  missing LinkedMessage_required m → raises (LinkedMessage.from_dict (JDict m)).
Proof.
  intros H. unfold raises, LinkedMessage_required in *.
  unfold LinkedMessage.from_dict, subscript, get, get_default.
  cbn [mbind result_bind].
  nested (opt_from_dict decode_user (default JNull (m !! "sender")))
    (opt_from_dict_modelled decode_user (default JNull (m !! "sender"))
       decode_user_modelled).
  required m "type". required m "chat_id". required m "message". all_present.
Qed.

Lemma Message_missing m :
  missing Message_required m → raises (Message.from_dict (JDict m)).
Proof.
  intros H. unfold raises, Message_required in *.
  unfold Message.from_dict, subscript, get, get_default.
  cbn [mbind result_bind].
  nested (opt_from_dict decode_user (default JNull (m !! "sender")))
    (opt_from_dict_modelled decode_user (default JNull (m !! "sender"))
       decode_user_modelled).
  nested (opt_from_dict LinkedMessage.from_dict (default JNull (m !! "link")))
    (opt_from_dict_modelled LinkedMessage.from_dict
       (default JNull (m !! "link")) LinkedMessage_modelled).
  nested (opt_from_dict MessageStat.from_dict (default JNull (m !! "stat")))
    (opt_from_dict_modelled MessageStat.from_dict
       (default JNull (m !! "stat")) MessageStat_modelled).
  required m "recipient".
  match goal with |- context [Recipient.from_dict ?j] =>
    nested (Recipient.from_dict j) (Recipient_modelled j) end.
  required m "body".
  match goal with |- context [MessageBody.from_dict ?j] =>
    nested (MessageBody.from_dict j) (MessageBody_modelled j) end.
  required m "timestamp". all_present.
Qed.

Lemma raised_modelled {A} (r : result A) : modelled (raised r).
Proof. by destruct r. Qed.

Lemma Chat_missing m :
  missing Chat_required m → raises (Chat.from_dict (JDict m)).
Proof.
  intros H. unfold raises, Chat_required in *.
  unfold Chat.from_dict, subscript, get, get_default.
  cbn [mbind result_bind].
  nested (raised (Chat.copy_participants (default JNull (m !! "participants"))))
    (raised_modelled
       (Chat.copy_participants (default JNull (m !! "participants")))).
  nested (opt_from_dict decode_photo_user
            (default JNull (m !! "dialog_with_user")))
    (opt_from_dict_modelled decode_photo_user
       (default JNull (m !! "dialog_with_user")) decode_photo_user_modelled).
  nested (opt_from_dict Message.from_dict
            (default JNull (m !! "pinned_message")))
    (opt_from_dict_modelled Message.from_dict
       (default JNull (m !! "pinned_message")) Message_modelled).
  required m "chat_id". required m "type". required m "status".
  required m "last_event_time". required m "participants_count".
  required m "is_public". all_present.
Qed.

Lemma User_unchecked (m : dict) v1 v2 v3 v4 :
  m !! "user_id" = Some v1 →
  m !! "first_name" = Some v2 →
  m !! "is_bot" = Some v3 →
  m !! "last_activity_time" = Some v4 →
  User.from_dict (JDict m) =
  Ok (User.mk v1 v2 (default JNull (m !! "last_name"))
        (default JNull (m !! "username")) v3 v4
        (default JNull (m !! "name"))).
Proof. intros H1 H2 H3 H4. unfold_decoders. by rewrite H1, H2, H3, H4. Qed.

Lemma UserWithPhoto_unchecked (m : dict) v1 v2 v3 v4 :
  m !! "user_id" = Some v1 →
  m !! "first_name" = Some v2 →
  m !! "is_bot" = Some v3 →
  m !! "last_activity_time" = Some v4 →
  UserWithPhoto.from_dict (JDict m) =
  Ok (UserWithPhoto.mk
        (User.mk v1 v2 (default JNull (m !! "last_name"))
           (default JNull (m !! "username")) v3 v4
           (default JNull (m !! "name")))
        (default JNull (m !! "description"))
        (default JNull (m !! "avatar_url"))
        (default JNull (m !! "full_avatar_url"))).
Proof.
  intros H1 H2 H3 H4. unfold UserWithPhoto.from_dict.
  by rewrite (User_unchecked m v1 v2 v3 v4).
Qed.

Lemma ChatMember_unchecked (m : dict) v1 v2 v3 v4 v5 v6 v7 v8 perms :
  m !! "user_id" = Some v1 →
  m !! "first_name" = Some v2 →
  m !! "is_bot" = Some v3 →
  m !! "last_activity_time" = Some v4 →
  m !! "last_access_time" = Some v5 →
  m !! "is_owner" = Some v6 →
  m !! "is_admin" = Some v7 →
  m !! "join_time" = Some v8 →
  permissions_stored m perms →
  ChatMember.from_dict (JDict m) =
  Ok (ChatMember.mk
        (UserWithPhoto.mk
           (User.mk v1 v2 (default JNull (m !! "last_name"))
              (default JNull (m !! "username")) v3 v4
              (default JNull (m !! "name")))
           (default JNull (m !! "description"))
           (default JNull (m !! "avatar_url"))
           (default JNull (m !! "full_avatar_url")))
        v5 v6 v7 v8 perms).
Proof.
  intros H1 H2 H3 H4 H5 H6 H7 H8 H9. unfold ChatMember.from_dict.
  rewrite (UserWithPhoto_unchecked m v1 v2 v3 v4) by done.
  unfold subscript, get, get_default. cbn [mbind result_bind].
  rewrite H5, H6, H7, H8. cbn [mbind result_bind].
  destruct H9 as [[-> ->]|(p & l & Hp & Hn & Hl & ->)]; [done|].
  rewrite Hp. cbn [default from_option id mbind result_bind].
  rewrite Hl. by destruct p.
Qed.

Lemma Recipient_unchecked (m : dict) v :
  m !! "chat_type" = Some v →
  Recipient.from_dict (JDict m) =
  Ok (Recipient.mk (default JNull (m !! "chat_id")) v
        (default JNull (m !! "user_id"))).
Proof. intros H. unfold_decoders. by rewrite H. Qed.

Lemma Attachment_any_type (m : dict) ty :
  m !! "type" = Some ty →
  Attachment.from_dict (JDict m) =
  Ok (Attachment.mk ty (default JNull (m !! "payload"))).
Proof. intros H. unfold_decoders. by rewrite H. Qed.

Lemma MessageStat_unchecked (m : dict) v :
  m !! "views" = Some v →
  MessageStat.from_dict (JDict m) = Ok (MessageStat.mk v).
Proof. intros H. unfold_decoders. by rewrite H. Qed.

Lemma ChatAdmin_unchecked (m : dict) v l :
  m !! "user_id" = Some v →
  py_list (py_or (default JNull (m !! "permissions")) (JList [])) = Ok l →
  ChatAdmin.from_dict (JDict m) = Ok (ChatAdmin.mk v l).
Proof.
  intros H1 H2. unfold_decoders. rewrite H1. cbn [mbind result_bind].
  by rewrite H2.
Qed.

Lemma Update_unchecked (m : dict) v1 v2 :
  m !! "update_type" = Some v1 →
  m !! "timestamp" = Some v2 →
  Update.from_dict (JDict m) =
  Ok (Update.mk v1 v2
        (filter (λ kv : string * json, ¬ Update.reserved kv.1) m)).
Proof. intros H1 H2. unfold_decoders. by rewrite H1, H2. Qed.

Lemma MessageBody_unchecked (m : dict) v1 v2 atts :
  m !! "mid" = Some v1 →
  m !! "seq" = Some v2 →
  decode_attachments (py_or (default JNull (m !! "attachments")) (JList [])) =
    Ok atts →
  MessageBody.from_dict (JDict m) =
  Ok (MessageBody.mk v1 v2 (default JNull (m !! "text")) atts
        (default JNull (m !! "markup"))).
Proof.
  intros H1 H2 H3. unfold MessageBody.from_dict, subscript, get, get_default.
  cbn [mbind result_bind]. rewrite H3. cbn [mbind result_bind].
  by rewrite H1, H2.
Qed.

Lemma LinkedMessage_unchecked (m : dict) v1 v2 raw s b :
  m !! "type" = Some v1 →
  m !! "chat_id" = Some v2 →
  m !! "message" = Some raw →
  opt_from_dict decode_user (default JNull (m !! "sender")) = Ok s →
  MessageBody.from_dict raw = Ok b →
  LinkedMessage.from_dict (JDict m) = Ok (LinkedMessage.mk v1 s v2 b).
Proof.
  intros H1 H2 H3 Hs Hb.
  unfold LinkedMessage.from_dict, subscript, get, get_default.
  cbn [mbind result_bind]. rewrite Hs. cbn [mbind result_bind].
  rewrite H1, H2, H3. cbn [mbind result_bind]. by rewrite Hb.
Qed.

Lemma Message_unchecked (m : dict) rraw braw v s l st r b :
  m !! "recipient" = Some rraw →
  m !! "body" = Some braw →
  m !! "timestamp" = Some v →
  opt_from_dict decode_user (default JNull (m !! "sender")) = Ok s →
  opt_from_dict LinkedMessage.from_dict (default JNull (m !! "link")) = Ok l →
  opt_from_dict MessageStat.from_dict (default JNull (m !! "stat")) = Ok st →
  Recipient.from_dict rraw = Ok r →
  MessageBody.from_dict braw = Ok b →
  Message.from_dict (JDict m) =
  Ok (Message.mk r b v s l st (default JNull (m !! "url"))).
Proof.
  intros H1 H2 H3 Hs Hl Hst Hr Hb.
  unfold Message.from_dict, subscript, get, get_default.
  cbn [mbind result_bind]. rewrite Hs. cbn [mbind result_bind].
  rewrite Hl. cbn [mbind result_bind]. rewrite Hst. cbn [mbind result_bind].
  rewrite H1. cbn [mbind result_bind]. rewrite Hr. cbn [mbind result_bind].
  rewrite H2. cbn [mbind result_bind]. rewrite Hb. cbn [mbind result_bind].
  by rewrite H3.
Qed.

Lemma Chat_unchecked (m : dict) v1 v2 v3 v4 v5 v6 ps d pm :
  m !! "chat_id" = Some v1 →
  m !! "type" = Some v2 →
  m !! "status" = Some v3 →
  m !! "last_event_time" = Some v4 →
  m !! "participants_count" = Some v5 →
  m !! "is_public" = Some v6 →
  Chat.copy_participants (default JNull (m !! "participants")) = Ok ps →
  opt_from_dict decode_photo_user (default JNull (m !! "dialog_with_user")) =
    Ok d →
  opt_from_dict Message.from_dict (default JNull (m !! "pinned_message")) =
    Ok pm →
  Chat.from_dict (JDict m) =
  Ok (Chat.mk v1 v2 v3 (default JNull (m !! "title")) v4 v5
        (default JNull (m !! "icon")) v6
        (default JNull (m !! "description"))
        (default JNull (m !! "owner_id")) ps
        (default JNull (m !! "link")) d
        (default JNull (m !! "chat_message_id")) pm).
Proof.
  intros H1 H2 H3 H4 H5 H6 Hps Hd Hpm.
  unfold Chat.from_dict, subscript, get, get_default.
  cbn [mbind result_bind]. rewrite Hps. cbn [raised mbind result_bind].
  rewrite Hd. cbn [mbind result_bind]. rewrite Hpm. cbn [mbind result_bind].
  by rewrite H1, H2, H3, H4, H5, H6.
Qed.

Lemma Recipient_not_mapping v :
  is_mapping v = false → Recipient.from_dict v = Raise AttributeError.
Proof. by destruct v. Qed.

Lemma MessageBody_not_mapping v :
  is_mapping v = false → MessageBody.from_dict v = Raise AttributeError.
Proof. by destruct v. Qed.

Lemma LinkedMessage_message_not_mapping (m : dict) v :
  m !! "message" = Some v → is_mapping v = false →
  raises (LinkedMessage.from_dict (JDict m)).
Proof.
  intros Hv Hn. unfold raises.
  unfold LinkedMessage.from_dict, subscript, get, get_default.
  cbn [mbind result_bind].
  nested (opt_from_dict decode_user (default JNull (m !! "sender")))
    (opt_from_dict_modelled decode_user (default JNull (m !! "sender"))
       decode_user_modelled).
  required m "type". required m "chat_id". rewrite Hv.
  cbn [mbind result_bind]. rewrite (MessageBody_not_mapping v Hn).
  by eexists.
Qed.

Lemma Message_recipient_not_mapping (m : dict) v :
  m !! "recipient" = Some v → is_mapping v = false →
  raises (Message.from_dict (JDict m)).
Proof.
  intros Hv Hn. unfold raises.
  unfold Message.from_dict, subscript, get, get_default.
  cbn [mbind result_bind].
  nested (opt_from_dict decode_user (default JNull (m !! "sender")))
    (opt_from_dict_modelled decode_user (default JNull (m !! "sender"))
       decode_user_modelled).
  nested (opt_from_dict LinkedMessage.from_dict (default JNull (m !! "link")))
    (opt_from_dict_modelled LinkedMessage.from_dict
       (default JNull (m !! "link")) LinkedMessage_modelled).
  nested (opt_from_dict MessageStat.from_dict (default JNull (m !! "stat")))
    (opt_from_dict_modelled MessageStat.from_dict
       (default JNull (m !! "stat")) MessageStat_modelled).
  rewrite Hv. cbn [mbind result_bind]. rewrite (Recipient_not_mapping v Hn).
  by eexists.
Qed.

Lemma Message_body_not_mapping (m : dict) v :
  m !! "body" = Some v → is_mapping v = false →
  raises (Message.from_dict (JDict m)).
Proof.
  intros Hv Hn. unfold raises.
  unfold Message.from_dict, subscript, get, get_default.
  cbn [mbind result_bind].
  nested (opt_from_dict decode_user (default JNull (m !! "sender")))
    (opt_from_dict_modelled decode_user (default JNull (m !! "sender"))
       decode_user_modelled).
  nested (opt_from_dict LinkedMessage.from_dict (default JNull (m !! "link")))
    (opt_from_dict_modelled LinkedMessage.from_dict
       (default JNull (m !! "link")) LinkedMessage_modelled).
  nested (opt_from_dict MessageStat.from_dict (default JNull (m !! "stat")))
    (opt_from_dict_modelled MessageStat.from_dict
       (default JNull (m !! "stat")) MessageStat_modelled).
  required m "recipient".
  match goal with |- context [Recipient.from_dict ?j] =>
    nested (Recipient.from_dict j) (Recipient_modelled j) end.
  rewrite Hv. cbn [mbind result_bind]. rewrite (MessageBody_not_mapping v Hn).
  by eexists.
Qed.

Lemma LocationAttachment_no_payload (m : dict) ty :
  m !! "type" = Some ty →
  m !! "payload" = None →
  LocationAttachment.from_dict (JDict m) =
  Ok (LocationAttachment.mk ty (Some ∅) (JFloat 0) (JFloat 0)).
Proof. intros H1 H2. unfold_decoders. by rewrite H1, H2. Qed.

Lemma LocationAttachment_payload (m : dict) ty (p : dict) :
  m !! "type" = Some ty →
  m !! "payload" = Some (JDict p) →
  LocationAttachment.from_dict (JDict m) =
  Ok (LocationAttachment.mk ty (Some p)
        (default (JFloat 0) (p !! "latitude"))
        (default (JFloat 0) (p !! "longitude"))).
Proof.
  intros H1 H2. unfold_decoders. rewrite H1, H2.
  cbn [mbind result_bind default from_option id].
  unfold py_or, truthy. case_bool_decide as Hp; [|done].
  by rewrite Hp.
Qed.

(** C4 (amended): a mapping that lacks a key its decoder reads with
    [data[k]] is never decoded.  User, UserWithPhoto, ChatMember, Recipient,
    Attachment, LocationAttachment, MessageStat, ChatAdmin and Update raise
    a KeyError that carries a missing key and nothing else (no entity name);
    MessageBody, LinkedMessage, Message and Chat raise an exception, which
    may come from a nested entity or from [dict(participants)].  No decoder
    checks the shape of a value it copies: once the required keys are
    present, and the lists, dicts and nested entities that the decoder
    builds itself are built, the decoder succeeds and holds each copied
    value as it is in the mapping.
    A required nested entity is handed to its own decoder, which raises an
    AttributeError on a value that is not a mapping: a Message whose
    [recipient] or [body], and a LinkedMessage whose [message], is present
    but is no mapping is not decoded.  For LocationAttachment only [type] is
    required: without a payload the coordinates are 0.0, and with a payload
    each coordinate that the payload lacks is 0.0. *)
Theorem required_fields :
  (∀ m, missing User_required m →
        raises_KeyError User_required m (User.from_dict (JDict m))) ∧
  (∀ m, missing User_required m →
        raises_KeyError User_required m (UserWithPhoto.from_dict (JDict m))) ∧
  (∀ m, missing ChatMember_required m →
        raises_KeyError ChatMember_required m (ChatMember.from_dict (JDict m))) ∧
  (∀ m, missing Recipient_required m →
        raises_KeyError Recipient_required m (Recipient.from_dict (JDict m))) ∧
  (∀ m, missing Attachment_required m →
        raises_KeyError Attachment_required m (Attachment.from_dict (JDict m))) ∧
  (∀ m, missing Attachment_required m →
        raises_KeyError Attachment_required m
          (LocationAttachment.from_dict (JDict m))) ∧
  (∀ m, missing MessageStat_required m →
        raises_KeyError MessageStat_required m (MessageStat.from_dict (JDict m))) ∧
  (∀ m, missing ChatAdmin_required m →
        raises_KeyError ChatAdmin_required m (ChatAdmin.from_dict (JDict m))) ∧
  (∀ m, missing Update_required m →
        raises_KeyError Update_required m (Update.from_dict (JDict m))) ∧
  (∀ m, missing MessageBody_required m →
        raises (MessageBody.from_dict (JDict m))) ∧
  (∀ m, missing LinkedMessage_required m →
        raises (LinkedMessage.from_dict (JDict m))) ∧
  (∀ m, missing Message_required m →
        raises (Message.from_dict (JDict m))) ∧
  (∀ m, missing Chat_required m →
        raises (Chat.from_dict (JDict m))) ∧
  (∀ (m : dict) v1 v2 v3 v4,
     m !! "user_id" = Some v1 → m !! "first_name" = Some v2 →
     m !! "is_bot" = Some v3 → m !! "last_activity_time" = Some v4 →
     User.from_dict (JDict m) =
     Ok (User.mk v1 v2 (default JNull (m !! "last_name"))
           (default JNull (m !! "username")) v3 v4
           (default JNull (m !! "name")))) ∧
  (∀ (m : dict) v1 v2 v3 v4,
     m !! "user_id" = Some v1 → m !! "first_name" = Some v2 →
     m !! "is_bot" = Some v3 → m !! "last_activity_time" = Some v4 →
     UserWithPhoto.from_dict (JDict m) =
     Ok (UserWithPhoto.mk
           (User.mk v1 v2 (default JNull (m !! "last_name"))
              (default JNull (m !! "username")) v3 v4
              (default JNull (m !! "name")))
           (default JNull (m !! "description"))
           (default JNull (m !! "avatar_url"))
           (default JNull (m !! "full_avatar_url")))) ∧
  (∀ (m : dict) v1 v2 v3 v4 v5 v6 v7 v8 perms,
     m !! "user_id" = Some v1 → m !! "first_name" = Some v2 →
     m !! "is_bot" = Some v3 → m !! "last_activity_time" = Some v4 →
     m !! "last_access_time" = Some v5 → m !! "is_owner" = Some v6 →
     m !! "is_admin" = Some v7 → m !! "join_time" = Some v8 →
     permissions_stored m perms →
     ChatMember.from_dict (JDict m) =
     Ok (ChatMember.mk
           (UserWithPhoto.mk
              (User.mk v1 v2 (default JNull (m !! "last_name"))
                 (default JNull (m !! "username")) v3 v4
                 (default JNull (m !! "name")))
              (default JNull (m !! "description"))
              (default JNull (m !! "avatar_url"))
              (default JNull (m !! "full_avatar_url")))
           v5 v6 v7 v8 perms)) ∧
  (∀ (m : dict) v,
     m !! "chat_type" = Some v →
     Recipient.from_dict (JDict m) =
     Ok (Recipient.mk (default JNull (m !! "chat_id")) v
           (default JNull (m !! "user_id")))) ∧
  (∀ (m : dict) v,
     m !! "type" = Some v →
     Attachment.from_dict (JDict m) =
     Ok (Attachment.mk v (default JNull (m !! "payload")))) ∧
  (∀ (m : dict) v,
     m !! "views" = Some v →
     MessageStat.from_dict (JDict m) = Ok (MessageStat.mk v)) ∧
  (∀ (m : dict) v l,
     m !! "user_id" = Some v →
     py_list (py_or (default JNull (m !! "permissions")) (JList [])) = Ok l →
     ChatAdmin.from_dict (JDict m) = Ok (ChatAdmin.mk v l)) ∧
  (∀ (m : dict) v1 v2,
     m !! "update_type" = Some v1 → m !! "timestamp" = Some v2 →
     Update.from_dict (JDict m) =
     Ok (Update.mk v1 v2
           (filter (λ kv : string * json, ¬ Update.reserved kv.1) m))) ∧
  (∀ (m : dict) v1 v2 atts,
     m !! "mid" = Some v1 → m !! "seq" = Some v2 →
     decode_attachments
       (py_or (default JNull (m !! "attachments")) (JList [])) = Ok atts →
     MessageBody.from_dict (JDict m) =
     Ok (MessageBody.mk v1 v2 (default JNull (m !! "text")) atts
           (default JNull (m !! "markup")))) ∧
  (∀ (m : dict) v1 v2 raw s b,
     m !! "type" = Some v1 → m !! "chat_id" = Some v2 →
     m !! "message" = Some raw →
     opt_from_dict decode_user (default JNull (m !! "sender")) = Ok s →
     MessageBody.from_dict raw = Ok b →
     LinkedMessage.from_dict (JDict m) = Ok (LinkedMessage.mk v1 s v2 b)) ∧
  (∀ (m : dict) rraw braw v s l st r b,
     m !! "recipient" = Some rraw → m !! "body" = Some braw →
     m !! "timestamp" = Some v →
     opt_from_dict decode_user (default JNull (m !! "sender")) = Ok s →
     opt_from_dict LinkedMessage.from_dict (default JNull (m !! "link")) =
       Ok l →
     opt_from_dict MessageStat.from_dict (default JNull (m !! "stat")) =
       Ok st →
     Recipient.from_dict rraw = Ok r →
     MessageBody.from_dict braw = Ok b →
     Message.from_dict (JDict m) =
     Ok (Message.mk r b v s l st (default JNull (m !! "url")))) ∧
  (∀ (m : dict) v1 v2 v3 v4 v5 v6 ps d pm,
     m !! "chat_id" = Some v1 → m !! "type" = Some v2 →
     m !! "status" = Some v3 → m !! "last_event_time" = Some v4 →
     m !! "participants_count" = Some v5 → m !! "is_public" = Some v6 →
     Chat.copy_participants (default JNull (m !! "participants")) = Ok ps →
     opt_from_dict decode_photo_user
       (default JNull (m !! "dialog_with_user")) = Ok d →
     opt_from_dict Message.from_dict
       (default JNull (m !! "pinned_message")) = Ok pm →
     Chat.from_dict (JDict m) =
     Ok (Chat.mk v1 v2 v3 (default JNull (m !! "title")) v4 v5
           (default JNull (m !! "icon")) v6
           (default JNull (m !! "description"))
           (default JNull (m !! "owner_id")) ps
           (default JNull (m !! "link")) d
           (default JNull (m !! "chat_message_id")) pm)) ∧
  (∀ v, is_mapping v = false →
        Recipient.from_dict v = Raise AttributeError ∧
        MessageBody.from_dict v = Raise AttributeError) ∧
  (∀ (m : dict) v,
     is_mapping v = false →
     m !! "recipient" = Some v ∨ m !! "body" = Some v →
     raises (Message.from_dict (JDict m))) ∧
  (∀ (m : dict) v,
     is_mapping v = false → m !! "message" = Some v →
     raises (LinkedMessage.from_dict (JDict m))) ∧
  (∀ (m : dict) ty,
     m !! "type" = Some ty → m !! "payload" = None →
     LocationAttachment.from_dict (JDict m) =
     Ok (LocationAttachment.mk ty (Some ∅) (JFloat 0) (JFloat 0))) ∧
  (∀ (m : dict) ty (p : dict),
     m !! "type" = Some ty → m !! "payload" = Some (JDict p) →
     LocationAttachment.from_dict (JDict m) =
     Ok (LocationAttachment.mk ty (Some p)
           (default (JFloat 0) (p !! "latitude"))
           (default (JFloat 0) (p !! "longitude")))).
Proof.
  split; [exact User_missing|].
  split; [exact UserWithPhoto_missing|].
  split; [exact ChatMember_missing|].
  split; [exact Recipient_missing|].
  split; [exact Attachment_missing|].
  split; [exact LocationAttachment_missing|].
  split; [exact MessageStat_missing|].
  split; [exact ChatAdmin_missing|].
  split; [exact Update_missing|].
  split; [exact MessageBody_missing|].
  split; [exact LinkedMessage_missing|].
  split; [exact Message_missing|].
  split; [exact Chat_missing|].
  split; [exact User_unchecked|].
  split; [exact UserWithPhoto_unchecked|].
  split; [exact ChatMember_unchecked|].
  split; [exact Recipient_unchecked|].
  split; [exact Attachment_any_type|].
  split; [exact MessageStat_unchecked|].
  split; [exact ChatAdmin_unchecked|].
  split; [exact Update_unchecked|].
  split; [exact MessageBody_unchecked|].
  split; [exact LinkedMessage_unchecked|].
  split; [exact Message_unchecked|].
  split; [exact Chat_unchecked|].
  split.
  { intros v Hv. split;
      [by apply Recipient_not_mapping|by apply MessageBody_not_mapping]. }
  split.
  { intros m v Hv [H|H];
      [by eapply Message_recipient_not_mapping
      |by eapply Message_body_not_mapping]. }
  split.
  { intros m v Hv H. by eapply LinkedMessage_message_not_mapping. }
  split; [exact LocationAttachment_no_payload|exact LocationAttachment_payload].
Qed.

(** C4, as stated, fails: a location attachment whose payload lacks the
    coordinates is decoded, with 0.0 for both; a user whose required values
    have the wrong shape is decoded, with these values; the failure on a
    missing key is a KeyError that carries the key alone, and the failure
    on a recipient that is a number is an AttributeError. *)
Lemma required_fields_defaulted :
  LocationAttachment.from_dict (JDict location_without_coordinates) =
    Ok (LocationAttachment.mk (JStr "location")
          (Some (mkdict [("accuracy", JInt 3)])) (JFloat 0) (JFloat 0)) ∧
  User.from_dict (JDict user_of_wrong_shape) =
    Ok (User.mk (JStr "seven") (JInt 7) JNull JNull (JList []) JNull JNull) ∧
  User.from_dict (JDict user_without_id) = Raise (KeyError "user_id") ∧
  Message.from_dict (JDict message_with_number_recipient) =
    Raise AttributeError.
Proof. repeat split; vm_compute; reflexivity. Qed.

(** The theorem of C4 at the user without [user_id], at the message without
    [timestamp], at the chat that has participants and no [chat_id], at the
    user and the recipient of the wrong shape, at the message whose
    recipient is a number and at the location attachment without
    coordinates. *)
Lemma required_fields_witness :
  raises_KeyError User_required user_without_id
    (User.from_dict (JDict user_without_id)) ∧
  raises (Message.from_dict (JDict message_without_timestamp)) ∧
  raises (Chat.from_dict (JDict chat_of_pairs_without_id)) ∧
  User.from_dict (JDict user_of_wrong_shape) =
    Ok (User.mk (JStr "seven") (JInt 7) JNull JNull (JList []) JNull JNull) ∧
  Recipient.from_dict (JDict recipient_of_wrong_shape) =
    Ok (Recipient.mk JNull (JList [JInt 1]) JNull) ∧
  raises (Message.from_dict (JDict message_with_number_recipient)) ∧
  LocationAttachment.from_dict (JDict location_without_coordinates) =
    Ok (LocationAttachment.mk (JStr "location")
          (Some (mkdict [("accuracy", JInt 3)])) (JFloat 0) (JFloat 0)).
Proof.
  destruct required_fields
    as (HU & _ & _ & _ & _ & _ & _ & _ & _ & _ & _ & HM & HC & HS & _ & _ &
        HR & _ & _ & _ & _ & _ & _ & _ & _ & _ & HN & _ & _ & HL).
  split; [|split; [|split; [|split; [|split; [|split]]]]].
  - apply HU. exists "user_id". split; [repeat constructor | reflexivity].
  - apply HM. exists "timestamp". split; [repeat constructor | reflexivity].
  - apply HC. exists "chat_id". split; [repeat constructor | reflexivity].
  - apply (HS user_of_wrong_shape); reflexivity.
  - apply (HR recipient_of_wrong_shape); reflexivity.
  - apply (HN message_with_number_recipient (JInt 5));
      [reflexivity | left; reflexivity].
  - apply (HL location_without_coordinates (JStr "location")
             (mkdict [("accuracy", JInt 3)])); reflexivity.
Defined.

(** ** Attachments and their variants *)

Lemma NewMessageBody_decodes_base d b :
  NewMessageBody.from_dict d = Ok b →
  forallb is_base (NewMessageBody.attachments b) = true.
Proof.
  unfold NewMessageBody.from_dict.
  destruct (get d "attachments") as [raw| |]; [|done..].
  cbn [mbind result_bind].
  destruct (decode_attachments _) as [l| |] eqn:E; [|done..].
  cbn [mbind result_bind]. apply decode_attachments_base in E.
  destruct (get d "text"); [|done..].
  destruct (get d "link"); [|done..].
  destruct (get_default d "notify" _); [|done..].
  destruct (get d "format"); [|done..].
  by intros [= <-].
Qed.

Lemma LocationAttachment_encodes_coordinates l :
  LocationAttachment.to_dict l !! "type" = Some (LocationAttachment.type l) ∧
  ∃ p, LocationAttachment.to_dict l !! "payload" = Some (JDict p) ∧
       p !! "latitude" = Some (LocationAttachment.latitude l) ∧
       p !! "longitude" = Some (LocationAttachment.longitude l) ∧
       ∀ k, k ≠ "latitude" → k ≠ "longitude" →
            p !! k = default ∅ (LocationAttachment.payload l) !! k.
Proof.
  destruct l as [ty p lat lon]. split; [done|].
  eexists. split; [reflexivity|].
  cbn [LocationAttachment.payload LocationAttachment.latitude
       LocationAttachment.longitude].
  split; [|split].
  - by rewrite lookup_insert_ne, lookup_insert_eq.
  - by rewrite lookup_insert_eq.
  - intros k H1 H2. by rewrite !lookup_insert_ne.
Qed.

(** C5 (amended): no decoder reads the discriminator to choose a variant.
    [Attachment.from_dict] gives an attachment of the base class for every
    [type], ["location"] included, with the payload as it is; the
    attachments of a MessageBody and of a NewMessageBody are decoded by it,
    element by element, so none of them is a LocationAttachment.
    [LocationAttachment.from_dict], when it is called itself, takes
    latitude and longitude from the payload, whatever the [type]; encoding a
    LocationAttachment writes the [type] and a payload that holds both
    coordinates and the other entries of the stored payload. *)
Theorem attachment_decoding :
  (∀ (m : dict) ty,
     m !! "type" = Some ty →
     Attachment.from_dict (JDict m) =
     Ok (Attachment.mk ty (default JNull (m !! "payload")))) ∧
  (∀ v l, decode_attachments v = Ok l → forallb is_base l = true) ∧
  (∀ d b, MessageBody.from_dict d = Ok b → body_plain b = true) ∧
  (∀ d b, NewMessageBody.from_dict d = Ok b →
          forallb is_base (NewMessageBody.attachments b) = true) ∧
  (∀ (m : dict) ty (p : dict),
     m !! "type" = Some ty → m !! "payload" = Some (JDict p) →
     LocationAttachment.from_dict (JDict m) =
     Ok (LocationAttachment.mk ty (Some p)
           (default (JFloat 0) (p !! "latitude"))
           (default (JFloat 0) (p !! "longitude")))) ∧
  (∀ l,
     LocationAttachment.to_dict l !! "type" = Some (LocationAttachment.type l) ∧
     ∃ p, LocationAttachment.to_dict l !! "payload" = Some (JDict p) ∧
          p !! "latitude" = Some (LocationAttachment.latitude l) ∧
          p !! "longitude" = Some (LocationAttachment.longitude l) ∧
          ∀ k, k ≠ "latitude" → k ≠ "longitude" →
               p !! k = default ∅ (LocationAttachment.payload l) !! k).
Proof.
  split; [exact Attachment_any_type|].
  split; [exact decode_attachments_base|].
  split; [exact MessageBody_decodes_base|].
  split; [exact NewMessageBody_decodes_base|].
  split; [exact LocationAttachment_payload|].
  exact LocationAttachment_encodes_coordinates.
Qed.

(** C5, as stated, fails on the attachment of its own example: decoded as
    an attachment, alone or inside a message body, it is an Attachment of
    the base class, not a LocationAttachment. *)
Lemma location_not_dispatched :
  Attachment.from_dict (JDict location_json) =
    Ok (Attachment.mk (JStr "location") (JDict coordinates)) ∧
  MessageBody.from_dict (JDict body_json) =
    Ok (MessageBody.mk (JStr "mid.1") (JInt 1) JNull
          [Base (Attachment.mk (JStr "location") (JDict coordinates))] JNull) ∧
  ¬ (∃ b l, MessageBody.from_dict (JDict body_json) = Ok b ∧
            MessageBody.attachments b = [Location l]).
Proof.
  assert (H : MessageBody.from_dict (JDict body_json) =
    Ok (MessageBody.mk (JStr "mid.1") (JInt 1) JNull
          [Base (Attachment.mk (JStr "location") (JDict coordinates))] JNull))
    by (vm_compute; reflexivity).
  split; [vm_compute; reflexivity|]. split; [exact H|].
  intros (b & l & Hb & Hl). rewrite H in Hb. injection Hb as <-.
  discriminate Hl.
Qed.

(** The theorem of C5 at the attachment of the example. *)
Lemma attachment_decoding_witness :
  Attachment.from_dict (JDict location_json) =
    Ok (Attachment.mk (JStr "location") (JDict coordinates)) ∧
  LocationAttachment.from_dict (JDict location_json) =
    Ok location_with_payload ∧
  body_plain
    (MessageBody.mk (JStr "mid.1") (JInt 1) JNull
       [Base (Attachment.mk (JStr "location") (JDict coordinates))] JNull) =
    true.
Proof.
  destruct attachment_decoding as (HA & _ & HB & _ & HL & _).
  split; [|split].
  - apply (HA location_json (JStr "location")). reflexivity.
  - apply (HL location_json (JStr "location") coordinates); reflexivity.
  - apply (HB (JDict body_json)). reflexivity.
Defined.

(** ** The URL of a request *)

Lemma rstrip_slash_spec s :
  endswith_slash (rstrip_slash s) = false ∧
  ∃ n, s = rstrip_slash s +:+ slashes n.
Proof.
  induction s as [|c s' [IHe [n IHn]]]; [split; [done|by exists 0]|].
  cbn [rstrip_slash]. destruct (rstrip_slash s') as [|c' r] eqn:Hr.
  - destruct (Ascii.eqb c "/") eqn:Hc.
    + apply Ascii.eqb_eq in Hc as ->. split; [done|].
      exists (S n). cbn. by rewrite IHn at 1.
    + split; [cbn; by rewrite Hc|]. exists n. cbn. by rewrite IHn at 1.
  - split; [exact IHe|]. exists n. cbn. rewrite IHn at 1. done.
Qed.

Lemma build_url_path path :
  (if negb (startswith_slash path) then "/" +:+ path else path) =
  "/" +:+ without_leading_slash path.
Proof.
  destruct path as [|c rest]; [done|]. cbn.
  destruct (Ascii.eqb c "/") eqn:Hc; [|done].
  by apply Ascii.eqb_eq in Hc as ->.
Qed.

Lemma joined_by_one_slash_iff base rest :
  joined_by_one_slash base (base +:+ "/" +:+ rest) ↔
  startswith_slash rest = false.
Proof.
  split.
  - intros (rest' & Heq & Hs).
    apply (inj (String.app base)), (inj (String.app "/")) in Heq.
    by subst.
  - intros Hs. by exists rest.
Qed.

(** C8 (amended): for every base endpoint and every path, the URL is the
    base endpoint without its trailing slashes, one slash, and the path
    without its first slash when it begins with one; the client keeps a
    base that ends with no slash.  Base and path are joined by exactly one
    separator exactly when what is left of the path begins with no slash,
    that is when the path has at most one leading slash. *)
Theorem build_url_joins access_token base_url timeout session use_models path :
  let self :=
    MaxBotAPI.__init__ access_token base_url timeout session use_models in
  MaxBotAPI._build_url self path =
    rstrip_slash base_url +:+ "/" +:+ without_leading_slash path ∧
  endswith_slash (rstrip_slash base_url) = false ∧
  (∃ n, base_url = rstrip_slash base_url +:+ slashes n) ∧
  (joined_by_one_slash (rstrip_slash base_url)
     (MaxBotAPI._build_url self path) ↔
   startswith_slash (without_leading_slash path) = false).
Proof.
  cbn zeta.
  assert (MaxBotAPI._build_url
            (MaxBotAPI.__init__ access_token base_url timeout session
               use_models) path =
          rstrip_slash base_url +:+ "/" +:+ without_leading_slash path) as Hu.
  { unfold MaxBotAPI._build_url, MaxBotAPI.__init__; cbn [MaxBotAPI._base_url].
    by rewrite build_url_path. }
  split; [exact Hu|].
  split; [apply rstrip_slash_spec|].
  split; [apply rstrip_slash_spec|].
  rewrite Hu. apply joined_by_one_slash_iff.
Qed.

(** C8, as stated, fails on a path with two leading slashes: only the first
    is dropped, and the URL has two slashes between the base and the
    path. *)
Lemma double_slash_is_kept :
  MaxBotAPI._build_url bot_at_h "//a" = "http://h//a" ∧
  ¬ joined_by_one_slash "http://h" (MaxBotAPI._build_url bot_at_h "//a").
Proof.
  split; [reflexivity|].
  change (MaxBotAPI._build_url bot_at_h "//a")
    with ("http://h" +:+ "/" +:+ "/a").
  rewrite joined_by_one_slash_iff. discriminate.
Qed.

(** The theorem of C8 at the paths [me] and [/me], after a base with a
    trailing slash. *)
Lemma build_url_joins_witness :
  joined_by_one_slash "https://platform-api.max.ru"
    (MaxBotAPI._build_url bot "me") ∧
  joined_by_one_slash "https://platform-api.max.ru"
    (MaxBotAPI._build_url bot "/me") ∧
  MaxBotAPI._build_url bot "me" = "https://platform-api.max.ru/me" ∧
  MaxBotAPI._build_url bot "/me" = "https://platform-api.max.ru/me".
Proof.
  split; [|split; [|split]].
  - apply (build_url_joins "bot-token" "https://platform-api.max.ru/"
             (Some 10%Q) (λ _, Ok plain_ok) false "me").
    reflexivity.
  - apply (build_url_joins "bot-token" "https://platform-api.max.ru/"
             (Some 10%Q) (λ _, Ok plain_ok) false "/me").
    reflexivity.
  - reflexivity.
  - reflexivity.
Defined.

(** ** The query of a request *)

Lemma request_query_lookup self params k :
  MaxBotAPI.request_query self params !! k =
  match caller_value params k with
  | Some v => Some v
  | None =>
      if decide (k = "access_token")
      then Some (JStr (MaxBotAPI._access_token self))
      else None
  end.
Proof.
  unfold MaxBotAPI.request_query.
  set (query := match params with
                | Some p => if bool_decide (p = ∅) then ∅ else p ∪ ∅
                | None => ∅
                end).
  assert (Hq : ∀ j, query !! j = caller_value params j).
  { intros j. unfold query, caller_value. destruct params as [p|]; cbn.
    - case_bool_decide as Hp; [by rewrite Hp|]. by rewrite (right_id_L ∅ (∪)).
    - apply lookup_empty. }
  unfold MaxBotAPI.setdefault.
  destruct (query !! "access_token") as [tok|] eqn:Htok.
  - rewrite Hq. destruct (caller_value params k) eqn:Hk; [done|].
    case_decide as Hd; [|done]. subst k. rewrite Hq in Htok. congruence.
  - case_decide as Hd.
    + subst k. rewrite lookup_insert_eq. rewrite Hq in Htok. by rewrite Htok.
    + rewrite lookup_insert_ne by done. rewrite Hq.
      by destruct (caller_value params k).
Qed.

(** X28: the query that [_request] hands to the transport, as [setdefault]
    builds it: it always has an [access_token] entry, and every entry of
    the caller is in it unchanged, an [access_token] entry of the caller
    included; the token of the client is the value of [access_token] when
    the caller passed none.  The query has no other entry. *)
Theorem query_merges_token self method path params json_body timeout log :
  let req :=
    MaxBotAPI.request_args self method path params json_body timeout in
  (MaxBotAPI._request self method path params json_body timeout log).2 =
    (log ++ [req])%list ∧
  is_Some (HttpRequest.params req !! "access_token") ∧
  (∀ k v, caller_value params k = Some v →
          HttpRequest.params req !! k = Some v) ∧
  (caller_value params "access_token" = None →
   HttpRequest.params req !! "access_token" =
     Some (JStr (MaxBotAPI._access_token self))) ∧
  (∀ k, k ≠ "access_token" → caller_value params k = None →
        HttpRequest.params req !! k = None).
Proof.
  cbn zeta. unfold MaxBotAPI._request, MaxBotAPI.request_args.
  cbn [HttpRequest.params].
  split; [by destruct (MaxBotAPI._session self _)|].
  split; [|split; [|split]].
  - rewrite request_query_lookup.
    destruct (caller_value params "access_token"); [done|].
    by rewrite decide_True.
  - intros k v Hk. by rewrite request_query_lookup, Hk.
  - intros Hk. by rewrite request_query_lookup, Hk, decide_True.
  - intros k Hne Hk. by rewrite request_query_lookup, Hk, decide_False.
Qed.

(** C2: the code at the call [_request("get", "/messages",
    params={"access_token": "other-token", "count": 50})] of a client whose
    token is [bot-token].  The one request that is sent carries the value of
    the caller under [access_token], not the token of the client, which the
    comment above [setdefault] and the docstrings of the class and of
    [_request] say is passed with every request. *)
Lemma caller_overrides_token :
  ∃ req,
    (MaxBotAPI._request bot "get" "/messages" (Some colliding_params) None None []).2
      = [req] ∧
    HttpRequest.params req !! "access_token" = Some (JStr "other-token") ∧
    HttpRequest.params req !! "access_token" ≠
      Some (JStr (MaxBotAPI._access_token bot)).
Proof.
  eexists. split; [reflexivity|]. split; [reflexivity|].
  vm_compute. discriminate.
Qed.

(** The theorem of X28 at a call with one parameter, and at the colliding
    call. *)
Lemma query_merges_token_witness :
  HttpRequest.params
    (MaxBotAPI.request_args bot "get" "/messages"
       (Some (mkdict [("count", JInt 50)])) None None) !! "access_token" =
    Some (JStr "bot-token") ∧
  HttpRequest.params
    (MaxBotAPI.request_args bot "get" "/messages"
       (Some colliding_params) None None) !! "access_token" =
    Some (JStr "other-token").
Proof.
  split.
  - apply (query_merges_token bot "get" "/messages"
             (Some (mkdict [("count", JInt 50)])) None None []).
    reflexivity.
  - apply (query_merges_token bot "get" "/messages"
             (Some colliding_params) None None []).
    reflexivity.
Defined.

(** ** The outcome of a request *)

Lemma ok_error_status resp :
  Response.ok resp = false ↔ error_status (Response.status_code resp).
Proof.
  unfold Response.ok, error_status.
  rewrite negb_false_iff, andb_true_iff, Z.leb_le, Z.ltb_lt. done.
Qed.

Lemma ok_not_error_status resp :
  Response.ok resp = true ↔ ¬ error_status (Response.status_code resp).
Proof.
  rewrite <- ok_error_status. by destruct (Response.ok resp).
Qed.

Lemma no_json_data resp : no_json resp → MaxBotAPI.response_data resp = JNull.
Proof.
  unfold MaxBotAPI.response_data; cbn zeta. intros [H | H]; rewrite H; [done|].
  by case_match.
Qed.

Lemma request_result self method path params json_body timeout log resp :
  MaxBotAPI._session self
    (MaxBotAPI.request_args self method path params json_body timeout) = Ok resp →
  (MaxBotAPI._request self method path params json_body timeout log).1 =
  MaxBotAPI.response_outcome resp (MaxBotAPI.response_data resp).
Proof. intros H. unfold MaxBotAPI._request. by rewrite H. Qed.

Lemma parsed_as_data resp v :
  parsed_as resp v → MaxBotAPI.response_data resp = v.
Proof.
  intros [Hc Hj]. unfold MaxBotAPI.response_data; cbn zeta.
  by rewrite Hc, Hj.
Qed.

(** C3 (amended): a response of status 4xx or 5xx makes [_request] raise a
    MaxAPIError with that status, with or without a JSON body; every other
    status, 3xx included, is a success: the call returns the value that the
    body was parsed into when the content type names JSON, the body parses
    and the value is not null, and the text of the response when the
    content type does not name JSON, the body does not parse, or the value
    is null. *)
Theorem status_classification self method path params json_body timeout log resp :
  MaxBotAPI._session self
    (MaxBotAPI.request_args self method path params json_body timeout) = Ok resp →
  let r := (MaxBotAPI._request self method path params json_body timeout log).1 in
  (error_status (Response.status_code resp) →
   ∃ e, r = Raise (APIError e) ∧ status_code e = Response.status_code resp) ∧
  (¬ error_status (Response.status_code resp) →
   ∀ v, parsed_as resp v → v ≠ JNull → r = Ok v) ∧
  (¬ error_status (Response.status_code resp) →
   no_json resp ∨ parsed_as resp JNull →
   r = Ok (JStr (Response.text resp))).
Proof.
  intros Hs; cbn zeta. rewrite (request_result _ _ _ _ _ _ _ _ Hs).
  unfold MaxBotAPI.response_outcome. split; [|split].
  - intros He. apply ok_error_status in He. rewrite He. change (negb false) with true. cbv iota.
    destruct (MaxBotAPI.response_data resp); eexists; split; reflexivity.
  - intros He v Hv Hn. apply ok_not_error_status in He.
    rewrite He, (parsed_as_data _ _ Hv). by destruct v.
  - intros He Hj. apply ok_not_error_status in He. rewrite He.
    destruct Hj as [Hj|Hj];
      [by rewrite (no_json_data _ Hj)|by rewrite (parsed_as_data _ _ Hj)].
Qed.

(** C3, as stated, fails on a status 302: the call returns the text of the
    response and raises nothing. *)
Lemma redirect_is_success :
  (MaxBotAPI._request (bot_with moved) "GET" "/me" None None None []).1 =
    Ok (JStr "moved") ∧
  ¬ (∃ e, (MaxBotAPI._request (bot_with moved) "GET" "/me" None None None []).1 =
          Raise e).
Proof.
  assert (H : (MaxBotAPI._request (bot_with moved) "GET" "/me" None None None []).1 =
              Ok (JStr "moved")) by reflexivity.
  split; [exact H|]. intros [e He]. rewrite H in He. discriminate He.
Qed.

(** The theorem of C3 at a status 404, at a status 200 with a plain text,
    at a status 200 with the JSON body [false], at a status 200 with the
    JSON body [null] and at the redirection. *)
Lemma status_classification_witness :
  (∃ e, (MaxBotAPI._request (bot_with chat_not_found) "GET" "/chats/1"
           None None None []).1 = Raise (APIError e) ∧
        status_code e = 404%Z) ∧
  (MaxBotAPI._request (bot_with plain_ok) "GET" "/me" None None None []).1 =
    Ok (JStr "ok") ∧
  (MaxBotAPI._request (bot_with false_body) "GET" "/me" None None None []).1 =
    Ok (JBool false) ∧
  (MaxBotAPI._request (bot_with null_body) "GET" "/me" None None None []).1 =
    Ok (JStr "null") ∧
  (MaxBotAPI._request (bot_with moved) "GET" "/me" None None None []).1 =
    Ok (JStr "moved").
Proof.
  split; [|split; [|split; [|split]]].
  - apply (status_classification (bot_with chat_not_found) "GET" "/chats/1"
             None None None [] chat_not_found eq_refl).
    unfold error_status; cbn; lia.
  - apply (status_classification (bot_with plain_ok) "GET" "/me"
             None None None [] plain_ok eq_refl).
    + unfold error_status; cbn; lia.
    + left; left; reflexivity.
  - destruct (status_classification (bot_with false_body) "GET" "/me"
                None None None [] false_body eq_refl) as (_ & H & _).
    apply H.
    + unfold error_status; cbn; lia.
    + split; reflexivity.
    + discriminate.
  - apply (status_classification (bot_with null_body) "GET" "/me"
             None None None [] null_body eq_refl).
    + unfold error_status; cbn; lia.
    + right; split; reflexivity.
  - apply (status_classification (bot_with moved) "GET" "/me"
             None None None [] moved eq_refl).
    + unfold error_status; cbn; lia.
    + left; left; reflexivity.
Defined.

(** ** The structured error *)

(** C6: when the response is a failure, [_request] raises a MaxAPIError that
    carries the status code.  When the body was parsed as JSON into a
    mapping, [error_code] and [message] are its [code] and [message] entries,
    null when absent, and [details] is the mapping.  When the body was not
    parsed, or is not a mapping, the three are null; the text of the
    response is never in [details]. *)
Theorem error_normalization self method path params json_body timeout log resp :
  MaxBotAPI._session self
    (MaxBotAPI.request_args self method path params json_body timeout) = Ok resp →
  Response.ok resp = false →
  ∃ e,
    (MaxBotAPI._request self method path params json_body timeout log).1 =
      Raise (APIError e) ∧
    status_code e = Response.status_code resp ∧
    (∀ m,
       contains "application/json"
         (default EmptyString (Response.content_type resp)) = true →
       Response.json resp = Some (JDict m) →
       error_code e = default JNull (m !! "code") ∧
       message e = default JNull (m !! "message") ∧
       details e = Some m) ∧
    (no_json resp ∨
       (∃ v, Response.json resp = Some v ∧ is_mapping v = false) →
     error_code e = JNull ∧ message e = JNull ∧ details e = None).
Proof.
  intros Hs Hok. rewrite (request_result _ _ _ _ _ _ _ _ Hs).
  unfold MaxBotAPI.response_outcome. rewrite Hok.
  change (negb false) with true. cbv iota.
  destruct (MaxBotAPI.response_data resp) as [| | | | | |d] eqn:Hd;
    eexists; (split; [reflexivity|]); (split; [reflexivity|]);
    cbn [error_code message details]; split; try done.
  all: try (intros m Hct Hj; unfold MaxBotAPI.response_data in Hd;
            cbn zeta in Hd; rewrite Hct, Hj in Hd; by simplify_eq).
  intros [Hn | (v & Hv & Hm)].
  - by rewrite (no_json_data _ Hn) in Hd.
  - unfold MaxBotAPI.response_data in Hd; cbn zeta in Hd. rewrite Hv in Hd.
    case_match; [|done]. subst v. done.
Qed.

Lemma error_normalization_witness :
  ∃ e,
    (MaxBotAPI._request (bot_with chat_not_found) "GET" "/chats/1"
       None None None []).1 = Raise (APIError e) ∧
    status_code e = 404%Z ∧
    error_code e = JStr "chat_not_found" ∧
    message e = JStr "no such chat" ∧
    details e = Some chat_not_found_body.
Proof.
  destruct (error_normalization (bot_with chat_not_found) "GET" "/chats/1"
              None None None [] chat_not_found eq_refl eq_refl)
    as (e & He & Hs & Hm & _).
  exists e. split; [exact He|]. split; [exact Hs|].
  exact (Hm chat_not_found_body eq_refl eq_refl).
Defined.

(** ** A JSON body that is null *)

(** C10: on a 2xx response whose content type names JSON, a body that parses
    to null and a body that does not parse leave the same [data], and the
    call returns the text of the response in both cases; a body that parses
    to another value [v] makes the call return [v]. *)
Theorem null_body_is_text self method path params json_body timeout log resp :
  MaxBotAPI._session self
    (MaxBotAPI.request_args self method path params json_body timeout) = Ok resp →
  (200 ≤ Response.status_code resp < 300)%Z →
  contains "application/json"
    (default EmptyString (Response.content_type resp)) = true →
  let r := (MaxBotAPI._request self method path params json_body timeout log).1 in
  (Response.json resp = Some JNull →
   MaxBotAPI.response_data resp = JNull ∧ r = Ok (JStr (Response.text resp))) ∧
  (Response.json resp = None →
   MaxBotAPI.response_data resp = JNull ∧ r = Ok (JStr (Response.text resp))) ∧
  (∀ v, Response.json resp = Some v → v ≠ JNull → r = Ok v).
Proof.
  intros Hs Hst Hct; cbn zeta. rewrite (request_result _ _ _ _ _ _ _ _ Hs).
  assert (Hok : Response.ok resp = true).
  { apply ok_not_error_status. unfold error_status. lia. }
  unfold MaxBotAPI.response_outcome, MaxBotAPI.response_data; cbn zeta.
  rewrite Hok, Hct. change (negb true) with false. cbv iota.
  split; [|split].
  - by intros ->.
  - by intros ->.
  - intros v -> Hv. by destruct v.
Qed.

Lemma null_body_is_text_witness :
  (MaxBotAPI._request (bot_with null_body) "GET" "/me" None None None []).1 =
    Ok (JStr "null") ∧
  (MaxBotAPI._request (bot_with broken_body) "GET" "/me" None None None []).1 =
    Ok (JStr "<html>") ∧
  (MaxBotAPI._request (bot_with false_body) "GET" "/me" None None None []).1 =
    Ok (JBool false).
Proof.
  split; [|split].
  - destruct (null_body_is_text (bot_with null_body) "GET" "/me" None None None []
                null_body eq_refl) as (H & _ & _);
      [cbn; lia | reflexivity |].
    exact (proj2 (H eq_refl)).
  - destruct (null_body_is_text (bot_with broken_body) "GET" "/me" None None None []
                broken_body eq_refl) as (_ & H & _);
      [cbn; lia | reflexivity |].
    exact (proj2 (H eq_refl)).
  - destruct (null_body_is_text (bot_with false_body) "GET" "/me" None None None []
                false_body eq_refl) as (_ & _ & H);
      [cbn; lia | reflexivity |].
    apply (H (JBool false) eq_refl). discriminate.
Defined.

(** ** Sending a message *)

Lemma request_log self method path params json_body timeout log :
  (MaxBotAPI._request self method path params json_body timeout log).2 =
  (log ++ [MaxBotAPI.request_args self method path params json_body timeout])%list.
Proof. unfold MaxBotAPI._request. by destruct (MaxBotAPI._session self _). Qed.

Lemma send_message_log self chat_id user_id text attachments
    disable_link_preview extra as_models log :
  ¬ (chat_id = None ∧ user_id = None) →
  ∃ params body,
    (MaxBotAPI.send_message self chat_id user_id text attachments
       disable_link_preview extra as_models log).2 =
    (log ++ [MaxBotAPI.request_args self "POST" "/messages" (Some params)
               (Some (JDict body)) None])%list.
Proof.
  intros Hnone. unfold MaxBotAPI.send_message.
  assert (∀ (params body : dict),
    (let '(r, log0) :=
       MaxBotAPI._request self "POST" "/messages" (Some params)
         (Some (JDict body)) None log in
     match r with
     | Ok data =>
         let raw := (Ok (Raw data), log0) in
         match data with
         | JDict d =>
             if MaxBotAPI._should_use_models self as_models then
               let msg := default JNull (d !! "message") in
               if is_mapping msg
               then (m ← Message.from_dict msg; Ok (AsMessage m), log0)
               else raw
             else raw
         | _ => raw
         end
     | Raise e => (Raise e, log0)
     | Unmodelled => (Unmodelled, log0)
     end).2 =
    (log ++ [MaxBotAPI.request_args self "POST" "/messages" (Some params)
               (Some (JDict body)) None])%list) as Hlog.
  { intros params body. rewrite <- request_log.
    destruct (MaxBotAPI._request _ _ _ _ _ _ _) as [r log0].
    destruct r as [data| |]; [|done..]. cbn zeta.
    destruct data; try done. repeat case_match; done. }
  destruct chat_id, user_id; try (exfalso; by apply Hnone);
    eexists _, _; apply Hlog.
Qed.

(** C9: [send_message] raises ValueError without handing any request to the
    transport when both [chat_id] and [user_id] are [None], and only then:
    with one of them given, exactly one request, a POST to [/messages], goes
    to the transport. *)
Theorem send_message_requires_target self chat_id user_id text attachments
    disable_link_preview extra as_models log :
  let out :=
    MaxBotAPI.send_message self chat_id user_id text attachments
      disable_link_preview extra as_models log in
  (chat_id = None ∧ user_id = None → out = (Raise ValueError, log)) ∧
  (¬ (chat_id = None ∧ user_id = None) →
   ∃ req, out.2 = (log ++ [req])%list ∧
          HttpRequest.method req = "POST" ∧
          HttpRequest.url req = MaxBotAPI._build_url self "/messages") ∧
  (out.2 = log ↔ chat_id = None ∧ user_id = None).
Proof.
  cbn zeta. split; [|split].
  - by intros [-> ->].
  - intros H.
    destruct (send_message_log self chat_id user_id text attachments
                disable_link_preview extra as_models log H)
      as (params & body & Hlog).
    eexists. split; [exact Hlog|]. by split.
  - split.
    + intros Hout. destruct (decide (chat_id = None ∧ user_id = None)) as [|H];
        [done|exfalso].
      destruct (send_message_log self chat_id user_id text attachments
                  disable_link_preview extra as_models log H)
        as (params & body & Hlog).
      rewrite Hout in Hlog. apply (f_equal length) in Hlog.
      rewrite length_app in Hlog. cbn in Hlog. lia.
    + by intros [-> ->].
Qed.

(** The theorem of C9 at a call without a target and at a call with a chat. *)
Lemma send_message_requires_target_witness :
  MaxBotAPI.send_message bot None None (Some "hello") None None None None [] =
    (Raise ValueError, []) ∧
  ∃ req,
    (MaxBotAPI.send_message bot (Some 7%Z) None (Some "hello") None None None
       None []).2 = [req] ∧
    HttpRequest.method req = "POST" ∧
    HttpRequest.url req = "https://platform-api.max.ru/messages".
Proof.
  split.
  - apply (send_message_requires_target bot None None (Some "hello")
             None None None None []).
    split; reflexivity.
  - apply (send_message_requires_target bot (Some 7%Z) None (Some "hello")
             None None None None []).
    intros [H _]. discriminate H.
Defined.

(** * Further properties of models.py *)

(** ** Keys that a decoder does not know *)

Ltac split_not_elem H :=
  repeat (apply not_elem_of_cons in H as [? H]).

Ltac ignore_key :=
  let H := fresh "H" in
  intros ? ? ? H; cbn [app] in H; split_not_elem H;
  unfold_decoders;
  unfold MessageBody.from_dict, NewMessageBody.from_dict,
    LinkedMessage.from_dict, Message.from_dict, Chat.from_dict,
    subscript, get, get_default;
  by rewrite !lookup_insert_ne by done.

(** X1: every decoder but that of Update reads the keys of its entity and
    no other: an entry under any other key, such as a field added to the
    platform later, changes neither the decoded value nor the exception. *)
Theorem decoders_ignore_unknown_keys :
  ignores_keys_outside User_fields User.from_dict ∧
  ignores_keys_outside UserWithPhoto_fields UserWithPhoto.from_dict ∧
  ignores_keys_outside ChatMember_fields ChatMember.from_dict ∧
  ignores_keys_outside Recipient_fields Recipient.from_dict ∧
  ignores_keys_outside Attachment_fields Attachment.from_dict ∧
  ignores_keys_outside Attachment_fields LocationAttachment.from_dict ∧
  ignores_keys_outside MessageStat_fields MessageStat.from_dict ∧
  ignores_keys_outside MessageBody_fields MessageBody.from_dict ∧
  ignores_keys_outside NewMessageBody_fields NewMessageBody.from_dict ∧
  ignores_keys_outside LinkedMessage_fields LinkedMessage.from_dict ∧
  ignores_keys_outside Message_fields Message.from_dict ∧
  ignores_keys_outside Chat_fields Chat.from_dict ∧
  ignores_keys_outside ChatAdmin_fields ChatAdmin.from_dict.
Proof.
  unfold ignores_keys_outside, User_fields, UserWithPhoto_fields,
    ChatMember_fields, Recipient_fields, Attachment_fields,
    MessageStat_fields, MessageBody_fields, NewMessageBody_fields,
    LinkedMessage_fields, Message_fields, Chat_fields, ChatAdmin_fields,
    User_fields.
  repeat split; ignore_key.
Qed.

Lemma decoders_ignore_unknown_keys_witness :
  Message.from_dict
    (JDict (<["reactions" := JList [JStr "like"]]> message_without_timestamp)) =
  Message.from_dict (JDict message_without_timestamp) ∧
  User.from_dict (JDict (<["phone" := JStr "000"]> user_of_wrong_shape)) =
  User.from_dict (JDict user_of_wrong_shape).
Proof.
  destruct decoders_ignore_unknown_keys
    as (HU & _ & _ & _ & _ & _ & _ & _ & _ & _ & HM & _).
  split.
  - apply HM. unfold Message_fields. rewrite !not_elem_of_cons.
    repeat split; try discriminate. apply not_elem_of_nil.
  - apply HU. unfold User_fields. rewrite !not_elem_of_cons.
    repeat split; try discriminate. apply not_elem_of_nil.
Defined.

(** ** What a decoded value always satisfies *)

(** In [H : r ≫= f = Ok x], the outcome [r] is a value. *)
Ltac bind_step H :=
  match type of H with
  | mbind _ ?r = Ok _ =>
      let E := fresh "E" in
      destruct r eqn:E; cbn [mbind result_bind] in H; [|discriminate H..]
  end.

Ltac bind_ok H :=
  repeat match type of H with
  | mbind _ ?r = Ok _ =>
      let E := fresh "E" in
      destruct r eqn:E; cbn [mbind result_bind] in H; [|discriminate H..]
  end.

(** X2: the payload of a decoded Update has neither an [update_type] nor a
    [timestamp] key, so that a decoded Update is one that encoding and
    decoding give back unchanged. *)
Theorem decoded_update_is_stable d u :
  Update.from_dict d = Ok u →
  update_disjoint u ∧ Update.from_dict (JDict (Update.to_dict u)) = Ok u.
Proof.
  intros H. assert (update_disjoint u) as Hu; [|by auto using Update_roundtrip].
  unfold Update.from_dict in H. bind_ok H.
  destruct d as [| | | | | |m]; try discriminate H. injection H as <-.
  intros k Hk. cbn [Update.payload]. apply map_lookup_filter_None.
  right. intros x _ Hn. by apply Hn.
Qed.

Lemma decoded_update_is_stable_witness :
  ∃ u, Update.from_dict (JDict unknown_event) = Ok u ∧
       update_disjoint u ∧
       Update.from_dict (JDict (Update.to_dict u)) = Ok u.
Proof.
  eexists. split; [reflexivity|].
  apply (decoded_update_is_stable (JDict unknown_event)). reflexivity.
Defined.

(** X3: encoding and decoding a LocationAttachment keeps its type and its
    coordinates and stores the payload with the coordinates written into
    it; the value so obtained comes back unchanged from a second trip. *)
Theorem location_trip_normalises e :
  LocationAttachment.from_dict (JDict (LocationAttachment.to_dict e)) =
    Ok (location_normal_form e) ∧
  LocationAttachment.from_dict
    (JDict (LocationAttachment.to_dict (location_normal_form e))) =
    Ok (location_normal_form e).
Proof.
  assert (H1 : LocationAttachment.from_dict
                 (JDict (LocationAttachment.to_dict e)) =
               Ok (location_normal_form e)).
  { destruct e as [ty p lat lon]. unfold LocationAttachment.to_dict.
    cbn [LocationAttachment.payload LocationAttachment.type
         LocationAttachment.latitude LocationAttachment.longitude].
    rewrite LocationAttachment_decode_fields by apply insert_non_empty.
    unfold location_normal_form; cbn [LocationAttachment.payload
      LocationAttachment.type LocationAttachment.latitude
      LocationAttachment.longitude].
    by rewrite lookup_insert_ne, !lookup_insert_eq. }
  split; [exact H1|]. apply LocationAttachment_roundtrip.
  eexists. split; [reflexivity|]. cbn.
  by rewrite lookup_insert_ne, !lookup_insert_eq.
Qed.

(** X4: a sequence of entities that the mapping lacks, or holds as [None]
    or empty, is decoded as the empty list, never as [None]: the
    attachments of a MessageBody and of a NewMessageBody and the permissions
    of a ChatAdmin. *)
Theorem absent_sequence_is_empty (m : dict) :
  (∀ b, absent_or_falsy m "attachments" →
        MessageBody.from_dict (JDict m) = Ok b →
        MessageBody.attachments b = []) ∧
  (∀ b, absent_or_falsy m "attachments" →
        NewMessageBody.from_dict (JDict m) = Ok b →
        NewMessageBody.attachments b = []) ∧
  (∀ a, absent_or_falsy m "permissions" →
        ChatAdmin.from_dict (JDict m) = Ok a →
        ChatAdmin.permissions a = []).
Proof.
  unfold absent_or_falsy. split; [|split].
  - intros b Hf H. unfold MessageBody.from_dict, get, get_default in H.
    cbn [mbind result_bind] in H. unfold py_or in H. rewrite Hf in H.
    cbn [decode_attachments mapM mret result_ret mbind result_bind] in H.
    bind_ok H. by injection H as <-.
  - intros b Hf H. unfold NewMessageBody.from_dict, get, get_default in H.
    cbn [mbind result_bind] in H. unfold py_or in H. rewrite Hf in H.
    by injection H as <-.
  - intros a Hf H. unfold ChatAdmin.from_dict, subscript, get, get_default in H.
    destruct (m !! "user_id"); [|discriminate H].
    cbn [mbind result_bind] in H. unfold py_or in H. rewrite Hf in H.
    by injection H as <-.
Qed.

Lemma absent_sequence_is_empty_witness :
  MessageBody.from_dict
    (JDict (mkdict [("mid", JStr "mid.1"); ("seq", JInt 1);
                    ("attachments", JNull)])) =
    Ok (MessageBody.mk (JStr "mid.1") (JInt 1) JNull [] JNull) ∧
  MessageBody.attachments (MessageBody.mk (JStr "mid.1") (JInt 1) JNull [] JNull) = [].
Proof.
  split; [reflexivity|].
  apply (absent_sequence_is_empty
           (mkdict [("mid", JStr "mid.1"); ("seq", JInt 1);
                    ("attachments", JNull)])); reflexivity.
Defined.

(** X5: an optional collection is [None] when the mapping lacks it or holds
    [None], and the collection itself otherwise, the empty one included:
    the participants of a Chat and the permissions of a ChatMember. *)
Theorem absent_collection_is_none (m : dict) :
  (∀ c, absent_or_null m "participants" →
        Chat.from_dict (JDict m) = Ok c → Chat.participants c = None) ∧
  (∀ c p, m !! "participants" = Some (JDict p) →
          Chat.from_dict (JDict m) = Ok c → Chat.participants c = Some p) ∧
  (∀ c, absent_or_null m "permissions" →
        ChatMember.from_dict (JDict m) = Ok c →
        ChatMember.permissions c = None) ∧
  (∀ c l, m !! "permissions" = Some (JList l) →
          ChatMember.from_dict (JDict m) = Ok c →
          ChatMember.permissions c = Some l).
Proof.
  unfold absent_or_null. split; [|split; [|split]].
  - intros c Hn H. unfold Chat.from_dict, get, get_default in H.
    cbn [mbind result_bind] in H. rewrite Hn in H.
    cbn [Chat.copy_participants mbind result_bind] in H.
    bind_ok H. by injection H as <-.
  - intros c p Hp H. unfold Chat.from_dict, get, get_default in H.
    cbn [mbind result_bind] in H. rewrite Hp in H.
    cbn [default from_option id Chat.copy_participants py_dict
         mbind result_bind] in H.
    bind_ok H. by injection H as <-.
  - intros c Hn H. unfold ChatMember.from_dict, get, get_default in H.
    do 5 bind_step H. rewrite Hn in H. by injection H as <-.
  - intros c l Hl H. unfold ChatMember.from_dict, get, get_default in H.
    do 5 bind_step H. unfold subscript in H. rewrite Hl in H.
    by injection H as <-.
Qed.

Lemma absent_collection_is_none_witness :
  ∃ c, Chat.from_dict (JDict chat_without_participants) = Ok c ∧
       Chat.participants c = None.
Proof.
  eexists. split; [reflexivity|].
  apply (absent_collection_is_none chat_without_participants); reflexivity.
Defined.

(** X6: NewMessageBody requires no key.  A mapping without attachments is
    always decoded; [notify] is [True] when the mapping has no [notify]
    entry and the entry otherwise, [None] included; the other fields are
    the entries, [None] when absent. *)
Theorem new_message_body_defaults (m : dict) :
  absent_or_falsy m "attachments" →
  NewMessageBody.from_dict (JDict m) =
  Ok (NewMessageBody.mk (default JNull (m !! "text")) []
        (default JNull (m !! "link"))
        (default (JBool true) (m !! "notify"))
        (default JNull (m !! "format"))).
Proof.
  unfold absent_or_falsy. intros Hf.
  unfold NewMessageBody.from_dict, get, get_default.
  cbn [mbind result_bind]. unfold py_or. by rewrite Hf.
Qed.

Lemma new_message_body_defaults_witness :
  NewMessageBody.from_dict (JDict silent_about_notify) =
  Ok (NewMessageBody.mk (JStr "hello") [] JNull (JBool true) JNull).
Proof.
  apply (new_message_body_defaults silent_about_notify). reflexivity.
Defined.

(** X7: decoding the encoding gives the value back for every NewMessageBody
    none of whose attachments is a LocationAttachment, and for every
    MessageStat. *)
Theorem roundtrip_new_message_body :
  (∀ e, forallb is_base (NewMessageBody.attachments e) = true →
        NewMessageBody.from_dict (JDict (NewMessageBody.to_dict e)) = Ok e) ∧
  (∀ e, MessageStat.from_dict (JDict (MessageStat.to_dict e)) = Ok e).
Proof.
  split; [|by intros []].
  intros [text atts link notify format] H; cbn in H.
  unfold NewMessageBody.to_dict; cbn [NewMessageBody.text
    NewMessageBody.attachments NewMessageBody.link NewMessageBody.notify
    NewMessageBody.format].
  transitivity
    (attachments ← decode_attachments (py_or (encode_attachments atts) (JList []));
     Ok (NewMessageBody.mk text attachments link notify format)); [done|].
  by rewrite decode_encode_attachments.
Qed.

Lemma roundtrip_new_message_body_witness :
  NewMessageBody.from_dict
    (JDict (NewMessageBody.to_dict
              (NewMessageBody.mk (JStr "hello")
                 [Base (Attachment.mk (JStr "hologram") JNull)]
                 JNull (JBool false) JNull))) =
  Ok (NewMessageBody.mk (JStr "hello")
        [Base (Attachment.mk (JStr "hologram") JNull)]
        JNull (JBool false) JNull).
Proof.
  apply (proj1 roundtrip_new_message_body). reflexivity.
Defined.

(** X8: encoding a decoded Attachment keeps the [type] and a payload that
    is not [None], and nothing else: a payload that is [None] and every
    other entry of the mapping are gone. *)
Theorem attachment_reencoded (m : dict) a :
  Attachment.from_dict (JDict m) = Ok a →
  Attachment.to_dict a !! "type" = m !! "type" ∧
  Attachment.to_dict a !! "payload" =
    match m !! "payload" with
    | Some JNull | None => None
    | Some p => Some p
    end ∧
  ∀ k, k ≠ "type" → k ≠ "payload" → Attachment.to_dict a !! k = None.
Proof.
  unfold Attachment.from_dict, subscript, get, get_default.
  destruct (m !! "type") as [ty|]; [|done]. cbn [mbind result_bind].
  intros [= <-]. unfold Attachment.to_dict; cbn [Attachment.type Attachment.payload].
  destruct (m !! "payload") as [[]|]; cbn [default from_option id];
    (split; [done|]); (split; [done|]); intros k H1 H2;
    unfold mkdict; cbn [fold_left fst snd];
    by rewrite ?lookup_insert_ne, lookup_empty.
Qed.

Lemma attachment_reencoded_witness :
  Attachment.to_dict (Attachment.mk (JStr "image") JNull) !! "type" =
    Some (JStr "image") ∧
  Attachment.to_dict (Attachment.mk (JStr "image") JNull) !! "payload" = None ∧
  ∀ k, k ≠ "type" → k ≠ "payload" →
       Attachment.to_dict (Attachment.mk (JStr "image") JNull) !! k = None.
Proof.
  exact (attachment_reencoded
           (mkdict [("type", JStr "image"); ("payload", JNull);
                    ("width", JInt 10)])
           (Attachment.mk (JStr "image") JNull) eq_refl).
Defined.

Lemma opt_from_dict_not_mapping {A} (f : json → result A) raw :
  is_mapping raw = false → opt_from_dict f raw = Ok None.
Proof. intros H. unfold opt_from_dict. by rewrite H. Qed.

Lemma Message_without_entry (m : dict) k :
  k ∈ ["sender"; "link"; "stat"] → no_mapping_at m k →
  Message.from_dict (JDict m) = Message.from_dict (JDict (delete k m)).
Proof.
  unfold no_mapping_at. intros Hk Hn.
  unfold Message.from_dict, subscript, get, get_default.
  cbn [mbind result_bind].
  repeat (apply elem_of_cons in Hk as [->|Hk]); [..|by apply elem_of_nil in Hk];
    rewrite lookup_delete_eq, !lookup_delete_ne by done;
    by rewrite (opt_from_dict_not_mapping _ _ Hn).
Qed.

Lemma LinkedMessage_without_sender (m : dict) :
  no_mapping_at m "sender" →
  LinkedMessage.from_dict (JDict m) =
  LinkedMessage.from_dict (JDict (delete "sender" m)).
Proof.
  unfold no_mapping_at. intros Hn.
  unfold LinkedMessage.from_dict, subscript, get, get_default.
  cbn [mbind result_bind].
  rewrite lookup_delete_eq, !lookup_delete_ne by done.
  by rewrite (opt_from_dict_not_mapping _ _ Hn).
Qed.

Lemma Chat_without_entry (m : dict) k :
  k ∈ ["dialog_with_user"; "pinned_message"] → no_mapping_at m k →
  Chat.from_dict (JDict m) = Chat.from_dict (JDict (delete k m)).
Proof.
  unfold no_mapping_at. intros Hk Hn.
  unfold Chat.from_dict, subscript, get, get_default.
  cbn [mbind result_bind].
  repeat (apply elem_of_cons in Hk as [->|Hk]); [..|by apply elem_of_nil in Hk];
    rewrite lookup_delete_eq, !lookup_delete_ne by done;
    by rewrite (opt_from_dict_not_mapping _ _ Hn).
Qed.

(** X9: an optional nested entity that the mapping holds as something else
    than a mapping (a string, a list, a number) is decoded as [None]
    without any error: the sender, the link and the stat of a Message, the
    sender of a LinkedMessage, the dialog partner and the pinned message of
    a Chat.  Such an entry is read as if the mapping did not have it; a
    mapping whose optional entities are all of this kind decodes as soon as
    its other parts do; and the field of a decoded entity is [None]. *)
Theorem nested_non_mapping_is_none (m : dict) :
  (∀ k, k ∈ ["sender"; "link"; "stat"] → no_mapping_at m k →
        Message.from_dict (JDict m) =
        Message.from_dict (JDict (delete k m))) ∧
  (no_mapping_at m "sender" →
   LinkedMessage.from_dict (JDict m) =
   LinkedMessage.from_dict (JDict (delete "sender" m))) ∧
  (∀ k, k ∈ ["dialog_with_user"; "pinned_message"] → no_mapping_at m k →
        Chat.from_dict (JDict m) = Chat.from_dict (JDict (delete k m))) ∧
  (∀ rraw braw v r b,
     no_mapping_at m "sender" → no_mapping_at m "link" →
     no_mapping_at m "stat" →
     m !! "recipient" = Some rraw → m !! "body" = Some braw →
     m !! "timestamp" = Some v →
     Recipient.from_dict rraw = Ok r → MessageBody.from_dict braw = Ok b →
     Message.from_dict (JDict m) =
     Ok (Message.mk r b v None None None (default JNull (m !! "url")))) ∧
  (∀ v1 v2 raw b,
     no_mapping_at m "sender" →
     m !! "type" = Some v1 → m !! "chat_id" = Some v2 →
     m !! "message" = Some raw → MessageBody.from_dict raw = Ok b →
     LinkedMessage.from_dict (JDict m) = Ok (LinkedMessage.mk v1 None v2 b)) ∧
  (∀ v1 v2 v3 v4 v5 v6 ps,
     no_mapping_at m "dialog_with_user" → no_mapping_at m "pinned_message" →
     m !! "chat_id" = Some v1 → m !! "type" = Some v2 →
     m !! "status" = Some v3 → m !! "last_event_time" = Some v4 →
     m !! "participants_count" = Some v5 → m !! "is_public" = Some v6 →
     Chat.copy_participants (default JNull (m !! "participants")) = Ok ps →
     Chat.from_dict (JDict m) =
     Ok (Chat.mk v1 v2 v3 (default JNull (m !! "title")) v4 v5
           (default JNull (m !! "icon")) v6
           (default JNull (m !! "description"))
           (default JNull (m !! "owner_id")) ps
           (default JNull (m !! "link")) None
           (default JNull (m !! "chat_message_id")) None)) ∧
  (∀ x, Message.from_dict (JDict m) = Ok x →
        (no_mapping_at m "sender" → Message.sender x = None) ∧
        (no_mapping_at m "link" → Message.link x = None) ∧
        (no_mapping_at m "stat" → Message.stat x = None)) ∧
  (∀ x, LinkedMessage.from_dict (JDict m) = Ok x →
        no_mapping_at m "sender" → LinkedMessage.sender x = None) ∧
  (∀ x, Chat.from_dict (JDict m) = Ok x →
        (no_mapping_at m "dialog_with_user" → Chat.dialog_with_user x = None) ∧
        (no_mapping_at m "pinned_message" → Chat.pinned_message x = None)).
Proof.
  split; [apply Message_without_entry|].
  split; [apply LinkedMessage_without_sender|].
  split; [apply Chat_without_entry|].
  split.
  { intros rraw braw v r b Hs Hl Hst H1 H2 H3 Hr Hb.
    apply (Message_unchecked m rraw braw v None None None r b);
      try done; by apply opt_from_dict_not_mapping. }
  split.
  { intros v1 v2 raw b Hs H1 H2 H3 Hb.
    apply (LinkedMessage_unchecked m v1 v2 raw None b);
      try done; by apply opt_from_dict_not_mapping. }
  split.
  { intros v1 v2 v3 v4 v5 v6 ps Hd Hpm H1 H2 H3 H4 H5 H6 Hps.
    apply (Chat_unchecked m v1 v2 v3 v4 v5 v6 ps None None);
      try done; by apply opt_from_dict_not_mapping. }
  unfold no_mapping_at. split; [|split].
  - intros x H. unfold Message.from_dict, get, get_default in H.
    cbn [mbind result_bind] in H. bind_ok H. injection H as <-.
    cbn [Message.sender Message.link Message.stat].
    repeat split; intros Hn;
      match goal with
      | E : opt_from_dict _ _ = Ok ?o |- ?o = None =>
          unfold opt_from_dict in E; rewrite Hn in E; by injection E as <-
      end.
  - intros x H Hn. unfold LinkedMessage.from_dict, get, get_default in H.
    cbn [mbind result_bind] in H. bind_ok H. injection H as <-.
    cbn [LinkedMessage.sender].
    match goal with
    | E : opt_from_dict _ _ = Ok ?o |- ?o = None =>
        unfold opt_from_dict in E; rewrite Hn in E; by injection E as <-
    end.
  - intros x H. unfold Chat.from_dict, get, get_default in H.
    cbn [mbind result_bind] in H. bind_ok H. injection H as <-.
    cbn [Chat.dialog_with_user Chat.pinned_message].
    repeat split; intros Hn;
      match goal with
      | E : opt_from_dict _ _ = Ok ?o |- ?o = None =>
          unfold opt_from_dict in E; rewrite Hn in E; by injection E as <-
      end.
Qed.

(** The theorem of X9 at a message whose sender is a string. *)
Lemma nested_non_mapping_is_none_witness :
  Message.from_dict (JDict message_with_text_sender) =
  Ok (Message.mk (Recipient.mk JNull (JStr "chat") JNull)
        (MessageBody.mk (JStr "mid.1") (JInt 1) JNull [] JNull)
        (JInt 1) None None None JNull).
Proof.
  destruct (nested_non_mapping_is_none message_with_text_sender)
    as (_ & _ & _ & H & _).
  apply (H (JDict (mkdict [("chat_type", JStr "chat")]))
           (JDict (mkdict [("mid", JStr "mid.1"); ("seq", JInt 1)]))
           (JInt 1)); reflexivity.
Defined.

(** ** Participants given as pairs *)

Lemma dict_of_pairs_entries pairs acc :
  dict_of_pairs ((λ p : string * json, JList [JStr p.1; p.2]) <$> pairs)
    (Ok acc) =
  Ok (fold_left (λ m p, <[p.1 := p.2]> m) pairs acc).
Proof.
  revert acc. induction pairs as [|[k v] pairs IH]; intros acc; [done|].
  rewrite fmap_cons. cbn [dict_of_pairs as_pair fst snd mbind result_bind].
  apply IH.
Qed.

(** X29: [dict(participants)] in [Chat.from_dict].  A list of pairs
    [[k, v]] whose keys are strings gives the mapping of these pairs, a
    later pair replacing an earlier one of the same key, and that mapping
    is what the decoded Chat holds.  A list whose first element cannot be
    iterated (a number, a boolean, [None]) makes [Chat.from_dict] raise a
    TypeError, whatever else the mapping holds. *)
Theorem participants_from_pairs (m : dict) :
  (∀ pairs, py_dict (pair_list pairs) = Ok (mkdict pairs)) ∧
  (∀ pairs x, m !! "participants" = Some (pair_list pairs) →
              Chat.from_dict (JDict m) = Ok x →
              Chat.participants x = Some (mkdict pairs)) ∧
  (∀ pairs v1 v2 v3 v4 v5 v6,
     m !! "participants" = Some (pair_list pairs) →
     no_mapping_at m "dialog_with_user" → no_mapping_at m "pinned_message" →
     m !! "chat_id" = Some v1 → m !! "type" = Some v2 →
     m !! "status" = Some v3 → m !! "last_event_time" = Some v4 →
     m !! "participants_count" = Some v5 → m !! "is_public" = Some v6 →
     ∃ x, Chat.from_dict (JDict m) = Ok x ∧
          Chat.participants x = Some (mkdict pairs)) ∧
  (∀ v l, m !! "participants" = Some (JList (v :: l)) →
          not_iterable v = true →
          Chat.from_dict (JDict m) = Raise TypeError).
Proof.
  assert (∀ pairs, py_dict (pair_list pairs) = Ok (mkdict pairs)) as Hpairs.
  { intros pairs. apply dict_of_pairs_entries. }
  assert (∀ pairs, Chat.copy_participants (pair_list pairs) =
                   Ok (Some (mkdict pairs))) as Hcopy.
  { intros pairs. unfold Chat.copy_participants, pair_list.
    fold (pair_list pairs). by rewrite Hpairs. }
  split; [exact Hpairs|]. split; [|split].
  - intros pairs x Hp H. unfold Chat.from_dict, get, get_default in H.
    cbn [mbind result_bind] in H. rewrite Hp in H.
    cbn [default from_option id] in H. rewrite Hcopy in H.
    cbn [raised mbind result_bind] in H. bind_ok H. by injection H as <-.
  - intros pairs v1 v2 v3 v4 v5 v6 Hp Hd Hpm H1 H2 H3 H4 H5 H6.
    eexists. split.
    + apply (Chat_unchecked m v1 v2 v3 v4 v5 v6 (Some (mkdict pairs))
               None None); try done.
      * rewrite Hp. apply Hcopy.
      * by apply opt_from_dict_not_mapping.
      * by apply opt_from_dict_not_mapping.
    + reflexivity.
  - intros v l Hp Hv. unfold Chat.from_dict, get, get_default.
    cbn [mbind result_bind]. rewrite Hp. by destruct v.
Qed.

(** The theorem of X29 at a chat with three pairs, two of them of the same
    key. *)
Lemma participants_from_pairs_witness :
  ∃ x, Chat.from_dict (JDict chat_with_pairs) = Ok x ∧
       Chat.participants x =
         Some (mkdict [("ann", JInt 9); ("bob", JInt 8)]).
Proof.
  destruct (participants_from_pairs chat_with_pairs) as (_ & _ & H & _).
  apply (H [("ann", JInt 7); ("bob", JInt 8); ("ann", JInt 9)]
           (JInt 7) (JStr "chat") (JStr "active") (JInt 1) (JInt 2)
           (JBool false)); reflexivity.
Defined.

(** * Further properties of api.py *)

Lemma and_then_log {A B} (m : api A) (f : A → result B) log :
  (and_then m f log).2 = (m log).2.
Proof. unfold and_then. by destruct (m log). Qed.

Lemma and_then_result {A B} (m : api A) (f : A → result B) log :
  (and_then m f log).1 = (m log).1 ≫= f.
Proof. unfold and_then. by destruct (m log). Qed.

Lemma send_message_request self chat_id user_id text attachments
    disable_link_preview extra as_models log :
  ¬ (chat_id = None ∧ user_id = None) →
  (MaxBotAPI.send_message self chat_id user_id text attachments
     disable_link_preview extra as_models log).2 =
  (log ++ [MaxBotAPI.request_args self "POST" "/messages"
             (Some (send_params chat_id user_id disable_link_preview))
             (Some (JDict (MaxBotAPI.message_body text attachments extra)))
             None])%list.
Proof.
  intros Hnone. rewrite <- request_log.
  unfold MaxBotAPI.send_message, send_params, MaxBotAPI.message_body,
    MaxBotAPI.set_if.
  destruct chat_id, user_id; try (exfalso; by apply Hnone);
    match goal with
    | |- context [MaxBotAPI._request ?s ?m ?p ?q ?b ?t ?l] =>
        destruct (MaxBotAPI._request s m p q b t l) as [r log0]
    end;
    (destruct r as [data| |]; [|done..]); cbn zeta;
    destruct data; try done; repeat case_match; done.
Qed.

Lemma token_not_overridden self (params : option dict) :
  caller_value params "access_token" = None →
  MaxBotAPI.request_query self params !! "access_token" =
  Some (JStr (MaxBotAPI._access_token self)).
Proof. intros H. by rewrite request_query_lookup, H, decide_True. Qed.

(** ** The token on every request *)

(** X10: every method of the client that reaches the platform hands exactly
    one request to the session, and that request carries the token of the
    client under [access_token]: no method passes query parameters that
    could replace it.  For [send_message] this holds when a target is
    given. *)
Theorem every_call_sends_token (self : MaxBotAPI.t) :
  sends_one_with_token self (MaxBotAPI.get_me self) ∧
  (∀ chat_id message_ids from_timestamp to_timestamp count as_models,
     sends_one_with_token self
       (MaxBotAPI.get_messages self chat_id message_ids from_timestamp
          to_timestamp count as_models)) ∧
  (∀ message_id as_models,
     sends_one_with_token self (MaxBotAPI.get_message self message_id as_models)) ∧
  (∀ chat_id user_id text attachments disable_link_preview extra as_models,
     ¬ (chat_id = None ∧ user_id = None) →
     sends_one_with_token self
       (MaxBotAPI.send_message self chat_id user_id text attachments
          disable_link_preview extra as_models)) ∧
  (∀ message_id text attachments extra,
     sends_one_with_token self
       (MaxBotAPI.edit_message self message_id text attachments extra)) ∧
  (∀ message_id,
     sends_one_with_token self (MaxBotAPI.delete_message self message_id)) ∧
  (∀ limit timeout marker types as_models,
     sends_one_with_token self
       (MaxBotAPI.get_updates self limit timeout marker types as_models)) ∧
  (∀ count marker as_models,
     sends_one_with_token self (MaxBotAPI.get_chats self count marker as_models)) ∧
  (∀ chat_id as_models,
     sends_one_with_token self (MaxBotAPI.get_chat self chat_id as_models)) ∧
  (∀ chat_link as_models,
     sends_one_with_token self
       (MaxBotAPI.get_chat_by_link self chat_link as_models)) ∧
  (∀ chat_id as_models,
     sends_one_with_token self
       (MaxBotAPI.get_pinned_message self chat_id as_models)) ∧
  (∀ chat_id message_id notify,
     sends_one_with_token self
       (MaxBotAPI.pin_message self chat_id message_id notify)) ∧
  (∀ chat_id,
     sends_one_with_token self (MaxBotAPI.unpin_message self chat_id)) ∧
  (∀ chat_id action,
     sends_one_with_token self (MaxBotAPI.send_chat_action self chat_id action)) ∧
  (∀ chat_id user_ids marker count as_models,
     sends_one_with_token self
       (MaxBotAPI.get_chat_members self chat_id user_ids marker count as_models)) ∧
  (∀ chat_id user_ids,
     sends_one_with_token self
       (MaxBotAPI.add_chat_members self chat_id user_ids)) ∧
  (∀ chat_id user_id,
     sends_one_with_token self
       (MaxBotAPI.remove_chat_member self chat_id user_id)) ∧
  (∀ chat_id as_models,
     sends_one_with_token self
       (MaxBotAPI.get_my_membership self chat_id as_models)) ∧
  (∀ chat_id,
     sends_one_with_token self (MaxBotAPI.leave_chat self chat_id)) ∧
  (∀ chat_id as_models,
     sends_one_with_token self
       (MaxBotAPI.get_chat_admins self chat_id as_models)) ∧
  (∀ chat_id admins,
     sends_one_with_token self
       (MaxBotAPI.set_chat_admins self chat_id admins)) ∧
  (∀ chat_id user_id,
     sends_one_with_token self
       (MaxBotAPI.delete_chat_admin self chat_id user_id)) ∧
  sends_one_with_token self (MaxBotAPI.get_subscriptions self) ∧
  (∀ url types,
     sends_one_with_token self (MaxBotAPI.subscribe self url types)) ∧
  (∀ url,
     sends_one_with_token self (MaxBotAPI.unsubscribe self url)).
Proof.
  unfold MaxBotAPI.get_me, MaxBotAPI.get_messages, MaxBotAPI.get_message,
    MaxBotAPI.edit_message, MaxBotAPI.delete_message, MaxBotAPI.get_updates,
    MaxBotAPI.get_chats, MaxBotAPI.get_chat, MaxBotAPI.get_chat_by_link,
    MaxBotAPI.get_pinned_message, MaxBotAPI.pin_message,
    MaxBotAPI.unpin_message, MaxBotAPI.send_chat_action,
    MaxBotAPI.get_chat_members, MaxBotAPI.add_chat_members,
    MaxBotAPI.remove_chat_member, MaxBotAPI.get_my_membership,
    MaxBotAPI.leave_chat, MaxBotAPI.get_chat_admins,
    MaxBotAPI.set_chat_admins, MaxBotAPI.delete_chat_admin,
    MaxBotAPI.get_subscriptions, MaxBotAPI.subscribe, MaxBotAPI.unsubscribe.
  repeat split;
    try (intros ? ? ? ? ? ? ? Hnone log; eexists;
         split; [by apply send_message_request|]);
    try (intros; intros log; eexists;
         split; [rewrite ?and_then_log; apply request_log|]);
    cbn [MaxBotAPI.request_args HttpRequest.params];
    apply token_not_overridden;
    unfold caller_value, send_params, MaxBotAPI.set_if, MaxBotAPI.set_joined;
    cbn [mbind option_bind];
    repeat case_match; reflexivity.
Qed.

Lemma every_call_sends_token_witness :
  ∃ req,
    (MaxBotAPI.send_message bot (Some 7%Z) None (Some "hello") None None None
       None []).2 = [req] ∧
    HttpRequest.params req !! "access_token" = Some (JStr "bot-token").
Proof.
  destruct (every_call_sends_token bot) as (_ & _ & _ & H & _).
  apply (H (Some 7%Z) None (Some "hello") None None None None).
  intros [E _]. discriminate E.
Defined.

(** ** Pages and lists of models *)

Lemma mapM_Forall2 {A} (dec : json → result A) l l' :
  mapM dec l = Ok l' → Forall2 (λ x y, dec x = Ok y) l l'.
Proof.
  revert l'. induction l as [|x l IH]; intros l'.
  - intros [= <-]. constructor.
  - rewrite mapM_cons. destruct (dec x) as [y| |] eqn:Hx; [|done..].
    cbn [mbind result_bind]. destruct (mapM dec l) as [k| |]; [|done..].
    intros [= <-]. constructor; auto.
Qed.

Lemma comprehension_models_of {A} (dec : json → result A) key (d : dict) l :
  comprehension dec (py_or (default JNull (d !! key)) (JList [])) = Ok l →
  models_of dec key d l.
Proof.
  intros H. split.
  - intros raw Hraw. rewrite Hraw in H. cbn [default from_option id] in H.
    apply mapM_Forall2. by destruct raw.
  - unfold absent_or_falsy. intros Hf. unfold py_or in H. rewrite Hf in H.
    by injection H as <-.
Qed.

Lemma decode_page_of {A} (dec : json → result A) key (d : dict) p :
  MaxBotAPI.decode_page dec key (JDict d) = Ok p → page_of dec key d p.
Proof.
  unfold MaxBotAPI.decode_page, get, get_default. cbn [mbind result_bind].
  destruct (comprehension _ _) as [l| |] eqn:Hl; [|done..].
  cbn [mbind result_bind]. intros [= <-]. split; [done|].
  by apply comprehension_models_of.
Qed.

(** A method that returns a value got an answer from the session, and
    built the value from what [_request] made of the answer. *)
Lemma and_then_inv {A} self method path params json_body
    (f : json → result A) log a :
  (and_then (MaxBotAPI._request self method path params json_body None) f log).1
    = Ok a →
  ∃ resp data,
    MaxBotAPI._session self
      (MaxBotAPI.request_args self method path params json_body None) = Ok resp ∧
    MaxBotAPI.response_outcome resp (MaxBotAPI.response_data resp) = Ok data ∧
    f data = Ok a.
Proof.
  rewrite and_then_result. unfold MaxBotAPI._request.
  destruct (MaxBotAPI._session self _) as [resp| |] eqn:Hs; [|done..].
  cbn [fst].
  destruct (MaxBotAPI.response_outcome _ _) as [data| |] eqn:Ho; [|done..].
  cbn [mbind result_bind]. intros Hf. by exists resp, data.
Qed.

Lemma outcome_mapping resp (d : dict) :
  MaxBotAPI.response_outcome resp (MaxBotAPI.response_data resp) = Ok (JDict d) →
  MaxBotAPI.response_data resp = JDict d.
Proof.
  unfold MaxBotAPI.response_outcome. destruct (negb (Response.ok resp)).
  { by destruct (MaxBotAPI.response_data resp). }
  destruct (MaxBotAPI.response_data resp); by intros [= <-].
Qed.

(** The mapping from which a method built the models it returned. *)
Lemma models_inv {A} self method path params
    (use : bool) (build : json → result (returned A)) log a :
  (and_then (MaxBotAPI._request self method path params None None)
     (λ data, if use && is_mapping data
              then build data
              else Ok (Data data)) log).1 = Ok (Models a) →
  ∃ resp d,
    MaxBotAPI._session self
      (MaxBotAPI.request_args self method path params None None) = Ok resp ∧
    MaxBotAPI.response_data resp = JDict d ∧
    build (JDict d) = Ok (Models a).
Proof.
  intros (resp & data & Hs & Ho & Hf)%and_then_inv.
  destruct use; [|done]. cbn [andb] in Hf.
  destruct data as [| | | | | |d]; try done.
  apply outcome_mapping in Ho. by exists resp, d.
Qed.

(** In [H : (x ← r; Ok (Models x)) = Ok (Models a)], the outcome [r] is
    [Ok a]. *)
Lemma models_bind_inv {A} (r : result A) a :
  (x ← r; Ok (Models x)) = Ok (Models a) → r = Ok a.
Proof. destruct r; [|done..]. by intros [= ->]. Qed.

Lemma page_models_inv {A} self method path params (use : bool)
    (dec : json → result A) key log p :
  let call :=
    and_then (MaxBotAPI._request self method path params None None)
      (λ data, if use && is_mapping data
               then p ← MaxBotAPI.decode_page dec key data; Ok (Models p)
               else Ok (Data data)) in
  (call log).1 = Ok (Models p) →
  ∃ resp d, answered_with self call log resp ∧
            MaxBotAPI.response_data resp = JDict d ∧
            page_of dec key d p.
Proof.
  cbn zeta. intros (resp & d & Hs & Hd & Hp)%models_inv.
  exists resp, d. split; [|split; [exact Hd|]].
  - eexists. split; [rewrite and_then_log; apply request_log | exact Hs].
  - by apply decode_page_of, models_bind_inv.
Qed.

(** X11: when a listing method returns a page of models, the platform
    answered a JSON mapping; the marker of the page is the [marker] of the
    mapping, [None] when it has none, and the items are the models of the
    elements of the mapping, one for one and in the same order, none when
    the mapping has no element.  This holds for [get_updates], [get_chats],
    [get_chat_members] and [get_chat_admins]. *)
Theorem listing_returns_page self log :
  (∀ limit timeout marker types as_models p,
     let call := MaxBotAPI.get_updates self limit timeout marker types as_models in
     (call log).1 = Ok (Models p) →
     ∃ resp d, answered_with self call log resp ∧
               MaxBotAPI.response_data resp = JDict d ∧
               page_of Update.from_dict "updates" d p) ∧
  (∀ count marker as_models p,
     let call := MaxBotAPI.get_chats self count marker as_models in
     (call log).1 = Ok (Models p) →
     ∃ resp d, answered_with self call log resp ∧
               MaxBotAPI.response_data resp = JDict d ∧
               page_of Chat.from_dict "chats" d p) ∧
  (∀ chat_id user_ids marker count as_models p,
     let call :=
       MaxBotAPI.get_chat_members self chat_id user_ids marker count as_models in
     (call log).1 = Ok (Models p) →
     ∃ resp d, answered_with self call log resp ∧
               MaxBotAPI.response_data resp = JDict d ∧
               page_of ChatMember.from_dict "members" d p) ∧
  (∀ chat_id as_models p,
     let call := MaxBotAPI.get_chat_admins self chat_id as_models in
     (call log).1 = Ok (Models p) →
     ∃ resp d, answered_with self call log resp ∧
               MaxBotAPI.response_data resp = JDict d ∧
               page_of ChatAdmin.from_dict "admins" d p).
Proof.
  unfold MaxBotAPI.get_updates, MaxBotAPI.get_chats,
    MaxBotAPI.get_chat_members, MaxBotAPI.get_chat_admins.
  repeat split; intros; by apply page_models_inv.
Qed.

Lemma listing_returns_page_witness :
  ∃ p, (MaxBotAPI.get_updates (model_bot_with (json_ok (JDict one_update)))
          100 30 None None None []).1 = Ok (Models p) ∧
       ∃ resp d, MaxBotAPI.response_data resp = JDict d ∧
                 page_of Update.from_dict "updates" d p.
Proof.
  eexists. split; [reflexivity|].
  destruct (listing_returns_page (model_bot_with (json_ok (JDict one_update))) [])
    as (H & _).
  destruct (H 100%Z 30%Z None None None _ eq_refl) as (resp & d & _ & Hd & Hp).
  by exists resp, d.
Defined.

(** X12: when [get_messages] returns models, the platform answered a JSON
    mapping and the models are those of its [messages], one for one and in
    the same order: no message is skipped, and there is no model when the
    mapping has no message. *)
Theorem get_messages_returns_all self chat_id message_ids from_timestamp
    to_timestamp count as_models log l :
  let call :=
    MaxBotAPI.get_messages self chat_id message_ids from_timestamp
      to_timestamp count as_models in
  (call log).1 = Ok (Models l) →
  ∃ resp d, answered_with self call log resp ∧
            MaxBotAPI.response_data resp = JDict d ∧
            models_of Message.from_dict "messages" d l.
Proof.
  unfold MaxBotAPI.get_messages. cbn zeta.
  intros (resp & d & Hs & Hd & Hp)%models_inv.
  exists resp, d. split; [|split; [exact Hd|]].
  - eexists. split; [rewrite and_then_log; apply request_log | exact Hs].
  - unfold get, get_default in Hp. cbn [mbind result_bind] in Hp.
    by apply comprehension_models_of, models_bind_inv.
Qed.

(** The theorem of X12 at an answer with two messages. *)
Lemma get_messages_returns_all_witness :
  (MaxBotAPI.get_messages (model_bot_with (json_ok (JDict two_messages)))
     (Some 7%Z) None None None 50 None []).1 =
    Ok (Models [message_of_text_sender; message_from (PlainUser ann)]) ∧
  Message.from_dict (JDict message_with_text_sender) =
    Ok message_of_text_sender ∧
  Message.from_dict (JDict (Message.to_dict (message_from (PlainUser ann)))) =
    Ok (message_from (PlainUser ann)).
Proof.
  assert ((MaxBotAPI.get_messages
             (model_bot_with (json_ok (JDict two_messages)))
             (Some 7%Z) None None None 50 None []).1 =
          Ok (Models [message_of_text_sender; message_from (PlainUser ann)]))
    as Hcall by reflexivity.
  split; [exact Hcall|].
  destruct (get_messages_returns_all
              (model_bot_with (json_ok (JDict two_messages)))
              (Some 7%Z) None None None 50 None []
              [message_of_text_sender; message_from (PlainUser ann)] Hcall)
    as (resp & d & (req & _ & Hs) & Hd & Hm & _).
  injection Hs as <-. injection Hd as <-.
  specialize (Hm _ eq_refl).
  apply Forall2_cons_1 in Hm as [Hfirst Hm].
  apply Forall2_cons_1 in Hm as [Hsecond _].
  by split.
Defined.

(** ** The long poll *)

(** X13: the request of [get_updates] is a GET of [/updates] without a body
    whose query holds [limit] and the long-poll [timeout]; its HTTP timeout
    is the timeout of the client, whatever the long-poll timeout is; the
    query has a [marker] exactly when the caller gives one, and [types],
    joined by commas, exactly when the caller gives a non-empty list. *)
Theorem get_updates_request self limit timeout marker types as_models log :
  ∃ req,
    (MaxBotAPI.get_updates self limit timeout marker types as_models log).2 =
      (log ++ [req])%list ∧
    HttpRequest.method req = "GET" ∧
    HttpRequest.url req = MaxBotAPI._build_url self "/updates" ∧
    HttpRequest.json req = None ∧
    HttpRequest.timeout req = MaxBotAPI._timeout self ∧
    HttpRequest.params req !! "limit" = Some (JInt limit) ∧
    HttpRequest.params req !! "timeout" = Some (JInt timeout) ∧
    HttpRequest.params req !! "marker" = JInt <$> marker ∧
    HttpRequest.params req !! "types" =
      match types with
      | None | Some [] => None
      | Some l => Some (JStr (join "," l))
      end.
Proof.
  eexists. split.
  { unfold MaxBotAPI.get_updates. rewrite and_then_log. apply request_log. }
  cbn [MaxBotAPI.request_args HttpRequest.method HttpRequest.url
       HttpRequest.json HttpRequest.timeout HttpRequest.params].
  do 4 (split; [reflexivity|]).
  rewrite !request_query_lookup. unfold caller_value; cbn [mbind option_bind].
  unfold MaxBotAPI.set_if, MaxBotAPI.set_joined.
  destruct marker, types as [[|t ts]|]; repeat split; reflexivity.
Qed.

(** ** The answer as it is *)

Lemma answered_with_request {A} self method path params json_body
    (f : json → result A) log resp :
  answered_with self
    (and_then (MaxBotAPI._request self method path params json_body None) f)
    log resp →
  MaxBotAPI._session self
    (MaxBotAPI.request_args self method path params json_body None) = Ok resp.
Proof.
  intros (req & Hlog & Hs). rewrite and_then_log, request_log in Hlog.
  apply app_inv_head in Hlog. by injection Hlog as <-.
Qed.

Lemma raw_unless_mapping_and_then {A} self as_models method path params
    (build : json → result (returned A)) :
  raw_unless_mapping self as_models
    (and_then (MaxBotAPI._request self method path params None None)
       (λ data, if MaxBotAPI._should_use_models self as_models && is_mapping data
                then build data
                else Ok (Data data))).
Proof.
  intros log resp Hs%answered_with_request Hraw. unfold returns_data.
  rewrite and_then_result, (request_result _ _ _ _ _ _ _ _ Hs).
  destruct (MaxBotAPI.response_outcome _ _) as [data| |] eqn:Ho; [|done..].
  cbn [mbind result_bind]. destruct Hraw as [-> | Hm]; [done|].
  destruct data as [| | | | | |d]; try by rewrite andb_false_r.
  apply outcome_mapping in Ho. rewrite Ho in Hm. discriminate Hm.
Qed.

Lemma send_message_result self chat_id user_id text attachments
    disable_link_preview extra as_models log resp :
  ¬ (chat_id = None ∧ user_id = None) →
  answered_with self
    (MaxBotAPI.send_message self chat_id user_id text attachments
       disable_link_preview extra as_models) log resp →
  (MaxBotAPI.send_message self chat_id user_id text attachments
     disable_link_preview extra as_models log).1 =
  (data ← MaxBotAPI.response_outcome resp (MaxBotAPI.response_data resp);
   match data with
   | JDict d =>
       if MaxBotAPI._should_use_models self as_models then
         let msg := default JNull (d !! "message") in
         if is_mapping msg
         then m ← Message.from_dict msg; Ok (AsMessage m)
         else Ok (Raw data)
       else Ok (Raw data)
   | _ => Ok (Raw data)
   end).
Proof.
  intros Hnone (req & Hlog & Hs).
  rewrite send_message_request in Hlog by done.
  apply app_inv_head in Hlog. injection Hlog as <-.
  pose proof (request_result self "POST" "/messages"
                (Some (send_params chat_id user_id disable_link_preview))
                (Some (JDict (MaxBotAPI.message_body text attachments extra)))
                None log resp Hs) as Hr.
  revert Hr.
  unfold MaxBotAPI.send_message, send_params, MaxBotAPI.message_body,
    MaxBotAPI.set_if.
  destruct chat_id, user_id; try (exfalso; by apply Hnone);
    match goal with
    | |- context [MaxBotAPI._request ?s ?m ?p ?q ?b ?t ?l] =>
        destruct (MaxBotAPI._request s m p q b t l) as [r log0]
    end;
    cbn [fst]; intros ->;
    (destruct (MaxBotAPI.response_outcome _ _) as [data| |]; [|done..]);
    cbn [mbind result_bind]; destruct data; try done; repeat case_match; done.
Qed.

(** X14: a method with an [as_models] flag returns what [_request]
    returned, untouched, whenever [as_models] is [False], or is [None] on a
    client that does not use models, and also whenever the answer is no JSON
    mapping (a text, a list, a number): models are then never built and no
    decoding error can arise. *)
Theorem answer_returned_as_is self as_models :
  (∀ chat_id message_ids from_timestamp to_timestamp count,
     raw_unless_mapping self as_models
       (MaxBotAPI.get_messages self chat_id message_ids from_timestamp
          to_timestamp count as_models)) ∧
  (∀ message_id,
     raw_unless_mapping self as_models
       (MaxBotAPI.get_message self message_id as_models)) ∧
  (∀ limit timeout marker types,
     raw_unless_mapping self as_models
       (MaxBotAPI.get_updates self limit timeout marker types as_models)) ∧
  (∀ count marker,
     raw_unless_mapping self as_models
       (MaxBotAPI.get_chats self count marker as_models)) ∧
  (∀ chat_id,
     raw_unless_mapping self as_models
       (MaxBotAPI.get_chat self chat_id as_models)) ∧
  (∀ chat_link,
     raw_unless_mapping self as_models
       (MaxBotAPI.get_chat_by_link self chat_link as_models)) ∧
  (∀ chat_id,
     raw_unless_mapping self as_models
       (MaxBotAPI.get_pinned_message self chat_id as_models)) ∧
  (∀ chat_id user_ids marker count,
     raw_unless_mapping self as_models
       (MaxBotAPI.get_chat_members self chat_id user_ids marker count as_models)) ∧
  (∀ chat_id,
     raw_unless_mapping self as_models
       (MaxBotAPI.get_my_membership self chat_id as_models)) ∧
  (∀ chat_id,
     raw_unless_mapping self as_models
       (MaxBotAPI.get_chat_admins self chat_id as_models)) ∧
  (∀ chat_id user_id text attachments disable_link_preview extra log resp,
     ¬ (chat_id = None ∧ user_id = None) →
     answered_with self
       (MaxBotAPI.send_message self chat_id user_id text attachments
          disable_link_preview extra as_models) log resp →
     MaxBotAPI._should_use_models self as_models = false ∨
       is_mapping (MaxBotAPI.response_data resp) = false →
     (MaxBotAPI.send_message self chat_id user_id text attachments
        disable_link_preview extra as_models log).1 =
     (v ← MaxBotAPI.response_outcome resp (MaxBotAPI.response_data resp);
      Ok (Raw v))).
Proof.
  repeat split; intros; try apply raw_unless_mapping_and_then.
  match goal with
  | Hn : ¬ _, Ha : answered_with _ _ _ _ |- _ =>
      rewrite (send_message_result _ _ _ _ _ _ _ _ _ _ Hn Ha)
  end.
  destruct (MaxBotAPI.response_outcome _ _) as [data| |] eqn:Ho; [|done..].
  cbn [mbind result_bind].
  destruct data as [| | | | | |d]; try done.
  match goal with
  | Hraw : _ ∨ _ |- _ => destruct Hraw as [-> | Hm]; [done|]
  end.
  apply outcome_mapping in Ho. rewrite Ho in Hm. discriminate Hm.
Qed.

(** The theorem of X14 at an answer that is a list, for [get_chat] and for
    [send_message]. *)
Lemma answer_returned_as_is_witness :
  (MaxBotAPI.get_chat (model_bot_with list_answer) 7 None []).1 =
    Ok (Data (JList [JInt 1; JInt 2])) ∧
  (MaxBotAPI.send_message (model_bot_with list_answer) (Some 7%Z) None
     (Some "hello") None None None None []).1 =
    Ok (Raw (JList [JInt 1; JInt 2])).
Proof.
  destruct (answer_returned_as_is (model_bot_with list_answer) None)
    as (_ & _ & _ & _ & H & _ & _ & _ & _ & _ & Hsend).
  split.
  - apply (H 7%Z [] list_answer).
    + eexists. split; reflexivity.
    + right. reflexivity.
  - apply (Hsend (Some 7%Z) None (Some "hello") None None None []
             list_answer).
    + intros [E _]. discriminate E.
    + eexists. split; reflexivity.
    + right. reflexivity.
Defined.

(** ** The body of a message *)

Lemma message_body_lookup text attachments extra k :
  MaxBotAPI.message_body text attachments extra !! k =
  match caller_value extra k with
  | Some v => Some v
  | None =>
      if decide (k = "attachments")
      then (λ l, JList (JDict <$> l)) <$> attachments
      else if decide (k = "text") then JStr <$> text else None
  end.
Proof.
  unfold MaxBotAPI.message_body.
  set (body := match attachments with
               | Some l => <["attachments" := JList (JDict <$> l)]> _
               | None => _
               end).
  assert (Hb : body !! k =
               if decide (k = "attachments")
               then (λ l, JList (JDict <$> l)) <$> attachments
               else if decide (k = "text") then JStr <$> text else None).
  { unfold body. destruct attachments as [l|], text as [s|];
      repeat case_decide; subst; cbn [fmap option_fmap option_map];
      rewrite ?lookup_insert_eq, ?lookup_insert_ne, ?lookup_empty by done;
      done. }
  unfold caller_value. destruct extra as [e|]; cbn [mbind option_bind]; [|done].
  case_bool_decide as He.
  - subst e. by rewrite lookup_empty.
  - rewrite lookup_union. destruct (e !! k); [|by rewrite (left_id_L None (∪))].
    by destruct (body !! k).
Qed.

Lemma message_body_of text attachments extra :
  body_of text attachments extra (MaxBotAPI.message_body text attachments extra).
Proof.
  repeat split.
  - intros k v Hk. by rewrite message_body_lookup, Hk.
  - intros Hk. by rewrite message_body_lookup, Hk.
  - intros Hk. by rewrite message_body_lookup, Hk.
  - intros k H1 H2 Hk. rewrite message_body_lookup, Hk.
    by rewrite !decide_False.
Qed.

(** X15: [send_message], with a target, and [edit_message] always send a
    JSON body, an empty mapping when nothing is given.  The body holds every
    entry of [extra]; the text and the attachments are in it only under the
    keys that [extra] leaves free, so that a [text] entry of [extra]
    replaces the [text] argument. *)
Theorem extra_overrides_body self text attachments extra log :
  (∀ chat_id user_id disable_link_preview as_models,
     ¬ (chat_id = None ∧ user_id = None) →
     ∃ req body,
       (MaxBotAPI.send_message self chat_id user_id text attachments
          disable_link_preview extra as_models log).2 = (log ++ [req])%list ∧
       HttpRequest.json req = Some (JDict body) ∧
       body_of text attachments extra body) ∧
  (∀ message_id,
     ∃ req body,
       (MaxBotAPI.edit_message self message_id text attachments extra log).2 =
         (log ++ [req])%list ∧
       HttpRequest.method req = "PUT" ∧
       HttpRequest.params req !! "message_id" = Some (JStr message_id) ∧
       HttpRequest.json req = Some (JDict body) ∧
       body_of text attachments extra body).
Proof.
  split.
  - intros chat_id user_id dlp as_models Hnone. eexists _, _.
    split; [by apply send_message_request|].
    split; [reflexivity|]. apply message_body_of.
  - intros message_id. eexists _, _.
    split; [apply request_log|]. split; [reflexivity|].
    split; [|split; [reflexivity|apply message_body_of]].
    cbn [MaxBotAPI.request_args HttpRequest.params].
    by rewrite request_query_lookup.
Qed.

Lemma extra_overrides_body_witness :
  ∃ req body,
    (MaxBotAPI.send_message bot (Some 7%Z) None (Some "hello") None None
       (Some (mkdict [("text", JStr "bye"); ("notify", JBool false)]))
       None []).2 = [req] ∧
    HttpRequest.json req = Some (JDict body) ∧
    body !! "text" = Some (JStr "bye") ∧
    body !! "notify" = Some (JBool false).
Proof.
  destruct (extra_overrides_body bot (Some "hello") None
              (Some (mkdict [("text", JStr "bye"); ("notify", JBool false)])) [])
    as (H & _).
  destruct (H (Some 7%Z) None None None) as (req & body & Hlog & Hj & Hb & _).
  { intros [E _]. discriminate E. }
  exists req, body. split; [exact Hlog|]. split; [exact Hj|].
  split; apply Hb; reflexivity.
Defined.

(** ** Models of single messages *)

(** X16: on a client that returns models, [send_message] returns the model
    of the [message] of the answer when that entry is a mapping, and the
    exception of its decoder when the mapping does not decode; when the
    answer has no [message], or one that is no mapping, the call returns
    the answer as it is, without any error. *)
Theorem send_message_models self chat_id user_id text attachments
    disable_link_preview extra as_models log resp (d : dict) :
  ¬ (chat_id = None ∧ user_id = None) →
  MaxBotAPI._should_use_models self as_models = true →
  answered_with self
    (MaxBotAPI.send_message self chat_id user_id text attachments
       disable_link_preview extra as_models) log resp →
  MaxBotAPI.response_outcome resp (MaxBotAPI.response_data resp) = Ok (JDict d) →
  let r := (MaxBotAPI.send_message self chat_id user_id text attachments
              disable_link_preview extra as_models log).1 in
  (∀ msg, d !! "message" = Some (JDict msg) →
          r = (m ← Message.from_dict (JDict msg); Ok (AsMessage m))) ∧
  (no_mapping_at d "message" → r = Ok (Raw (JDict d))).
Proof.
  intros Hnone Hm Ha Ho. cbn zeta.
  rewrite (send_message_result _ _ _ _ _ _ _ _ _ _ Hnone Ha), Ho, Hm.
  cbn [mbind result_bind]. split.
  - by intros msg ->.
  - unfold no_mapping_at. by intros ->.
Qed.

Lemma send_message_models_witness :
  (MaxBotAPI.send_message (model_bot_with (json_ok (JDict answer_without_message)))
     (Some 7%Z) None (Some "hello") None None None None []).1 =
  Ok (Raw (JDict answer_without_message)).
Proof.
  apply (send_message_models
           (model_bot_with (json_ok (JDict answer_without_message)))
           (Some 7%Z) None (Some "hello") None None None None []
           (json_ok (JDict answer_without_message)) answer_without_message).
  - intros [E _]. discriminate E.
  - reflexivity.
  - eexists. split; reflexivity.
  - reflexivity.
  - reflexivity.
Defined.

(** X17: on a client that returns models, [get_pinned_message] returns
    [None] when the answer has no [message] or holds [None] there, the
    model of the message when the entry is a mapping, and the answer as it
    is when the entry is anything else. *)
Theorem get_pinned_message_models self chat_id as_models log resp (d : dict) :
  MaxBotAPI._should_use_models self as_models = true →
  answered_with self (MaxBotAPI.get_pinned_message self chat_id as_models)
    log resp →
  MaxBotAPI.response_outcome resp (MaxBotAPI.response_data resp) = Ok (JDict d) →
  let r := (MaxBotAPI.get_pinned_message self chat_id as_models log).1 in
  (absent_or_null d "message" → r = Ok (Models None)) ∧
  (∀ msg, d !! "message" = Some (JDict msg) →
          r = (m ← Message.from_dict (JDict msg); Ok (Models (Some m)))) ∧
  (no_mapping_at d "message" → ¬ absent_or_null d "message" →
   r = Ok (Data (JDict d))).
Proof.
  intros Hm Hs%answered_with_request Ho. cbn zeta.
  unfold MaxBotAPI.get_pinned_message.
  rewrite and_then_result, (request_result _ _ _ _ _ _ _ _ Hs), Ho, Hm.
  cbn [mbind result_bind andb is_mapping]. unfold get, get_default.
  cbn [mbind result_bind].
  unfold absent_or_null, no_mapping_at. split; [|split].
  - by intros ->.
  - by intros msg ->.
  - intros H1 H2. by destruct (default JNull (d !! "message")).
Qed.

Lemma get_pinned_message_models_witness :
  (MaxBotAPI.get_pinned_message (model_bot_with (json_ok (JDict nothing_pinned)))
     7 None []).1 = Ok (Models None).
Proof.
  apply (get_pinned_message_models
           (model_bot_with (json_ok (JDict nothing_pinned))) 7%Z None []
           (json_ok (JDict nothing_pinned)) nothing_pinned).
  - reflexivity.
  - eexists. split; reflexivity.
  - reflexivity.
  - reflexivity.
Defined.

(** ** Paths *)

(** X18: a chat link goes into the path as it is, without any escaping:
    the link that is the decimal text of a chat identifier makes
    [get_chat_by_link] behave as [get_chat] on that identifier, and a link
    with a slash in it reaches the resource below the chat, here the one of
    [get_pinned_message]. *)
Theorem chat_link_is_not_escaped self chat_id as_models log :
  MaxBotAPI.get_chat_by_link self (pretty chat_id) as_models log =
    MaxBotAPI.get_chat self chat_id as_models log ∧
  (MaxBotAPI.get_chat_by_link self (pretty chat_id +:+ "/pin") as_models log).2 =
    (MaxBotAPI.get_pinned_message self chat_id as_models log).2.
Proof.
  split; [reflexivity|].
  unfold MaxBotAPI.get_chat_by_link, MaxBotAPI.get_pinned_message.
  by rewrite !and_then_log.
Qed.

Lemma build_url_absolute self path :
  startswith_slash path = true →
  MaxBotAPI._build_url self path = MaxBotAPI._base_url self +:+ path.
Proof. intros H. unfold MaxBotAPI._build_url. by rewrite H. Qed.

(** X19: [get_chat] sends different requests for different chats: the
    decimal text of an identifier determines the identifier, and the URL of
    the request determines the path. *)
Theorem get_chat_url_determines_chat self a b as_models log :
  a ≠ b →
  (MaxBotAPI.get_chat self a as_models log).2 ≠
    (MaxBotAPI.get_chat self b as_models log).2.
Proof.
  intros Hne H. apply Hne. revert H.
  unfold MaxBotAPI.get_chat. rewrite !and_then_log, !request_log.
  intros H%app_inv_head. injection H as H.
  rewrite !build_url_absolute in H by done.
  apply (inj (String.app _)) in H. apply (inj (String.app _)) in H.
  by apply (inj pretty) in H.
Qed.

Lemma get_chat_url_determines_chat_witness :
  (MaxBotAPI.get_chat bot 7 None []).2 ≠ (MaxBotAPI.get_chat bot 70 None []).2.
Proof. apply get_chat_url_determines_chat. discriminate. Defined.

Lemma rstrip_slash_slashes n : rstrip_slash (slashes n) = EmptyString.
Proof. induction n as [|n IH]; [done|]. cbn. by rewrite IH. Qed.

Lemma rstrip_slash_app_slashes s n :
  rstrip_slash (s +:+ slashes n) = rstrip_slash s.
Proof.
  induction s as [|c s IH]; [apply rstrip_slash_slashes|].
  change (String c s +:+ slashes n) with (String c (s +:+ slashes n)).
  cbn [rstrip_slash]. by rewrite IH.
Qed.

(** X20: slashes at the end of the base URL make no difference: a client
    built from a base URL and one built from the same URL followed by any
    number of slashes are the same client, so that they build the same URL
    for every path. *)
Theorem trailing_slashes_are_dropped access_token base_url n timeout session
    use_models :
  MaxBotAPI.__init__ access_token (base_url +:+ slashes n) timeout session
    use_models =
  MaxBotAPI.__init__ access_token base_url timeout session use_models.
Proof. unfold MaxBotAPI.__init__. by rewrite rstrip_slash_app_slashes. Qed.

(** ** The keyboard helpers *)

(** X21: a button built by [inline_button] holds its type, its text and
    every other keyword of the call, and nothing else. *)
Theorem inline_button_entries type text (payload_fields : dict) :
  payload_fields !! "type" = None →
  payload_fields !! "text" = None →
  let button := MaxBotAPI.inline_button type text payload_fields in
  button !! "type" = Some (JStr type) ∧
  button !! "text" = Some (JStr text) ∧
  ∀ k, k ≠ "type" → k ≠ "text" → button !! k = payload_fields !! k.
Proof.
  intros H1 H2; cbn zeta. unfold MaxBotAPI.inline_button.
  rewrite !lookup_union, H1, H2. repeat split.
  intros k Hk1 Hk2. rewrite lookup_union.
  unfold mkdict; cbn [fold_left fst snd].
  rewrite !lookup_insert_ne, lookup_empty by done.
  by destruct (payload_fields !! k).
Qed.

Lemma inline_button_entries_witness :
  callback_button !! "type" = Some (JStr "callback") ∧
  callback_button !! "text" = Some (JStr "Yes") ∧
  ∀ k, k ≠ "type" → k ≠ "text" →
       callback_button !! k = mkdict [("payload", JStr "yes")] !! k.
Proof.
  apply (inline_button_entries "callback" "Yes"
           (mkdict [("payload", JStr "yes")])); reflexivity.
Defined.

(** X22: the attachment that [inline_keyboard] builds goes through the
    codec unchanged: it decodes into an Attachment of type
    [inline_keyboard] whose encoding is the mapping that was built, and its
    payload lists the rows in their order, one list of buttons for each. *)
Theorem inline_keyboard_decodes rows :
  ∃ a, Attachment.from_dict (JDict (MaxBotAPI.inline_keyboard rows)) = Ok a ∧
       Attachment.type a = JStr "inline_keyboard" ∧
       Attachment.payload a =
         JDict (mkdict [("buttons",
                           JList ((λ row, JList (JDict <$> row)) <$> rows))]) ∧
       Attachment.to_dict a = MaxBotAPI.inline_keyboard rows.
Proof. eexists. repeat split. Qed.

(** ** The text of an error *)

Lemma join_parts_strings sep (l : list string) :
  join_parts sep (JStr <$> l) = Ok (join sep l).
Proof.
  unfold join_parts.
  assert (H : mapM (λ v, match v with JStr s => Ok s | _ => Raise TypeError end)
                (JStr <$> l) = Ok l).
  { induction l as [|s l IH]; [done|]. by rewrite fmap_cons, mapM_cons, IH. }
  by rewrite H.
Qed.

Lemma truthy_string s : s ≠ EmptyString → truthy (JStr s) = true.
Proof. by destruct s. Qed.

(** X23: the error that [_request] raises for a failure without a JSON
    mapping prints as [HTTP] and the status; the error of a failure whose
    mapping has a code and a message that are non-empty strings prints as
    the status, the code and the message, separated by colons. *)
Theorem error_text self method path params json_body timeout log resp :
  MaxBotAPI._session self
    (MaxBotAPI.request_args self method path params json_body timeout) = Ok resp →
  Response.ok resp = false →
  ∃ e,
    (MaxBotAPI._request self method path params json_body timeout log).1 =
      Raise (APIError e) ∧
    (is_mapping (MaxBotAPI.response_data resp) = false →
     MaxAPIError__str__ e = Ok ("HTTP " +:+ pretty (Response.status_code resp))) ∧
    (∀ (d : dict) c m,
       MaxBotAPI.response_data resp = JDict d →
       d !! "code" = Some (JStr c) → c ≠ EmptyString →
       d !! "message" = Some (JStr m) → m ≠ EmptyString →
       MaxAPIError__str__ e =
       Ok ("HTTP " +:+ pretty (Response.status_code resp) +:+
           ": code=" +:+ c +:+ ": " +:+ m)).
Proof.
  intros Hs Hok. rewrite (request_result _ _ _ _ _ _ _ _ Hs).
  unfold MaxBotAPI.response_outcome. rewrite Hok.
  change (negb false) with true. cbv iota.
  destruct (MaxBotAPI.response_data resp) as [| | | | | |d];
    eexists; (split; [reflexivity|]); (split; [try done; by intros _|]);
    intros d' c m Hd Hc Hce Hm Hme; try done.
  injection Hd as <-.
  unfold MaxAPIError__str__; cbn [error_code message status_code].
  rewrite Hc, Hm. cbn [default from_option id].
  rewrite !truthy_string by done. cbn [format_value mbind result_bind app].
  change [JStr ?a; JStr ?b; JStr ?c] with (JStr <$> [a; b; c]).
  rewrite join_parts_strings. reflexivity.
Qed.

Lemma error_text_witness :
  ∃ e,
    (MaxBotAPI._request (bot_with chat_not_found) "GET" "/chats/1"
       None None None []).1 = Raise (APIError e) ∧
    MaxAPIError__str__ e = Ok "HTTP 404: code=chat_not_found: no such chat".
Proof.
  destruct (error_text (bot_with chat_not_found) "GET" "/chats/1"
              None None None [] chat_not_found eq_refl eq_refl)
    as (e & He & _ & Hm).
  exists e. split; [exact He|].
  apply (Hm chat_not_found_body "chat_not_found" "no such chat");
    (reflexivity || discriminate).
Defined.

(** X24: when the message of an error is not a string and not falsy (a
    number, a list, a mapping, as the platform may send), and its code is
    absent or is a string, an integer or a boolean, printing the error
    raises TypeError. *)
Theorem error_text_of_other_message e :
  truthy (message e) = true →
  (∀ s, message e ≠ JStr s) →
  truthy (error_code e) = false ∨ (∃ s, format_value (error_code e) = Ok s) →
  MaxAPIError__str__ e = Raise TypeError.
Proof.
  intros Ht Hm Hc. unfold MaxAPIError__str__. rewrite Ht.
  assert (Hlast : ∀ l : list string,
            join_parts ": " ((JStr <$> l) ++ [message e]) = Raise TypeError).
  { intros l. unfold join_parts.
    assert (H : mapM (λ v, match v with JStr s => Ok s | _ => Raise TypeError end)
                  ((JStr <$> l) ++ [message e]) = Raise TypeError).
    { induction l as [|s l IH].
      - cbn. destruct (message e); try done. by destruct (Hm s).
      - rewrite fmap_cons. cbn [app]. rewrite mapM_cons, IH. done. }
    by rewrite H. }
  destruct Hc as [-> | [s Hs]].
  - cbn [mbind result_bind]. apply (Hlast [_]).
  - destruct (truthy (error_code e)).
    + rewrite Hs. cbn [mbind result_bind app]. apply (Hlast [_; _]).
    + cbn [mbind result_bind]. apply (Hlast [_]).
Qed.

Lemma error_text_of_other_message_witness :
  ∃ e,
    (MaxBotAPI._request (bot_with numeric_message) "GET" "/me"
       None None None []).1 = Raise (APIError e) ∧
    MaxAPIError__str__ e = Raise TypeError.
Proof.
  eexists. split; [reflexivity|].
  apply error_text_of_other_message.
  - reflexivity.
  - intros s. discriminate.
  - left. reflexivity.
Defined.

(** ** Administrators *)

(** X25: the body that [set_chat_admins] sends lists the administrators in
    the form that [get_chat_admins] decodes: decoding the body as a page of
    administrators gives the same administrators, in the same order. *)
Theorem set_chat_admins_body self chat_id admins log :
  ∃ req body,
    (MaxBotAPI.set_chat_admins self chat_id admins log).2 = (log ++ [req])%list ∧
    HttpRequest.method req = "PUT" ∧
    HttpRequest.json req = Some (JDict body) ∧
    MaxBotAPI.decode_page ChatAdmin.from_dict "admins" (JDict body) =
      Ok (mkpage JNull admins).
Proof.
  eexists _, _. split; [apply request_log|]. do 2 (split; [reflexivity|]).
  unfold MaxBotAPI.decode_page, get, get_default. cbn [mbind result_bind].
  change (default JNull (mkdict _ !! "admins"))
    with (JList ((λ a, JDict (ChatAdmin.to_dict a)) <$> admins)).
  assert (H : comprehension ChatAdmin.from_dict
                (py_or (JList ((λ a, JDict (ChatAdmin.to_dict a)) <$> admins))
                   (JList [])) = Ok admins).
  { transitivity (mapM ChatAdmin.from_dict
                    ((λ a, JDict (ChatAdmin.to_dict a)) <$> admins)).
    { by destruct admins. }
    induction admins as [|a l IH]; [done|].
    by rewrite fmap_cons, mapM_cons, ChatAdmin_roundtrip, IH. }
  by rewrite H.
Qed.

(** ** The filters of a list of messages *)

(** X26: the query of [get_messages] always holds [count], also when
    message identifiers are given; it holds [chat_id], [from] and [to]
    exactly when they are given, and [message_ids], joined by commas,
    exactly when the list is not empty.  The client sends identifiers and
    time bounds together when it gets both. *)
Theorem get_messages_request self chat_id message_ids from_timestamp
    to_timestamp count as_models log :
  ∃ req,
    (MaxBotAPI.get_messages self chat_id message_ids from_timestamp
       to_timestamp count as_models log).2 = (log ++ [req])%list ∧
    HttpRequest.method req = "GET" ∧
    HttpRequest.url req = MaxBotAPI._build_url self "/messages" ∧
    HttpRequest.json req = None ∧
    HttpRequest.params req !! "count" = Some (JInt count) ∧
    HttpRequest.params req !! "chat_id" = JInt <$> chat_id ∧
    HttpRequest.params req !! "from" = JInt <$> from_timestamp ∧
    HttpRequest.params req !! "to" = JInt <$> to_timestamp ∧
    HttpRequest.params req !! "message_ids" =
      match message_ids with
      | None | Some [] => None
      | Some l => Some (JStr (join "," l))
      end.
Proof.
  eexists. split.
  { unfold MaxBotAPI.get_messages. rewrite and_then_log. apply request_log. }
  cbn [MaxBotAPI.request_args HttpRequest.method HttpRequest.url
       HttpRequest.json HttpRequest.params].
  do 3 (split; [reflexivity|]).
  rewrite !request_query_lookup. unfold caller_value; cbn [mbind option_bind].
  unfold MaxBotAPI.set_if, MaxBotAPI.set_joined.
  destruct chat_id, from_timestamp, to_timestamp, message_ids as [[|t ts]|];
    repeat split; reflexivity.
Qed.

(** ** Failures through the methods *)

Lemma raises_on_failure_and_then {A} self method path params json_body
    (f : json → result A) :
  raises_on_failure self
    (and_then (MaxBotAPI._request self method path params json_body None) f).
Proof.
  intros log resp Hs%answered_with_request Hok.
  rewrite and_then_result, (request_result _ _ _ _ _ _ _ _ Hs).
  unfold MaxBotAPI.response_outcome. rewrite Hok.
  change (negb false) with true. cbv iota.
  destruct (MaxBotAPI.response_data resp); eexists; split; reflexivity.
Qed.

(** X27: a failure answer comes out of every method that can return models
    as a MaxAPIError with the status of the answer, whatever [as_models]
    is and whatever the body holds: nothing is decoded from a failure. *)
Theorem failure_raises_through_methods self as_models :
  (∀ chat_id message_ids from_timestamp to_timestamp count,
     raises_on_failure self
       (MaxBotAPI.get_messages self chat_id message_ids from_timestamp
          to_timestamp count as_models)) ∧
  (∀ message_id,
     raises_on_failure self (MaxBotAPI.get_message self message_id as_models)) ∧
  (∀ chat_id user_id text attachments disable_link_preview extra,
     ¬ (chat_id = None ∧ user_id = None) →
     raises_on_failure self
       (MaxBotAPI.send_message self chat_id user_id text attachments
          disable_link_preview extra as_models)) ∧
  (∀ limit timeout marker types,
     raises_on_failure self
       (MaxBotAPI.get_updates self limit timeout marker types as_models)) ∧
  (∀ count marker,
     raises_on_failure self (MaxBotAPI.get_chats self count marker as_models)) ∧
  (∀ chat_id,
     raises_on_failure self (MaxBotAPI.get_chat self chat_id as_models)) ∧
  (∀ chat_link,
     raises_on_failure self
       (MaxBotAPI.get_chat_by_link self chat_link as_models)) ∧
  (∀ chat_id,
     raises_on_failure self
       (MaxBotAPI.get_pinned_message self chat_id as_models)) ∧
  (∀ chat_id user_ids marker count,
     raises_on_failure self
       (MaxBotAPI.get_chat_members self chat_id user_ids marker count as_models)) ∧
  (∀ chat_id,
     raises_on_failure self
       (MaxBotAPI.get_my_membership self chat_id as_models)) ∧
  (∀ chat_id,
     raises_on_failure self
       (MaxBotAPI.get_chat_admins self chat_id as_models)).
Proof.
  repeat split; intros; try apply raises_on_failure_and_then.
  intros log resp Ha Hok.
  rewrite (send_message_result _ _ _ _ _ _ _ _ _ _ H Ha).
  unfold MaxBotAPI.response_outcome. rewrite Hok.
  change (negb false) with true. cbv iota.
  destruct (MaxBotAPI.response_data resp); eexists; split; reflexivity.
Qed.

Lemma failure_raises_through_methods_witness :
  ∃ e, (MaxBotAPI.get_chat (model_bot_with failure_with_chat) 7 None []).1 =
         Raise (APIError e) ∧
       status_code e = 403%Z.
Proof.
  destruct (failure_raises_through_methods (model_bot_with failure_with_chat) None)
    as (_ & _ & _ & _ & _ & H & _).
  apply (H 7%Z [] failure_with_chat).
  - eexists. split; reflexivity.
  - reflexivity.
Defined.
